(** * Receipt scanner: the extraction-and-normalisation pipeline of
      [app/api/scan-receipt/route.ts] and the schema of [models/Expense.ts]

    - Part 1, [JS]: the part of the ECMAScript run-time the route relies on
      (strings of UTF-16 code units, IEEE-754 binary64 numbers, truthiness,
      [ToString], [parseFloat], [Math.min]/[Math.max], regular expressions
      matched by backtracking, exceptions with [try]/[catch]).
    - Part 2, [JSON]: a reference decoder for the JSON grammar, used to run
      the pipeline on concrete texts.  The general theorems hold for any
      decoder.
    - Part 3: the route itself, [analyzeReceiptText] and the two branches of
      [POST], with the validators declared by [ExpenseSchema] and a sample
      host.
    - Part 4: the predicates the statements use and the sample inputs.
    - Part 5: the rest of the repository: the handler from the text of the
      request, the ISO date of a time value, the cached database connection
      of [lib/mongodb.ts], the computations of the finance page and of the
      scan page, and the reading of the answer in the earlier route.
    - Part 6 and Part 7: the properties. *)

From Stdlib Require Import ZArith NArith List String Ascii Bool Lia.
From Stdlib Require Import Permutation.
From Stdlib Require Import SpecFloat.
Import ListNotations.

Local Open Scope Z_scope.

#[local] Set Warnings "-register-all".

(* ================================================================== *)
(** * Part 1. The ECMAScript run-time *)
(* ================================================================== *)

Module JS.

(** ** Strings: sequences of UTF-16 code units *)

Definition jschar := N.
Definition jsstring := list jschar.

Definition ch (a : ascii) : jschar := N_of_ascii a.

Fixpoint lit (s : string) : jsstring :=
  match s with
  | EmptyString => []
  | String a s' => ch a :: lit s'
  end.

Fixpoint str_eqb (a b : jsstring) : bool :=
  match a, b with
  | [], [] => true
  | x :: a', y :: b' => N.eqb x y && str_eqb a' b'
  | _, _ => false
  end.

Definition in_range (lo hi c : jschar) : bool := (N.leb lo c && N.leb c hi)%bool.

(** LineTerminator: LF, CR, LS, PS. *)
Definition isLineTerminator (c : jschar) : bool :=
  (N.eqb c 10 || N.eqb c 13 || N.eqb c 8232 || N.eqb c 8233)%N.

(** WhiteSpace and LineTerminator together: the class [\s], also what
    [String.prototype.trim] and [parseFloat] strip. *)
Definition isWhiteSpace (c : jschar) : bool :=
  (in_range 9 13 c || N.eqb c 32 || N.eqb c 160 || N.eqb c 5760
   || in_range 8192 8202 c || N.eqb c 8232 || N.eqb c 8233 || N.eqb c 8239
   || N.eqb c 8287 || N.eqb c 12288 || N.eqb c 65279)%N.

Definition isDigit (c : jschar) : bool := in_range 48%N 57%N c.

Fixpoint trimStart (s : jsstring) : jsstring :=
  match s with
  | c :: s' => if isWhiteSpace c then trimStart s' else s
  | [] => []
  end.

Definition trim (s : jsstring) : jsstring :=
  rev (trimStart (rev (trimStart s))).

Fixpoint starts_with (p s : jsstring) : option jsstring :=
  match p, s with
  | [], _ => Some s
  | x :: p', y :: s' => if N.eqb x y then starts_with p' s' else None
  | _ :: _, [] => None
  end.

(** ** Numbers: IEEE-754 binary64, as [spec_float] with [prec = 53] and
       [emax = 1024] *)

Definition number := spec_float.

Definition prec : Z := 53.
Definition emax : Z := 1024.

Definition NaN : number := S754_nan.
Definition Infinity : number := S754_infinity false.

(** The binary64 value nearest to [m * 10 ^ e] (ties to even), the rounding
    that converts decimal text to a Number value. *)
Definition round_decimal (neg : bool) (m : Z) (e : Z) : number :=
  match m with
  | Zpos p =>
      if 0 <=? e
      then binary_normalize prec emax
             (if neg then - (m * 10 ^ e) else m * 10 ^ e) 0 neg
      else
        let '(q, e', l) := SFdiv_core_binary prec emax m 0 (10 ^ (- e)) 0 in
        binary_round_aux prec emax neg q e' l
  | _ => S754_zero neg
  end.

Definition digit_val (c : jschar) : Z := Z.of_N c - 48.

Definition digits_val (ds : jsstring) : Z :=
  fold_left (fun acc c => 10 * acc + digit_val c) ds 0.

Fixpoint span (p : jschar -> bool) (s : jsstring) : jsstring * jsstring :=
  match s with
  | c :: s' => if p c then let '(a, b) := span p s' in (c :: a, b) else ([], s)
  | [] => ([], [])
  end.

(** Optional exponent part [e|E (+|-)? digits]; absent or incomplete, it
    contributes nothing and is left unread. *)
Definition read_exponent (s : jsstring) : Z * jsstring :=
  match s with
  | c :: s1 =>
      if (N.eqb c (ch "e") || N.eqb c (ch "E"))%bool then
        let '(sg, s2) :=
          match s1 with
          | d :: s2 =>
              if N.eqb d (ch "-") then (true, s2)
              else if N.eqb d (ch "+") then (false, s2)
              else (false, s1)
          | [] => (false, s1)
          end in
        match span isDigit s2 with
        | ([], _) => (0, s)
        | (ds, rest) => ((if sg then - digits_val ds else digits_val ds), rest)
        end
      else (0, s)
  | [] => (0, s)
  end.

(** The longest prefix that is a StrUnsignedDecimalLiteral, and its value. *)
Definition read_unsigned (neg : bool) (s : jsstring) : number :=
  match starts_with (lit "Infinity") s with
  | Some _ => S754_infinity neg
  | None =>
      let '(ip, s1) := span isDigit s in
      let '(fp, s2) :=
        match s1 with
        | c :: s1' => if N.eqb c (ch ".") then span isDigit s1' else ([], s1)
        | [] => ([], s1)
        end in
      match ip, fp with
      | [], [] => NaN
      | _, _ =>
          let '(ex, _) := read_exponent s2 in
          round_decimal neg (digits_val (ip ++ fp)) (ex - Z.of_nat (List.length fp))
      end
  end.

(** [parseFloat] applied to a string. *)
Definition parseFloat_string (s : jsstring) : number :=
  match trimStart s with
  | c :: s' =>
      if N.eqb c (ch "-") then read_unsigned true s'
      else if N.eqb c (ch "+") then read_unsigned false s'
      else read_unsigned false (c :: s')
  | [] => NaN
  end.

(** A numeric literal of the source text. *)
Definition num (s : string) : number := parseFloat_string (lit s).

(** *** Truthiness and order *)

Definition isNaN (x : number) : bool :=
  match x with S754_nan => true | _ => false end.

Definition isZero (x : number) : bool :=
  match x with S754_zero _ => true | _ => false end.

(** ToBoolean on a Number: every number but [+0], [-0] and [NaN]. *)
Definition truthy_number (x : number) : bool := negb (isZero x || isNaN x).

(** The comparisons [x < y] and [x <= y] of the language. *)
Definition num_ltb (x y : number) : bool := SFltb x y.
Definition num_leb (x y : number) : bool := SFleb x y.

(** [Math.max] and [Math.min] on two arguments: [NaN] is contagious and
    [+0] counts as larger than [-0]. *)
Definition Math_max (a b : number) : number :=
  match SFcompare a b with
  | None => NaN
  | Some Lt => b
  | Some Gt => a
  | Some Eq => match a with S754_zero true => b | _ => a end
  end.

Definition Math_min (a b : number) : number :=
  match SFcompare a b with
  | None => NaN
  | Some Lt => a
  | Some Gt => b
  | Some Eq => match a with S754_zero false => b | _ => a end
  end.

(** *** Number::toString (radix 10) *)

Fixpoint digits_of_aux (fuel : nat) (n : Z) (acc : jsstring) : jsstring :=
  match fuel with
  | O => acc
  | S f =>
      let acc' := N.add 48 (Z.to_N (n mod 10)) :: acc in
      if n <? 10 then acc' else digits_of_aux f (n / 10) acc'
  end.

(** Decimal digits of a non-negative integer, most significant first. *)
Definition digits_of (n : Z) : jsstring :=
  digits_of_aux (S (Z.to_nat (Z.log2 n))) n [].

(** [q_scale10 (p, q) j] is the fraction [p / q * 10 ^ j]. *)
Definition q_scale10 (v : Z * Z) (j : Z) : Z * Z :=
  let '(p, q) := v in
  if 0 <=? j then (p * 10 ^ j, q) else (p, q * 10 ^ (- j)).

(** The [n] with [10 ^ (n - 1) <= p / q < 10 ^ n], for [p / q > 0]. *)
Definition decade (v : Z * Z) : Z :=
  let '(p, q) := v in
  if q <=? p then Z.of_nat (List.length (digits_of (p / q)))
  else
    let d := Z.of_nat (List.length (digits_of (q / p))) in
    (* 10^(d-1) <= q/p, so p/q <= 10^(1-d); the decade is 1-d or 2-d *)
    if (p * 10 ^ (d - 1) <? q) then 1 - d else 2 - d.

(** One candidate [(s, n)] for [k] digits: does [s * 10 ^ (n - k)] round to
    [x]? *)
Definition roundtrips (x : number) (k : Z) (c : Z * Z) : bool :=
  let '(s, n) := c in
  match SFcompare (round_decimal false s (n - k)) x with
  | Some Eq => true
  | _ => false
  end.

(** The candidates with [k] digits around the exact value [v], the nearer
    one first (the even one on a tie). *)
Definition candidates (v : Z * Z) (n k : Z) : list (Z * Z) :=
  let '(p, q) := q_scale10 v (k - n) in
  let lo := p / q in
  let r := p mod q in
  let up := if lo + 1 <? 10 ^ k then (lo + 1, n) else (10 ^ (k - 1), n + 1) in
  if r =? 0 then [(lo, n)]
  else
    match 2 * r ?= q with
    | Lt => [(lo, n); up]
    | Gt => [up; (lo, n)]
    | Eq => if Z.even lo then [(lo, n); up] else [up; (lo, n)]
    end.

Fixpoint shortest (fuel : nat) (x : number) (v : Z * Z) (n k : Z)
  : Z * Z * Z :=
  match fuel with
  | O => (0, n, k)
  | S f =>
      match filter (roundtrips x k) (candidates v n k) with
      | (s, n') :: _ => (s, n', k)
      | [] => shortest f x v n (k + 1)
      end
  end.

Fixpoint zeros (n : nat) : jsstring :=
  match n with O => [] | S n' => N.add 48 0 :: zeros n' end.

Definition format_decimal (s n k : Z) : jsstring :=
  let ds := digits_of s in
  if (-5 <=? n) && (n <=? 21) then
    if k <=? n then ds ++ zeros (Z.to_nat (n - k))
    else if 0 <? n then
      firstn (Z.to_nat n) ds ++ lit "." ++ skipn (Z.to_nat n) ds
    else lit "0." ++ zeros (Z.to_nat (- n)) ++ ds
  else
    let e := lit "e" ++ (if n <? 0 then lit "-" else lit "+")
             ++ digits_of (Z.abs (n - 1)) in
    if k =? 1 then ds ++ e
    else firstn 1 ds ++ lit "." ++ skipn 1 ds ++ e.

Definition Number_toString (x : number) : jsstring :=
  match x with
  | S754_nan => lit "NaN"
  | S754_zero _ => lit "0"
  | S754_infinity s => if s then lit "-Infinity" else lit "Infinity"
  | S754_finite sg m e =>
      let v := if 0 <=? e then (Zpos m * 2 ^ e, 1) else (Zpos m, 2 ^ (- e)) in
      let '(s, n, k) :=
        shortest 17 (S754_finite false m e) v (decade v) 1 in
      (if sg then lit "-" else []) ++ format_decimal s n k
  end.

(** ** Exceptions *)

Inductive JSError : Type :=
| TypeError
| SyntaxError
| ValidationError
| ServiceError.

Inductive M (A : Type) : Type :=
| Ok (a : A)
| Throw (e : JSError).

Arguments Ok {A} a.
Arguments Throw {A} e.

Definition bind {A B : Type} (m : M A) (k : A -> M B) : M B :=
  match m with
  | Ok a => k a
  | Throw e => Throw e
  end.

(** [try { m } catch (e) { h e }] *)
Definition try_catch {A : Type} (m : M A) (h : JSError -> M A) : M A :=
  match m with
  | Ok a => Ok a
  | Throw e => h e
  end.

Notation "x <- m ;; k" := (bind m (fun x => k))
  (at level 61, m at next level, right associativity).

Fixpoint mapM {A B : Type} (f : A -> M B) (l : list A) : M (list B) :=
  match l with
  | [] => Ok []
  | a :: l' => b <- f a ;; bs <- mapM f l' ;; Ok (b :: bs)
  end.

(** ** Values

    The values a decoded JSON text is made of, and [undefined].  An object is
    the list of its members as written; on a repeated key the last member is
    the property. *)

Inductive value : Type :=
| VUndef
| VNull
| VBool (b : bool)
| VNum (x : number)
| VStr (s : jsstring)
| VArr (l : list value)
| VObj (m : list (jsstring * value)).

Definition has_key (k : jsstring) (m : list (jsstring * value)) : bool :=
  existsb (fun kv => str_eqb (fst kv) k) m.

Fixpoint lookup (k : jsstring) (m : list (jsstring * value)) : option value :=
  match m with
  | [] => None
  | (k', v) :: m' =>
      match lookup k m' with
      | Some r => Some r
      | None => if str_eqb k' k then Some v else None
      end
  end.

(** Property read [v.k], for the data keys the route reads ([vendor],
    [total], [name], [manual], ...): none of them is a property of a built-in
    prototype, so the read finds an own property or [undefined].  Reading a
    property of [undefined] or [null] throws. *)
Definition Get (v : value) (k : string) : M value :=
  match v with
  | VUndef | VNull => Throw TypeError
  | VObj m =>
      Ok (match lookup (lit k) m with Some x => x | None => VUndef end)
  | _ => Ok VUndef
  end.

(** ToBoolean *)
Definition truthy (v : value) : bool :=
  match v with
  | VUndef | VNull => false
  | VBool b => b
  | VNum x => truthy_number x
  | VStr s => match s with [] => false | _ => true end
  | VArr _ | VObj _ => true
  end.

(** [a || b] on values and on numbers *)
Definition or_else (a b : value) : value := if truthy a then a else b.
Definition num_or (a b : number) : number := if truthy_number a then a else b.

Definition Array_isArray (v : value) : bool :=
  match v with VArr _ => true | _ => false end.

(** [labels.includes(v)] for an array of strings: SameValueZero, so only a
    string with exactly the same code units is found. *)
Definition includes (labels : list jsstring) (v : value) : bool :=
  match v with
  | VStr s => existsb (str_eqb s) labels
  | _ => false
  end.

(** [v === true] *)
Definition is_true (v : value) : bool :=
  match v with VBool true => true | _ => false end.

(** ToString.  An array joins its elements with commas, [undefined] and
    [null] elements giving the empty string.  An ordinary object gives
    ["[object Object]"], unless it has an own [toString] member: that member
    is not callable, [valueOf] gives back the object, and the conversion
    throws a TypeError. *)
Fixpoint ToString (v : value) : M jsstring :=
  match v with
  | VUndef => Ok (lit "undefined")
  | VNull => Ok (lit "null")
  | VBool b => Ok (if b then lit "true" else lit "false")
  | VNum x => Ok (Number_toString x)
  | VStr s => Ok s
  | VArr l =>
      (fix join (l : list value) : M jsstring :=
         match l with
         | [] => Ok []
         | e :: l' =>
             s <- match e with
                  | VUndef | VNull => Ok []
                  | _ => ToString e
                  end ;;
             r <- join l' ;;
             Ok (match l' with [] => s | _ => s ++ lit "," ++ r end)
         end) l
  | VObj m =>
      if has_key (lit "toString") m then Throw TypeError
      else Ok (lit "[object Object]")
  end.

(** [parseFloat(v)]: the argument is converted to a string first. *)
Definition parseFloat (v : value) : M number :=
  s <- ToString v ;; Ok (parseFloat_string s).

(** ** Dates

    A Date object is its time value, [None] for an Invalid Date.  How a
    string is read as a date is left to the host outside the ISO format, so
    [Date.parse] is a parameter. *)

Definition JSDate := option Z.

Definition truncate (x : number) : option Z :=
  match x with
  | S754_zero _ => Some 0
  | S754_finite s m e =>
      let a := if 0 <=? e then Zpos m * 2 ^ e else Zpos m / 2 ^ (- e) in
      Some (if s then - a else a)
  | _ => None
  end.

Definition TimeClip (t : option Z) : JSDate :=
  match t with
  | Some z => if Z.abs z <=? 8640000000000000 then Some z else None
  | None => None
  end.

(** [new Date(v)] *)
Definition new_Date (Date_parse : jsstring -> option Z) (v : value)
  : M JSDate :=
  match v with
  | VStr s => Ok (TimeClip (Date_parse s))
  | VArr _ | VObj _ => s <- ToString v ;; Ok (TimeClip (Date_parse s))
  | VUndef => Ok None
  | VNull => Ok (Some 0)
  | VBool b => Ok (Some (if b then 1 else 0))
  | VNum x => Ok (TimeClip (truncate x))
  end.

(** ** Regular expressions

    The fragment the route uses: character classes, greedy [*] and [+] on a
    class, sequence, alternation and capturing groups, matched by
    backtracking; [String_match] is [String.prototype.match] for a pattern
    without the [g] flag. *)

Inductive regex : Type :=
| Empty
| Class (p : jschar -> bool)
| Star (p : jschar -> bool)
| Plus (p : jschar -> bool)
| Seq (a b : regex)
| Alt (a b : regex)
| Group (a : regex).

Definition consumed (s rest : jsstring) : jsstring :=
  firstn (List.length s - List.length rest) s.

Fixpoint star_k {A : Type} (p : jschar -> bool) (s : jsstring)
  (k : jsstring -> option A) : option A :=
  match s with
  | c :: s' =>
      if p c
      then match star_k p s' k with Some r => Some r | None => k s end
      else k s
  | [] => k []
  end.

Fixpoint rmatch {A : Type} (r : regex) (s : jsstring) (caps : list jsstring)
  (k : jsstring -> list jsstring -> option A) {struct r} : option A :=
  match r with
  | Empty => k s caps
  | Class p =>
      match s with
      | c :: s' => if p c then k s' caps else None
      | [] => None
      end
  | Star p => star_k p s (fun s' => k s' caps)
  | Plus p =>
      match s with
      | c :: s' => if p c then star_k p s' (fun s'' => k s'' caps) else None
      | [] => None
      end
  | Seq a b => rmatch a s caps (fun s' caps' => rmatch b s' caps' k)
  | Alt a b =>
      match rmatch a s caps k with
      | Some x => Some x
      | None => rmatch b s caps k
      end
  | Group a =>
      rmatch a s caps (fun s' caps' => k s' (caps' ++ [consumed s s']))
  end.

(** The match array [[whole; group 1; ...]] of the leftmost match. *)
Fixpoint String_match (r : regex) (s : jsstring) : option (list jsstring) :=
  match rmatch r s [] (fun s' caps => Some (consumed s s' :: caps)) with
  | Some m => Some m
  | None =>
      match s with
      | [] => None
      | _ :: s' => String_match r s'
      end
  end.

Definition is_char (a : ascii) (c : jschar) : bool := N.eqb c (ch a).

(** Canonicalize of the [i] flag, on the code units that can equal an ASCII
    pattern character: a code unit above 127 never folds onto an ASCII one. *)
Definition Canonicalize (c : jschar) : jschar :=
  if in_range 97%N 122%N c then N.sub c 32 else c.

Definition is_char_i (a : ascii) (c : jschar) : bool :=
  N.eqb (Canonicalize c) (Canonicalize (ch a)).

Fixpoint word_i (w : string) : regex :=
  match w with
  | EmptyString => Empty
  | String a w' => Seq (Class (is_char_i a)) (word_i w')
  end.

Definition any_char (c : jschar) : bool := true.
Definition dot (c : jschar) : bool := negb (isLineTerminator c).
Definition digit_or_dot (c : jschar) : bool := (isDigit c || is_char "." c)%bool.

(** [arr[1]] of a match array *)
Definition group1 (m : list jsstring) : jsstring := nth 1 m [].

(** [s.split(',')[1]] *)
Definition split_comma_1 (s : jsstring) : option jsstring :=
  let '(_, rest) := span (fun c => negb (is_char "," c)) s in
  match rest with
  | _ :: r => Some (fst (span (fun c => negb (is_char "," c)) r))
  | [] => None
  end.

End JS.

Import JS.

(* ================================================================== *)
(** * Part 2. A reference JSON decoder *)
(* ================================================================== *)

(** [JSON.parse] without a reviver, by recursive descent over the grammar of
    ECMA-404.  The fuel is the length of the text: every recursive call has
    read at least one code unit. *)

Module JSON.

Definition quote : jschar := 34%N.
Definition backslash : jschar := 92%N.

(** A text written with a backquote wherever it has a double quote. *)
Definition json (s : string) : jsstring :=
  map (fun c => if N.eqb c 96 then quote else c) (lit s).

Definition is_ws (c : jschar) : bool :=
  (N.eqb c 32 || N.eqb c 9 || N.eqb c 10 || N.eqb c 13)%N.

Fixpoint skip_ws (s : jsstring) : jsstring :=
  match s with
  | c :: s' => if is_ws c then skip_ws s' else s
  | [] => []
  end.

Definition hex_val (c : jschar) : option N :=
  if isDigit c then Some (N.sub c 48)
  else if in_range 97%N 102%N c then Some (N.sub c 87)
  else if in_range 65%N 70%N c then Some (N.sub c 55)
  else None.

Definition read_hex4 (s : jsstring) : option (jschar * jsstring) :=
  match s with
  | a :: b :: c :: d :: rest =>
      match hex_val a, hex_val b, hex_val c, hex_val d with
      | Some x, Some y, Some z, Some w =>
          Some ((((x * 16 + y) * 16 + z) * 16 + w)%N, rest)
      | _, _, _, _ => None
      end
  | _ => None
  end.

(** The characters of a string literal after its opening quote. *)
Fixpoint read_string (fuel : nat) (s : jsstring) (acc : jsstring)
  : option (jsstring * jsstring) :=
  match fuel with
  | O => None
  | S f =>
      match s with
      | [] => None
      | c :: s' =>
          if N.eqb c quote then Some (rev acc, s')
          else if N.eqb c backslash then
            match s' with
            | e :: s'' =>
                if N.eqb e quote then read_string f s'' (quote :: acc)
                else if N.eqb e backslash then read_string f s'' (backslash :: acc)
                else if is_char "/" e then read_string f s'' (ch "/" :: acc)
                else if is_char "b" e then read_string f s'' (8%N :: acc)
                else if is_char "f" e then read_string f s'' (12%N :: acc)
                else if is_char "n" e then read_string f s'' (10%N :: acc)
                else if is_char "r" e then read_string f s'' (13%N :: acc)
                else if is_char "t" e then read_string f s'' (9%N :: acc)
                else if is_char "u" e then
                  match read_hex4 s'' with
                  | Some (u, rest) => read_string f rest (u :: acc)
                  | None => None
                  end
                else None
            | [] => None
            end
          else if N.ltb c 32 then None
          else read_string f s' (c :: acc)
      end
  end.

(** A number: an optional minus sign, an integer part without a leading
    zero, an optional fraction and an optional exponent. *)
Definition read_number (s : jsstring) : option (number * jsstring) :=
  let '(neg, s0) :=
    match s with
    | c :: s' => if is_char "-" c then (true, s') else (false, s)
    | [] => (false, s)
    end in
  let '(ip, s1) := span isDigit s0 in
  match ip with
  | [] => None
  | d :: ds =>
      if (is_char "0" d && negb (match ds with [] => true | _ => false end))%bool
      then None
      else
        let frac :=
          match s1 with
          | c :: s1' =>
              if is_char "." c then
                match span isDigit s1' with
                | ([], _) => None
                | (fp, s2) => Some (fp, s2)
                end
              else Some ([], s1)
          | [] => Some ([], s1)
          end in
        match frac with
        | None => None
        | Some (fp, s2) =>
            let expo :=
              match s2 with
              | c :: s2' =>
                  if (is_char "e" c || is_char "E" c)%bool then
                    let '(sg, s3) :=
                      match s2' with
                      | x :: s3 =>
                          if is_char "-" x then (true, s3)
                          else if is_char "+" x then (false, s3)
                          else (false, s2')
                      | [] => (false, s2')
                      end in
                    match span isDigit s3 with
                    | ([], _) => None
                    | (es, s4) =>
                        Some ((if sg then - digits_val es else digits_val es),
                              s4)
                    end
                  else Some (0, s2)
              | [] => Some (0, s2)
              end in
            match expo with
            | None => None
            | Some (ex, rest) =>
                Some (round_decimal neg (digits_val (ip ++ fp))
                        (ex - Z.of_nat (List.length fp)), rest)
            end
        end
  end.

Fixpoint read_value (fuel : nat) (s : jsstring) : option (value * jsstring) :=
  match fuel with
  | O => None
  | S f =>
      match skip_ws s with
      | [] => None
      | c :: s' =>
          if is_char "{" c then
            match skip_ws s' with
            | d :: s'' =>
                if is_char "}" d then Some (VObj [], s'')
                else
                  match read_members f (d :: s'') [] with
                  | Some (ms, rest) => Some (VObj ms, rest)
                  | None => None
                  end
            | [] => None
            end
          else if is_char "[" c then
            match skip_ws s' with
            | d :: s'' =>
                if is_char "]" d then Some (VArr [], s'')
                else
                  match read_elements f (d :: s'') [] with
                  | Some (vs, rest) => Some (VArr vs, rest)
                  | None => None
                  end
            | [] => None
            end
          else if N.eqb c quote then
            match read_string (List.length s') s' [] with
            | Some (str, rest) => Some (VStr str, rest)
            | None => None
            end
          else
            match starts_with (lit "true") (c :: s'),
                  starts_with (lit "false") (c :: s'),
                  starts_with (lit "null") (c :: s') with
            | Some rest, _, _ => Some (VBool true, rest)
            | _, Some rest, _ => Some (VBool false, rest)
            | _, _, Some rest => Some (VNull, rest)
            | None, None, None =>
                match read_number (c :: s') with
                | Some (x, rest) => Some (VNum x, rest)
                | None => None
                end
            end
      end
  end

(** The elements of an array after its opening bracket. *)
with read_elements (fuel : nat) (s : jsstring) (acc : list value)
  : option (list value * jsstring) :=
  match fuel with
  | O => None
  | S f =>
      match read_value f s with
      | Some (v, rest) =>
          match skip_ws rest with
          | c :: rest' =>
              if is_char "," c then read_elements f rest' (v :: acc)
              else if is_char "]" c then Some (rev (v :: acc), rest')
              else None
          | [] => None
          end
      | None => None
      end
  end

(** The members of an object after its opening brace. *)
with read_members (fuel : nat) (s : jsstring)
  (acc : list (jsstring * value))
  : option (list (jsstring * value) * jsstring) :=
  match fuel with
  | O => None
  | S f =>
      match skip_ws s with
      | q :: s1 =>
          if N.eqb q quote then
            match read_string (List.length s1) s1 [] with
            | Some (k, s2) =>
                match skip_ws s2 with
                | c :: s3 =>
                    if is_char ":" c then
                      match read_value f s3 with
                      | Some (v, rest) =>
                          match skip_ws rest with
                          | d :: rest' =>
                              if is_char "," d
                              then read_members f rest' ((k, v) :: acc)
                              else if is_char "}" d
                              then Some (rev ((k, v) :: acc), rest')
                              else None
                          | [] => None
                          end
                      | None => None
                      end
                    else None
                | [] => None
                end
            | None => None
            end
          else None
      | [] => None
      end
  end.

(** [JSON.parse(text)]: one value, surrounded by white space only; anything
    else is a SyntaxError. *)
Definition parse (text : jsstring) : M value :=
  match read_value (S (List.length text)) text with
  | Some (v, rest) =>
      match skip_ws rest with
      | [] => Ok v
      | _ => Throw SyntaxError
      end
  | None => Throw SyntaxError
  end.

End JSON.

(* ================================================================== *)
(** * Part 3. The route and the schema *)
(* ================================================================== *)

(** ** [models/Expense.ts]: the enumerations *)

Module ExpenseCategory.
Inductive t : Type :=
| FOOD_DINING | GROCERIES | TRANSPORTATION | UTILITIES | ENTERTAINMENT
| HEALTHCARE | SHOPPING | TRAVEL | EDUCATION | BUSINESS | HOME_MAINTENANCE
| SUBSCRIPTIONS | INSURANCE | TAXES | GIFTS_DONATIONS | PERSONAL_CARE
| OTHER.

Definition label (c : t) : jsstring :=
  match c with
  | FOOD_DINING => lit "Food & Dining"
  | GROCERIES => lit "Groceries"
  | TRANSPORTATION => lit "Transportation"
  | UTILITIES => lit "Utilities"
  | ENTERTAINMENT => lit "Entertainment"
  | HEALTHCARE => lit "Healthcare"
  | SHOPPING => lit "Shopping"
  | TRAVEL => lit "Travel"
  | EDUCATION => lit "Education"
  | BUSINESS => lit "Business"
  | HOME_MAINTENANCE => lit "Home & Maintenance"
  | SUBSCRIPTIONS => lit "Subscriptions"
  | INSURANCE => lit "Insurance"
  | TAXES => lit "Taxes"
  | GIFTS_DONATIONS => lit "Gifts & Donations"
  | PERSONAL_CARE => lit "Personal Care"
  | OTHER => lit "Other"
  end.

Definition members : list t :=
  [FOOD_DINING; GROCERIES; TRANSPORTATION; UTILITIES; ENTERTAINMENT;
   HEALTHCARE; SHOPPING; TRAVEL; EDUCATION; BUSINESS; HOME_MAINTENANCE;
   SUBSCRIPTIONS; INSURANCE; TAXES; GIFTS_DONATIONS; PERSONAL_CARE; OTHER].

(** [Object.values(ExpenseCategory)] *)
Definition values : list jsstring := map label members.
End ExpenseCategory.

Module PaymentMethod.
Inductive t : Type :=
| CASH | CREDIT_CARD | DEBIT_CARD | BANK_TRANSFER | DIGITAL_WALLET | CHECK
| OTHER.

Definition label (c : t) : jsstring :=
  match c with
  | CASH => lit "Cash"
  | CREDIT_CARD => lit "Credit Card"
  | DEBIT_CARD => lit "Debit Card"
  | BANK_TRANSFER => lit "Bank Transfer"
  | DIGITAL_WALLET => lit "Digital Wallet"
  | CHECK => lit "Check"
  | OTHER => lit "Other"
  end.

Definition members : list t :=
  [CASH; CREDIT_CARD; DEBIT_CARD; BANK_TRANSFER; DIGITAL_WALLET; CHECK;
   OTHER].

(** [Object.values(PaymentMethod)] *)
Definition values : list jsstring := map label members.
End PaymentMethod.

Module ExpenseType.
Inductive t : Type := PERSONAL | BUSINESS | TAX_DEDUCTIBLE.

Definition label (c : t) : jsstring :=
  match c with
  | PERSONAL => lit "Personal"
  | BUSINESS => lit "Business"
  | TAX_DEDUCTIBLE => lit "Tax Deductible"
  end.

Definition members : list t := [PERSONAL; BUSINESS; TAX_DEDUCTIBLE].

(** [Object.values(ExpenseType)] *)
Definition values : list jsstring := map label members.
End ExpenseType.

(** ** The records *)

(** What [lineItems.map] builds for one item. *)
Module LineItem.
Record t : Type := mk {
  name : value;
  quantity : number;
  unitPrice : number;
  totalPrice : number
}.

Definition to_value (i : t) : value :=
  VObj [(lit "name", name i); (lit "quantity", VNum (quantity i));
        (lit "unitPrice", VNum (unitPrice i));
        (lit "totalPrice", VNum (totalPrice i))].
End LineItem.

(** The object [analyzeReceiptWithGemini] returns.  A field copied from the
    decoded object keeps whatever value the object had there, so it is a
    [value]; an optional field that is left out is [undefined] ([None] for
    the two optional numbers). *)
Module Extracted.
Record t : Type := mk {
  vendor : value;
  vendorAddress : value;
  vendorPhone : value;
  date : value;
  receiptNumber : value;
  subtotal : number;
  tax : number;
  tip : option number;
  discount : option number;
  total : number;
  currency : value;
  category : value;
  paymentMethod : value;
  lineItems : list LineItem.t;
  rawText : value;
  confidence : number
}.
End Extracted.

(** The object literal handed to [Expense.create]. *)
Module Doc.
Record t : Type := mk {
  vendor : value;
  vendorAddress : value;
  vendorPhone : value;
  date : JSDate;
  receiptNumber : value;
  subtotal : number;
  tax : number;
  tip : option number;
  discount : option number;
  total : number;
  currency : value;
  category : value;
  paymentMethod : value;
  expenseType : value;
  lineItems : value;
  notes : value;
  description : value;
  tags : value;
  isRecurring : value;
  recurringFrequency : value;
  rawText : value;
  imageUrl : value;
  confidence : number;
  isBusinessExpense : value;
  isTaxDeductible : value;
  projectId : value;
  clientId : value;
  source : jsstring;
  createdAt : JSDate;
  updatedAt : JSDate
}.
End Doc.

(** What [NextResponse.json] is given. *)
Record Response : Type := mkResponse {
  status : Z;
  success : bool;
  data : option Doc.t;
  message : option jsstring
}.

Definition created (d : Doc.t) : Response :=
  {| status := 201; success := true; data := Some d; message := None |}.

Definition failure (code : Z) (msg : string) : Response :=
  {| status := code; success := false; data := None;
     message := Some (lit msg) |}.

(** ** The collaborators

    What the route obtains from its host and its services: the JSON decoder,
    the date parser, the clock, the vision service (lines 57 to 113 of the
    route: credential check, request, status check and the text of the first
    candidate), the database connection and the model's [create]. *)
Record Env : Type := mkEnv {
  JSON_parse : jsstring -> M value;
  Date_parse : jsstring -> option Z;
  (** [new Date().toISOString().split('T')[0]] *)
  today : jsstring;
  (** the time value of [new Date()] *)
  now : Z;
  generateContent : option jsstring -> M jsstring;
  dbConnect : M unit;
  Expense_create : Doc.t -> M Doc.t
}.

(** ** [analyzeReceiptWithGemini] *)

(** [/\{[\s\S]*\}/] *)
Definition re_json : regex :=
  Seq (Class (is_char "{")) (Seq (Star any_char) (Class (is_char "}"))).

(** [/(?:vendor|store):\s*(.+)/i] *)
Definition re_vendor : regex :=
  Seq (Alt (word_i "vendor") (word_i "store"))
      (Seq (word_i ":") (Seq (Star isWhiteSpace) (Group (Plus dot)))).

(** [/date:\s*(.+)/i] *)
Definition re_date : regex :=
  Seq (word_i "date:") (Seq (Star isWhiteSpace) (Group (Plus dot))).

(** [/total:\s*([0-9.]+)/i] *)
Definition re_total : regex :=
  Seq (word_i "total:") (Seq (Star isWhiteSpace) (Group (Plus digit_or_dot))).

(** The callback of [parsedData.lineItems.map]. *)
Definition normalizeItem (item : value) : M LineItem.t :=
  name <- Get item "name" ;;
  quantity <- Get item "quantity" ;;
  quantity' <- parseFloat quantity ;;
  unitPrice <- Get item "unitPrice" ;;
  unitPrice' <- parseFloat unitPrice ;;
  totalPrice <- Get item "totalPrice" ;;
  totalPrice' <- parseFloat totalPrice ;;
  Ok {| LineItem.name := or_else name (VStr (lit "Unknown Item"));
        LineItem.quantity := num_or quantity' (num "1");
        LineItem.unitPrice := num_or unitPrice' (num "0");
        LineItem.totalPrice := num_or totalPrice' (num "0") |}.

(** [Math.min(Math.max(parseFloat(c) || 0.5, 0), 1)] *)
Definition clampConfidence (x : number) : number :=
  Math_min (Math_max (num_or x (num "0.5")) (num "0")) (num "1").

(** The object literal of the first [return] (lines 120 to 146), its fields
    evaluated in order. *)
Definition fromParsed (E : Env) (parsedData : value) (responseText : jsstring)
  : M Extracted.t :=
  vendor <- Get parsedData "vendor" ;;
  vendorAddress <- Get parsedData "vendorAddress" ;;
  vendorPhone <- Get parsedData "vendorPhone" ;;
  date <- Get parsedData "date" ;;
  receiptNumber <- Get parsedData "receiptNumber" ;;
  subtotal <- Get parsedData "subtotal" ;;
  subtotal' <- parseFloat subtotal ;;
  tax <- Get parsedData "tax" ;;
  tax' <- parseFloat tax ;;
  tip <- Get parsedData "tip" ;;
  tip' <- (if truthy tip then x <- parseFloat tip ;; Ok (Some x)
           else Ok None) ;;
  discount <- Get parsedData "discount" ;;
  discount' <- (if truthy discount then x <- parseFloat discount ;; Ok (Some x)
                else Ok None) ;;
  total <- Get parsedData "total" ;;
  total' <- parseFloat total ;;
  currency <- Get parsedData "currency" ;;
  category <- Get parsedData "category" ;;
  paymentMethod <- Get parsedData "paymentMethod" ;;
  lineItems <- Get parsedData "lineItems" ;;
  lineItems' <- match lineItems with
                | VArr items => mapM normalizeItem items
                | _ => Ok []
                end ;;
  rawText <- Get parsedData "rawText" ;;
  confidence <- Get parsedData "confidence" ;;
  confidence' <- parseFloat confidence ;;
  Ok {| Extracted.vendor := or_else vendor (VStr (lit "Unknown Vendor"));
        Extracted.vendorAddress := or_else vendorAddress VUndef;
        Extracted.vendorPhone := or_else vendorPhone VUndef;
        Extracted.date := or_else date (VStr (today E));
        Extracted.receiptNumber := or_else receiptNumber VUndef;
        Extracted.subtotal := num_or subtotal' (num "0");
        Extracted.tax := num_or tax' (num "0");
        Extracted.tip := tip';
        Extracted.discount := discount';
        Extracted.total := num_or total' (num "0");
        Extracted.currency := or_else currency (VStr (lit "USD"));
        Extracted.category :=
          if includes ExpenseCategory.values category then category
          else VStr (ExpenseCategory.label ExpenseCategory.OTHER);
        Extracted.paymentMethod :=
          if includes PaymentMethod.values paymentMethod then paymentMethod
          else VStr (PaymentMethod.label PaymentMethod.OTHER);
        Extracted.lineItems := lineItems';
        Extracted.rawText := or_else rawText (VStr responseText);
        Extracted.confidence := clampConfidence confidence' |}.

(** The [try] block (lines 116 to 147): [Some] when it returns, [None] when
    control falls out of it. *)
Definition structured (E : Env) (responseText : jsstring)
  : M (option Extracted.t) :=
  match String_match re_json responseText with
  | Some jsonMatch =>
      parsedData <- JSON_parse E (nth 0 jsonMatch []) ;;
      r <- fromParsed E parsedData responseText ;;
      Ok (Some r)
  | None => Ok None
  end.

(** The second [return] (lines 152 to 168).  It works on the text alone,
    with [match], [trim] and [parseFloat] on strings, none of which raises. *)
Definition fallback (E : Env) (responseText : jsstring) : Extracted.t :=
  let vendorMatch := String_match re_vendor responseText in
  let dateMatch := String_match re_date responseText in
  let totalMatch := String_match re_total responseText in
  {| Extracted.vendor :=
       match vendorMatch with
       | Some m => VStr (trim (group1 m))
       | None => VStr (lit "Unknown Vendor")
       end;
     Extracted.vendorAddress := VUndef;
     Extracted.vendorPhone := VUndef;
     Extracted.date :=
       match dateMatch with
       | Some m => VStr (trim (group1 m))
       | None => VStr (today E)
       end;
     Extracted.receiptNumber := VUndef;
     Extracted.subtotal := num "0";
     Extracted.tax := num "0";
     Extracted.tip := None;
     Extracted.discount := None;
     Extracted.total :=
       match totalMatch with
       | Some m => parseFloat_string (group1 m)
       | None => num "0"
       end;
     Extracted.currency := VStr (lit "USD");
     Extracted.category := VStr (ExpenseCategory.label ExpenseCategory.OTHER);
     Extracted.paymentMethod :=
       VStr (PaymentMethod.label PaymentMethod.OTHER);
     Extracted.lineItems := [];
     Extracted.rawText := VStr responseText;
     Extracted.confidence := num "0.3" |}.

(** Lines 115 to 168: what the function does with the text of the model's
    answer.  The [catch] clause only logs, so an exception raised anywhere in
    the [try] block leads to the fallback. *)
Definition analyzeReceiptText (E : Env) (responseText : jsstring)
  : M Extracted.t :=
  r <- try_catch (structured E responseText) (fun _ => Ok None) ;;
  match r with
  | Some x => Ok x
  | None => Ok (fallback E responseText)
  end.

Definition analyzeReceiptWithGemini (E : Env) (base64ImageData : option jsstring)
  : M Extracted.t :=
  responseText <- generateContent E base64ImageData ;;
  analyzeReceiptText E responseText.

(** ** [POST] *)

(** The argument of [Expense.create] on the manual branch (lines 183 to 214). *)
Definition manualDoc (E : Env) (body : value) : M Doc.t :=
  vendor <- Get body "vendor" ;;
  vendorAddress <- Get body "vendorAddress" ;;
  vendorPhone <- Get body "vendorPhone" ;;
  date <- Get body "date" ;;
  date' <- new_Date (Date_parse E) date ;;
  receiptNumber <- Get body "receiptNumber" ;;
  subtotal <- Get body "subtotal" ;;
  subtotal' <- parseFloat subtotal ;;
  tax <- Get body "tax" ;;
  tax' <- parseFloat tax ;;
  tip <- Get body "tip" ;;
  tip' <- parseFloat tip ;;
  discount <- Get body "discount" ;;
  discount' <- parseFloat discount ;;
  total <- Get body "total" ;;
  total' <- parseFloat total ;;
  currency <- Get body "currency" ;;
  category <- Get body "category" ;;
  paymentMethod <- Get body "paymentMethod" ;;
  lineItems <- Get body "lineItems" ;;
  notes <- Get body "notes" ;;
  description <- Get body "description" ;;
  tags <- Get body "tags" ;;
  isRecurring <- Get body "isRecurring" ;;
  recurringFrequency <- Get body "recurringFrequency" ;;
  rawText <- Get body "rawText" ;;
  imageUrl <- Get body "imageUrl" ;;
  isBusinessExpense <- Get body "isBusinessExpense" ;;
  isTaxDeductible <- Get body "isTaxDeductible" ;;
  projectId <- Get body "projectId" ;;
  clientId <- Get body "clientId" ;;
  Ok {| Doc.vendor := or_else vendor (VStr (lit "Manual Entry"));
        Doc.vendorAddress := or_else vendorAddress (VStr []);
        Doc.vendorPhone := or_else vendorPhone (VStr []);
        Doc.date := date';
        Doc.receiptNumber := or_else receiptNumber (VStr []);
        Doc.subtotal := num_or subtotal' (num "0");
        Doc.tax := num_or tax' (num "0");
        Doc.tip := Some (num_or tip' (num "0"));
        Doc.discount := Some (num_or discount' (num "0"));
        Doc.total := num_or total' (num "0");
        Doc.currency := or_else currency (VStr (lit "USD"));
        Doc.category :=
          or_else category (VStr (ExpenseCategory.label ExpenseCategory.OTHER));
        Doc.paymentMethod :=
          or_else paymentMethod (VStr (PaymentMethod.label PaymentMethod.OTHER));
        Doc.expenseType := VStr (ExpenseType.label ExpenseType.PERSONAL);
        Doc.lineItems := or_else lineItems (VArr []);
        Doc.notes := or_else notes (VStr []);
        Doc.description := or_else description (VStr []);
        Doc.tags := or_else tags (VArr []);
        Doc.isRecurring := or_else isRecurring (VBool false);
        Doc.recurringFrequency := or_else recurringFrequency (VStr []);
        Doc.rawText := or_else rawText (VStr []);
        Doc.imageUrl := or_else imageUrl (VStr []);
        Doc.confidence := num "1";
        Doc.isBusinessExpense := or_else isBusinessExpense (VBool false);
        Doc.isTaxDeductible := or_else isTaxDeductible (VBool false);
        Doc.projectId := or_else projectId (VStr []);
        Doc.clientId := or_else clientId (VStr []);
        Doc.source := lit "manual";
        Doc.createdAt := Some (now E);
        Doc.updatedAt := Some (now E) |}.

(** The argument of [Expense.create] on the scan branch (lines 235 to 261). *)
Definition scanDoc (E : Env) (extractedData : Extracted.t) (imageUrl : value)
  : M Doc.t :=
  date' <- new_Date (Date_parse E) (Extracted.date extractedData) ;;
  Ok {| Doc.vendor := Extracted.vendor extractedData;
        Doc.vendorAddress := Extracted.vendorAddress extractedData;
        Doc.vendorPhone := Extracted.vendorPhone extractedData;
        Doc.date := date';
        Doc.receiptNumber := Extracted.receiptNumber extractedData;
        Doc.subtotal := Extracted.subtotal extractedData;
        Doc.tax := Extracted.tax extractedData;
        Doc.tip := Extracted.tip extractedData;
        Doc.discount := Extracted.discount extractedData;
        Doc.total := Extracted.total extractedData;
        Doc.currency := Extracted.currency extractedData;
        Doc.category := Extracted.category extractedData;
        Doc.paymentMethod := Extracted.paymentMethod extractedData;
        Doc.expenseType := VStr (ExpenseType.label ExpenseType.PERSONAL);
        Doc.lineItems :=
          VArr (map LineItem.to_value (Extracted.lineItems extractedData));
        Doc.notes := VUndef;
        Doc.description := VUndef;
        Doc.tags := VArr [];
        Doc.isRecurring := VBool false;
        Doc.recurringFrequency := VUndef;
        Doc.rawText := Extracted.rawText extractedData;
        Doc.imageUrl := imageUrl;
        Doc.confidence := Extracted.confidence extractedData;
        Doc.isBusinessExpense := VBool false;
        Doc.isTaxDeductible := VBool false;
        Doc.projectId := VUndef;
        Doc.clientId := VUndef;
        Doc.source := lit "scan";
        Doc.createdAt := Some (now E);
        Doc.updatedAt := Some (now E) |}.

(** [imageUrl.split(',')[1]]: only a string has the method. *)
Definition base64Of (imageUrl : value) : M (option jsstring) :=
  match imageUrl with
  | VStr s => Ok (split_comma_1 s)
  | _ => Throw TypeError
  end.

(** The handler, applied to the decoded request body.  An exception that
    leaves the handler is [Throw]. *)
Definition POST (E : Env) (body : value) : M Response :=
  _ <- dbConnect E ;;
  manual <- Get body "manual" ;;
  if is_true manual then
    try_catch
      (doc <- manualDoc E body ;;
       newExpense <- Expense_create E doc ;;
       Ok (created newExpense))
      (fun _ => Ok (failure 500 "Failed to save manual entry."))
  else
    imageUrl <- Get body "imageUrl" ;;
    if negb (truthy imageUrl) then Ok (failure 400 "No image data provided.")
    else
      base64ImageData <- base64Of imageUrl ;;
      try_catch
        (extractedData <- analyzeReceiptWithGemini E base64ImageData ;;
         doc <- scanDoc E extractedData imageUrl ;;
         newExpense <- Expense_create E doc ;;
         Ok (created newExpense))
        (fun _ => Ok (failure 500 "Failed to process receipt.")).

(** ** [ExpenseSchema]: the declared validators

    [Expense.create] casts and validates the document against the schema
    before it writes.  The checks below are those the schema declares for the
    fields the route fills with a number, a date or a string: a document that
    fails one of them is rejected.  What the library does with a value of
    another type in a string field is not decided here ([true]), and
    [LineItemSchema], which bounds no number, is left out.  The validators are
    thus a necessary condition for the store to accept a document, not a
    sufficient one: they are used to show that a document is refused, or
    what holds of a document that was stored. *)

(** [{ type: Number, min: 0 }] (and [max], when given): the cast refuses
    [NaN], the validators refuse a value outside the bounds. *)
Definition number_path (lo : number) (hi : option number) (x : number) : bool :=
  (negb (isNaN x) && num_leb lo x
   && match hi with Some h => num_leb x h | None => true end)%bool.

Definition optional_number_path (lo : number) (x : option number) : bool :=
  match x with
  | Some n => number_path lo None n
  | None => true
  end.

(** [{ type: Date, required: true }]: an Invalid Date does not cast. *)
Definition date_path (d : JSDate) : bool :=
  match d with Some _ => true | None => false end.

(** [{ type: String, required: true }]: absent or empty is refused. *)
Definition required_string_path (v : value) : bool :=
  match v with
  | VUndef | VNull => false
  | VStr [] => false
  | _ => true
  end.

(** [{ type: String, required: true, default: ... }]: the default stands in
    for [undefined]; [null] and the empty string are refused. *)
Definition defaulted_string_path (v : value) : bool :=
  match v with
  | VNull => false
  | VStr [] => false
  | _ => true
  end.

(** [{ type: String, enum: labels }]: a string has to be one of the labels. *)
Definition enum_path (labels : list jsstring) (v : value) : bool :=
  match v with
  | VStr s => existsb (str_eqb s) labels
  | _ => true
  end.

Definition ExpenseSchema_validators (d : Doc.t) : bool :=
  ((* vendor: { type: String, required: true } *)
   required_string_path (Doc.vendor d)
   (* date: { type: Date, required: true } *)
   && date_path (Doc.date d)
   (* subtotal: { type: Number, required: true, min: 0 } *)
   && number_path (num "0") None (Doc.subtotal d)
   (* tax: { type: Number, required: true, min: 0, default: 0 } *)
   && number_path (num "0") None (Doc.tax d)
   (* tip: { type: Number, min: 0 } *)
   && optional_number_path (num "0") (Doc.tip d)
   (* discount: { type: Number, min: 0 } *)
   && optional_number_path (num "0") (Doc.discount d)
   (* total: { type: Number, required: true, min: 0 } *)
   && number_path (num "0") None (Doc.total d)
   (* currency: { type: String, required: true, default: 'USD' } *)
   && defaulted_string_path (Doc.currency d)
   (* category: { type: String, enum: Object.values(ExpenseCategory),
                  required: true, default: ExpenseCategory.OTHER } *)
   && defaulted_string_path (Doc.category d)
   && enum_path ExpenseCategory.values (Doc.category d)
   (* paymentMethod: { type: String, enum: Object.values(PaymentMethod),
                       required: true, default: PaymentMethod.OTHER } *)
   && defaulted_string_path (Doc.paymentMethod d)
   && enum_path PaymentMethod.values (Doc.paymentMethod d)
   (* expenseType: { type: String, enum: Object.values(ExpenseType),
                     required: true, default: ExpenseType.PERSONAL } *)
   && defaulted_string_path (Doc.expenseType d)
   && enum_path ExpenseType.values (Doc.expenseType d)
   (* rawText: { type: String, required: true } *)
   && required_string_path (Doc.rawText d)
   (* confidence: { type: Number, min: 0, max: 1, default: 0 } *)
   && number_path (num "0") (Some (num "1")) (Doc.confidence d)
   (* source: { type: String, enum: ['scan', 'manual'], required: true } *)
   && existsb (str_eqb (Doc.source d)) [lit "scan"; lit "manual"])%bool.

(** The model's [create] honours the schema: it stores nothing that a
    declared validator refuses. *)
Definition StoreSound (E : Env) : Prop :=
  forall d stored,
    Expense_create E d = Ok stored -> ExpenseSchema_validators d = true.

(** ** A sample host, to run the route on concrete inputs

    The decoder of Part 2, a [Date.parse] that reads the date-only ISO form
    [YYYY-MM-DD] and nothing else, a fixed clock, a vision service that
    answers with a given text, and a store that keeps a document as it is
    when the validators pass. *)

Definition days_in_month (y m : Z) : Z :=
  if m =? 2 then
    if ((y mod 4 =? 0) && negb (y mod 100 =? 0) || (y mod 400 =? 0))%bool
    then 29 else 28
  else if ((m =? 4) || (m =? 6) || (m =? 9) || (m =? 11))%bool then 30
  else 31.

(** Days from 1970-01-01 to the civil date [y-m-d]. *)
Definition days_from_civil (y m d : Z) : Z :=
  let y' := if m <=? 2 then y - 1 else y in
  let era := y' / 400 in
  let yoe := y' - era * 400 in
  let doy := (153 * (if 2 <? m then m - 3 else m + 9) + 2) / 5 + d - 1 in
  let doe := yoe * 365 + yoe / 4 - yoe / 100 + doy in
  era * 146097 + doe - 719468.

Definition iso_date_parse (s : jsstring) : option Z :=
  match s with
  | [y1; y2; y3; y4; h1; m1; m2; h2; d1; d2] =>
      if (forallb isDigit [y1; y2; y3; y4; m1; m2; d1; d2]
          && is_char "-" h1 && is_char "-" h2)%bool
      then
        let y := digits_val [y1; y2; y3; y4] in
        let m := digits_val [m1; m2] in
        let d := digits_val [d1; d2] in
        if ((1 <=? m) && (m <=? 12) && (1 <=? d)
            && (d <=? days_in_month y m))%bool
        then Some (days_from_civil y m d * 86400000)
        else None
      else None
  | _ => None
  end.

Definition sample_create (d : Doc.t) : M Doc.t :=
  if ExpenseSchema_validators d then Ok d else Throw ValidationError.

Definition sampleEnv (responseText : jsstring) : Env :=
  {| JSON_parse := JSON.parse;
     Date_parse := iso_date_parse;
     today := lit "2025-01-15";
     now := 1736942400000;
     generateContent := fun _ => Ok responseText;
     dbConnect := Ok tt;
     Expense_create := sample_create |}.

(* ================================================================== *)
(** * Part 4. Predicates and sample inputs *)
(* ================================================================== *)

(** ** Predicates of the statements *)

Definition nonneg (x : number) : Prop := num_leb (num "0") x = true.

Definition in_unit_interval (x : number) : Prop :=
  num_leb (num "0") x = true /\ num_leb x (num "1") = true.

(** A field written [parseFloat(c) || 0], with [x] what [parseFloat] gave: a
    negative [x] is the field, sign and all; otherwise the field is at least
    zero. *)
Definition passed_through (x field : number) : Prop :=
  (num_ltb x (num "0") = true -> field = x)
  /\ (num_ltb x (num "0") = false -> nonneg field).

Definition is_label (labels : list jsstring) (v : value) : Prop :=
  exists s, v = VStr s /\ In s labels.

(** What holds of every record of the pipeline, whichever tier built it:
    vendor, date, currency and raw text are not [undefined], the two
    categorical fields are labels of their enumerations, subtotal and tax
    are not [NaN], the confidence lies in [[0, 1]].  Nothing is said of the
    total, which the fallback tier can leave [NaN], nor of the text of the
    vendor, which it can leave empty. *)
Record Complete (r : Extracted.t) : Prop := {
  complete_vendor : Extracted.vendor r <> VUndef;
  complete_date : Extracted.date r <> VUndef;
  complete_currency : Extracted.currency r <> VUndef;
  complete_category : is_label ExpenseCategory.values (Extracted.category r);
  complete_paymentMethod :
    is_label PaymentMethod.values (Extracted.paymentMethod r);
  complete_rawText : Extracted.rawText r <> VUndef;
  complete_subtotal : isNaN (Extracted.subtotal r) = false;
  complete_tax : isNaN (Extracted.tax r) = false;
  complete_confidence : in_unit_interval (Extracted.confidence r)
}.

(** A field written [body.k || dflt]: a truthy submitted value, or one equal
    to the default, is handed on as it is. *)
Definition kept (body : value) (k : string) (dflt got : value) : Prop :=
  forall v, Get body k = Ok v -> truthy v = true \/ v = dflt -> got = v.

(** A field written [parseFloat(body.k) || 0]: it is the number
    [parseFloat] reads from the submitted value, and 0 when that number is
    zero or [NaN].  So a submitted number is handed on as it is when its
    decimal text reads back to it, and a zero of either sign or a [NaN] is
    handed on as [+0]. *)
Record number_field (body : value) (k : string) (got : number) : Prop := {
  nf_read : forall v x, Get body k = Ok v -> parseFloat v = Ok x ->
                        got = num_or x (num "0");
  nf_kept : forall x, Get body k = Ok (VNum x) ->
                      parseFloat_string (Number_toString x) = x ->
                      truthy_number x = true -> got = x;
  nf_zero : forall x, Get body k = Ok (VNum x) ->
                      truthy_number x = false -> got = num "0"
}.

Record ManualRoundTrip (E : Env) (body : value) (d : Doc.t) : Prop := {
  rt_vendor : kept body "vendor" (VStr (lit "Manual Entry")) (Doc.vendor d);
  rt_vendorAddress : kept body "vendorAddress" (VStr []) (Doc.vendorAddress d);
  rt_vendorPhone : kept body "vendorPhone" (VStr []) (Doc.vendorPhone d);
  rt_date : forall s, Get body "date" = Ok (VStr s) ->
                      Doc.date d = TimeClip (Date_parse E s);
  rt_receiptNumber : kept body "receiptNumber" (VStr []) (Doc.receiptNumber d);
  rt_subtotal : number_field body "subtotal" (Doc.subtotal d);
  rt_tax : number_field body "tax" (Doc.tax d);
  rt_tip : exists t, Doc.tip d = Some t /\ number_field body "tip" t;
  rt_discount : exists t, Doc.discount d = Some t
                          /\ number_field body "discount" t;
  rt_total : number_field body "total" (Doc.total d);
  rt_currency : kept body "currency" (VStr (lit "USD")) (Doc.currency d);
  rt_category : kept body "category" (VStr (lit "Other")) (Doc.category d);
  rt_paymentMethod :
    kept body "paymentMethod" (VStr (lit "Other")) (Doc.paymentMethod d);
  rt_lineItems : kept body "lineItems" (VArr []) (Doc.lineItems d);
  rt_notes : kept body "notes" (VStr []) (Doc.notes d);
  rt_description : kept body "description" (VStr []) (Doc.description d);
  rt_tags : kept body "tags" (VArr []) (Doc.tags d);
  rt_isRecurring : kept body "isRecurring" (VBool false) (Doc.isRecurring d);
  rt_recurringFrequency :
    kept body "recurringFrequency" (VStr []) (Doc.recurringFrequency d);
  rt_rawText : kept body "rawText" (VStr []) (Doc.rawText d);
  rt_imageUrl : kept body "imageUrl" (VStr []) (Doc.imageUrl d);
  rt_isBusinessExpense :
    kept body "isBusinessExpense" (VBool false) (Doc.isBusinessExpense d);
  rt_isTaxDeductible :
    kept body "isTaxDeductible" (VBool false) (Doc.isTaxDeductible d);
  rt_projectId : kept body "projectId" (VStr []) (Doc.projectId d);
  rt_clientId : kept body "clientId" (VStr []) (Doc.clientId d);
  (** the fields the branch sets itself, whatever the body says *)
  rt_expenseType : Doc.expenseType d = VStr (lit "Personal");
  rt_confidence : Doc.confidence d = num "1";
  rt_source : Doc.source d = lit "manual";
  rt_createdAt : Doc.createdAt d = Some (now E);
  rt_updatedAt : Doc.updatedAt d = Some (now E)
}.

(** ** Sample inputs *)

(** The object decoded from
    [{"category":"Groceries","paymentMethod":"cash"}]. *)
Definition groceries_cash : value :=
  VObj [(lit "category", VStr (lit "Groceries"));
        (lit "paymentMethod", VStr (lit "cash"))].

Definition LF : jschar := 10%N.

(** The lines of a text, joined by line feeds. *)
Fixpoint lines (l : list string) : jsstring :=
  match l with
  | [] => []
  | [s] => lit s
  | s :: l' => lit s ++ LF :: lines l'
  end.

Definition scenario_text : jsstring :=
  lines ["VENDOR: Joe's Deli"; "DATE: 2024-03-01"; "TOTAL: 12.50"]%string.

(** The objects decoded from [{"confidence":0}] and [{"confidence":"0"}]. *)
Definition confidence_zero_number : value :=
  VObj [(lit "confidence", VNum (num "0"))].

Definition confidence_zero_string : value :=
  VObj [(lit "confidence", VStr (lit "0"))].

(** The objects decoded from [{"confidence":1.7}], [{"confidence":-0.2}]
    and [{}], and a manual body. *)
Definition confidence_high : value := VObj [(lit "confidence", VNum (num "1.7"))].
Definition confidence_low : value := VObj [(lit "confidence", VNum (num "-0.2"))].
Definition manual_minimal : value :=
  VObj [(lit "manual", VBool true); (lit "date", VStr (lit "2024-03-01"))].

(** A total line followed by an object whose only member is a list of
    line items holding [null]. *)
Definition null_item_text : jsstring :=
  JSON.json "total: 42 {`lineItems`:[null]}".

Definition null_item_object : value := VObj [(lit "lineItems", VArr [VNull])].

Definition sample_image : value := VStr (lit "data:image/jpeg;base64,AAAA").

Definition scan_request : value := VObj [(lit "imageUrl", sample_image)].

(** An answer of the model with a negative subtotal and a negative line. *)
Definition negative_text : jsstring :=
  JSON.json
    "{`subtotal`:-5,`lineItems`:[{`name`:`Refund`,`unitPrice`:-3,`totalPrice`:-3}]}".

(** The object that answer decodes to, and its line item. *)
Definition negative_item : value :=
  VObj [(lit "name", VStr (lit "Refund"));
        (lit "unitPrice", VNum (num "-3"));
        (lit "totalPrice", VNum (num "-3"))].

Definition negative_object : value :=
  VObj [(lit "subtotal", VNum (num "-5"));
        (lit "lineItems", VArr [negative_item])].

(** An answer of the model with plain amounts. *)
Definition plain_text : jsstring :=
  JSON.json "{`vendor`:`Acme`,`subtotal`:18,`tax`:1.99,`tip`:`2`,`total`:`21.99`}".

(** A manual body that is in order but for its category. *)
Definition bogus_manual : value :=
  VObj [(lit "manual", VBool true);
        (lit "vendor", VStr (lit "Acme"));
        (lit "date", VStr (lit "2024-03-01"));
        (lit "subtotal", VNum (num "10"));
        (lit "total", VNum (num "10"));
        (lit "category", VStr (lit "Bogus"));
        (lit "paymentMethod", VStr (lit "Cash"));
        (lit "rawText", VStr (lit "typed in"))].

(** A manual body with every field present and in order, submitted as a
    business expense with confidence 0.8. *)
Definition full_manual : value :=
  VObj [(lit "manual", VBool true);
        (lit "vendor", VStr (lit "Acme"));
        (lit "vendorAddress", VStr (lit "1 Main St"));
        (lit "vendorPhone", VStr (lit "555-0100"));
        (lit "date", VStr (lit "2024-03-01"));
        (lit "receiptNumber", VStr (lit "R-1"));
        (lit "subtotal", VNum (num "10"));
        (lit "tax", VNum (num "1.5"));
        (lit "tip", VNum (num "2"));
        (lit "discount", VNum (num "0.5"));
        (lit "total", VNum (num "13"));
        (lit "currency", VStr (lit "EUR"));
        (lit "category", VStr (lit "Groceries"));
        (lit "paymentMethod", VStr (lit "Cash"));
        (lit "expenseType", VStr (lit "Business"));
        (lit "lineItems",
         VArr [VObj [(lit "name", VStr (lit "Milk"));
                     (lit "quantity", VNum (num "2"));
                     (lit "unitPrice", VNum (num "5"));
                     (lit "totalPrice", VNum (num "10"))]]);
        (lit "notes", VStr (lit "weekly shop"));
        (lit "description", VStr (lit "food"));
        (lit "tags", VArr [VStr (lit "food")]);
        (lit "isRecurring", VBool true);
        (lit "recurringFrequency", VStr (lit "weekly"));
        (lit "rawText", VStr (lit "typed in"));
        (lit "imageUrl", VStr (lit "none"));
        (lit "confidence", VNum (num "0.8"));
        (lit "isBusinessExpense", VBool true);
        (lit "isTaxDeductible", VBool true);
        (lit "projectId", VStr (lit "P1"));
        (lit "clientId", VStr (lit "C1"))].

(** The same body with a subcategory, after its first member. *)
Definition full_manual_with_subcategory : value :=
  match full_manual with
  | VObj (manual :: fields) =>
      VObj (manual :: (lit "subcategory", VStr (lit "Dairy")) :: fields)
  | v => v
  end.

(** An answer of the model whose date is a word. *)
Definition unknown_date_text : jsstring := JSON.json "{`date`:`unknown`}".

(* ================================================================== *)
(** * Part 5. The rest of the repository *)
(* ================================================================== *)

(** ** More predicates on the records of the route *)

(** What [normalizeItem] gives when the item holds nothing usable. *)
Definition default_item : LineItem.t :=
  {| LineItem.name := VStr (lit "Unknown Item");
     LineItem.quantity := num "1";
     LineItem.unitPrice := num "0";
     LineItem.totalPrice := num "0" |}.


Definition no_char (a : ascii) (s : jsstring) : Prop :=
  forall c, In c s -> is_char a c = false.

(** A pattern without a capturing group. *)
Fixpoint no_capture (r : regex) : bool :=
  match r with
  | Empty | Class _ | Star _ | Plus _ => true
  | Seq a b | Alt a b => (no_capture a && no_capture b)%bool
  | Group _ => false
  end.

(** A number that is not below zero: at least zero, or [NaN]. *)
Definition nonneg_or_NaN (x : number) : Prop :=
  nonneg x \/ isNaN x = true.

(** What a normalised price keeps of its candidate: [unitPrice] and
    [totalPrice] of an item are [parseFloat(candidate) || 0]. *)
Definition prices_passed_through (item : value) (i : LineItem.t) : Prop :=
  exists cu ct xu xt,
    Get item "unitPrice" = Ok cu /\ parseFloat cu = Ok xu
    /\ Get item "totalPrice" = Ok ct /\ parseFloat ct = Ok xt
    /\ passed_through xu (LineItem.unitPrice i)
    /\ passed_through xt (LineItem.totalPrice i).

(** The three answers [POST] gives with a failure. *)
Definition failure_messages : list Response :=
  [failure 400 "No image data provided.";
   failure 500 "Failed to save manual entry.";
   failure 500 "Failed to process receipt."].

(** Answers of the model whose object holds a [null] line item beside a
    category and a payment method that are labels, and beside a confidence
    of zero; and the objects they decode to. *)
Definition labels_null_item_text : jsstring :=
  JSON.json
    "{`category`:`Groceries`,`paymentMethod`:`Cash`,`lineItems`:[null]}".

Definition labels_null_item_object : value :=
  VObj [(lit "category", VStr (lit "Groceries"));
        (lit "paymentMethod", VStr (lit "Cash"));
        (lit "lineItems", VArr [VNull])].

Definition zero_null_item_text : jsstring :=
  JSON.json "{`confidence`:0,`lineItems`:[null]}".

Definition zero_null_item_object : value :=
  VObj [(lit "confidence", VNum (num "0")); (lit "lineItems", VArr [VNull])].

(** A total line whose token has no digit. *)
Definition dotted_total_text : jsstring := lit "total: .".

(** ** The request

    [POST] above starts from the decoded body.  The handler awaits the
    connection (line 175), then [request.json()] (line 176), both outside
    any [try]: a body that does not decode rejects the handler. *)

(** Lines 178 to 271: the handler once the body is decoded. *)
Definition POST_body (E : Env) (body : value) : M Response :=
  manual <- Get body "manual" ;;
  if is_true manual then
    try_catch
      (doc <- manualDoc E body ;;
       newExpense <- Expense_create E doc ;;
       Ok (created newExpense))
      (fun _ => Ok (failure 500 "Failed to save manual entry."))
  else
    imageUrl <- Get body "imageUrl" ;;
    if negb (truthy imageUrl) then Ok (failure 400 "No image data provided.")
    else
      base64ImageData <- base64Of imageUrl ;;
      try_catch
        (extractedData <- analyzeReceiptWithGemini E base64ImageData ;;
         doc <- scanDoc E extractedData imageUrl ;;
         newExpense <- Expense_create E doc ;;
         Ok (created newExpense))
        (fun _ => Ok (failure 500 "Failed to process receipt.")).

(** Lines 174 to 271, from the text of the request. *)
Definition POST_request (E : Env) (requestText : jsstring) : M Response :=
  _ <- dbConnect E ;;
  body <- JSON_parse E requestText ;;
  POST_body E body.

(** ** The ISO date of a time value

    [new Date(t).toISOString().split('T')[0]] for a time value of the years
    0000 to 9999: the civil date of the day [t / 86400000] in UTC, written
    [YYYY-MM-DD]. *)

(** The civil date of a day counted from 1970-01-01. *)
Definition civil_from_days (z : Z) : Z * Z * Z :=
  let z' := z + 719468 in
  let era := z' / 146097 in
  let doe := z' - era * 146097 in
  let yoe := (doe - doe / 1460 + doe / 36524 - doe / 146096) / 365 in
  let doy := doe - (365 * yoe + yoe / 4 - yoe / 100) in
  let mp := (5 * doy + 2) / 153 in
  let d := doy - (153 * mp + 2) / 5 + 1 in
  let m := if mp <? 10 then mp + 3 else mp - 9 in
  let y := yoe + era * 400 in
  (if m <=? 2 then y + 1 else y, m, d).

Definition digit (n : Z) : jschar := Z.to_N (48 + n mod 10).

Definition pad2 (n : Z) : jsstring := [digit (n / 10); digit n].

Definition pad4 (n : Z) : jsstring :=
  [digit (n / 1000); digit (n / 100); digit (n / 10); digit n].

Definition date_text (ymd : Z * Z * Z) : jsstring :=
  let '(y, m, d) := ymd in
  pad4 y ++ ch "-" :: pad2 m ++ ch "-" :: pad2 d.

Definition toISODate (t : Z) : jsstring :=
  date_text (civil_from_days (t / 86400000)).

(** A host whose [Date.parse] reads the date-only ISO form as the standard
    prescribes. *)
Definition reads_ISO_dates (E : Env) : Prop :=
  forall s v, iso_date_parse s = Some v -> Date_parse E s = Some v.

(** The day [z'] of the 400-year cycle that starts on 0000-03-01: its civil
    date is a date of the calendar, of the years 0 to 400, and counts back
    to the same day. *)
Definition cycle_day_ok (z' : Z) : bool :=
  let '(y, m, d) := civil_from_days (z' - 719468) in
  ((0 <=? y) && (y <=? 400) && ((146036 <? z') || (y <=? 399))
   && (1 <=? m) && (m <=? 12) && (1 <=? d) && (d <=? days_in_month y m)
   && (days_from_civil y m d =? z' - 719468))%bool.

Fixpoint all_from (n : nat) (z : Z) (f : Z -> bool) : bool :=
  match n with
  | O => true
  | S k => if f z then all_from k (z + 1) f else false
  end.


(** ** [lib/mongodb.ts]: the cached connection

    The cache lives in a global: a connection, once made, and the promise of
    the connection attempt.  Calls are taken one after another, so a promise
    is the outcome it settles with: [Ok] a connection, or [Throw] the error
    it is rejected with.  [mongoose.connect] is the collaborator; its
    successive calls answer [connect 0], [connect 1], ..., and the state
    counts the calls made so far. *)

Module Mongodb.

Section Cache.

Variable Conn : Type.
Variable connect : nat -> M Conn.

Record CachedMongoose : Type := mkCache {
  conn : option Conn;
  promise : option (M Conn)
}.

Record Global : Type := mkGlobal {
  mongoose : option CachedMongoose;
  connects : nat
}.

(** The state of a fresh process. *)
Definition fresh : Global := {| mongoose := None; connects := 0 |}.

(** [dbConnect()]: the outcome of the call and the state it leaves. *)
Definition dbConnect (g : Global) : M Conn * Global :=
  (* if (!cached.mongoose) cached.mongoose = { conn: null, promise: null } *)
  let mongooseCache :=
    match mongoose g with
    | Some c => c
    | None => {| conn := None; promise := None |}
    end in
  match conn mongooseCache with
  | Some c =>
      (* if (mongooseCache.conn) return mongooseCache.conn *)
      (Ok c, {| mongoose := Some mongooseCache; connects := connects g |})
  | None =>
      (* if (!mongooseCache.promise) mongooseCache.promise = connect(...) *)
      let '(p, n) :=
        match promise mongooseCache with
        | Some p => (p, connects g)
        | None => (connect (connects g), S (connects g))
        end in
      (* mongooseCache.conn = await mongooseCache.promise *)
      match p with
      | Ok c =>
          (Ok c, {| mongoose := Some {| conn := Some c; promise := Some p |};
                    connects := n |})
      | Throw e =>
          (Throw e, {| mongoose := Some {| conn := None; promise := Some p |};
                       connects := n |})
      end
  end.

(** [n] calls in a row: their outcomes and the final state. *)
Fixpoint calls (n : nat) (g : Global) : list (M Conn) * Global :=
  match n with
  | O => ([], g)
  | S n' =>
      let '(r, g1) := dbConnect g in
      let '(rs, g2) := calls n' g1 in
      (r :: rs, g2)
  end.

End Cache.

Arguments mkCache {Conn} conn promise.
Arguments mkGlobal {Conn} mongoose connects.
Arguments mongoose {Conn} g.
Arguments connects {Conn} g.
Arguments fresh {Conn}.
Arguments dbConnect {Conn} connect g.
Arguments calls {Conn} connect n g.

End Mongodb.

(** ** The finance page: total and slices of the pie chart *)

Module FinanceTracking.

(** The two fields of an expense the computations read. *)
Record Expense : Type := mkExpense {
  category : jsstring;
  total : number
}.

(** An entry [{ name, value }] of the accumulator; its property key is its
    name. *)
Record Slice : Type := mkSlice {
  name : jsstring;
  value : number
}.

(** [a + b] on numbers. *)
Definition add (a b : number) : number := SFadd prec emax a b.

(** [expenses.reduce((sum, e) => sum + e.total, 0)] *)
Definition totalSpent (expenses : list Expense) : number :=
  fold_left (fun sum e => add sum (total e)) expenses (num "0").

(** The property names every object inherits from [Object.prototype]: read
    through the accumulator they give a function (or the prototype), which
    is truthy. *)
Definition Object_prototype_keys : list jsstring :=
  map lit ["constructor"; "__defineGetter__"; "__defineSetter__";
           "hasOwnProperty"; "__lookupGetter__"; "__lookupSetter__";
           "isPrototypeOf"; "propertyIsEnumerable"; "toString"; "valueOf";
           "__proto__"; "toLocaleString"]%string.

Definition inherited (k : jsstring) : bool :=
  existsb (str_eqb k) Object_prototype_keys.

(** [acc[k].value += x] on an own entry; [None] when [k] is no own key. *)
Fixpoint bump (k : jsstring) (x : number) (acc : list Slice)
  : option (list Slice) :=
  match acc with
  | [] => None
  | s :: acc' =>
      if str_eqb (name s) k
      then Some ({| name := name s; value := add (value s) x |} :: acc')
      else match bump k x acc' with
           | Some r => Some (s :: r)
           | None => None
           end
  end.

(** The callback of the second [reduce].  Under an inherited name nothing is
    added to the accumulator: the test finds the inherited member and the
    sum lands on that member. *)
Definition step (acc : list Slice) (e : Expense) : list Slice :=
  match bump (category e) (total e) acc with
  | Some acc' => acc'
  | None =>
      if inherited (category e) then acc
      else acc ++ [{| name := category e;
                      value := add (num "0") (total e) |}]
  end.

(** An array index as a property key: ["0"], or digits without a leading
    zero, below [2^32 - 1]. *)
Definition array_index (k : jsstring) : option Z :=
  match k with
  | [] => None
  | c :: k' =>
      if (forallb isDigit k
          && (negb (N.eqb c 48) || match k' with [] => true | _ => false end))%bool
      then if digits_val k <? 4294967295 then Some (digits_val k) else None
      else None
  end.

Fixpoint insert_index (i : Z) (s : Slice) (l : list (Z * Slice))
  : list (Z * Slice) :=
  match l with
  | [] => [(i, s)]
  | (j, t) :: l' =>
      if i <=? j then (i, s) :: l else (j, t) :: insert_index i s l'
  end.

(** The own entries in property order: the array indices in ascending
    order, then the other keys in the order they were created. *)
Fixpoint indexed (acc : list Slice) : list (Z * Slice) :=
  match acc with
  | [] => []
  | s :: acc' =>
      match array_index (name s) with
      | Some i => insert_index i s (indexed acc')
      | None => indexed acc'
      end
  end.

Definition named (acc : list Slice) : list Slice :=
  filter (fun s => match array_index (name s) with
                   | Some _ => false
                   | None => true
                   end) acc.

(** [Object.values(acc)] *)
Definition Object_values (acc : list Slice) : list Slice :=
  map snd (indexed acc) ++ named acc.

(** [categoryData] *)
Definition categoryData (expenses : list Expense) : list Slice :=
  Object_values (fold_left step expenses []).

(** The categories of a list, each once, in the order of first occurrence. *)
Fixpoint distinct (l : list jsstring) : list jsstring :=
  match l with
  | [] => []
  | k :: l' => k :: filter (fun k' => negb (str_eqb k' k)) (distinct l')
  end.

(** The expenses of one category. *)
Definition of_category (k : jsstring) (expenses : list Expense) : list Expense :=
  filter (fun e => str_eqb (category e) k) expenses.

(** A category name that is an ordinary property key. *)
Definition plain_key (k : jsstring) : bool :=
  (negb (inherited k)
   && match array_index k with Some _ => false | None => true end)%bool.

(** One slice per category, in the order of first occurrence, each with the
    sum of the totals of its expenses. *)
Definition slices (expenses : list Expense) : list Slice :=
  map (fun k => {| name := k; value := totalSpent (of_category k expenses) |})
      (distinct (map category expenses)).

(** The expenses whose category is not an inherited property name. *)
Definition charted (expenses : list Expense) : list Expense :=
  filter (fun e => negb (inherited (category e))) expenses.

End FinanceTracking.

Module FT := FinanceTracking.

(** ** The scan page: confidence labels and the answer of the server *)

Module ScanPage.

(** [a >= b] *)
Definition ge (a b : number) : bool := num_leb b a.

Definition getConfidenceColor (confidence : number) : jsstring :=
  if ge confidence (num "0.8") then lit "text-green-600"
  else if ge confidence (num "0.6") then lit "text-yellow-600"
  else lit "text-red-600".

Definition getConfidenceText (confidence : number) : jsstring :=
  if ge confidence (num "0.8") then lit "High"
  else if ge confidence (num "0.6") then lit "Medium"
  else lit "Low".

(** The rank of a label, and the colour that goes with a rank. *)
Definition rank (label : jsstring) : nat :=
  if str_eqb label (lit "High") then 2
  else if str_eqb label (lit "Medium") then 1
  else 0.

Definition colour (r : nat) : jsstring :=
  match r with
  | 0%nat => lit "text-red-600"
  | 1%nat => lit "text-yellow-600"
  | _ => lit "text-green-600"
  end.

(** The body of the request: [JSON.stringify({ imageUrl: base64Image })],
    as the server decodes it. *)
Definition requestBody (base64Image : jsstring) : value :=
  VObj [(lit "imageUrl", VStr base64Image)].

(** What the page holds after a request: [scanResult] ([None] when the
    answer carried no [data]), or [error]. *)
Inductive View : Type :=
| ScanResult (d : option Doc.t)
| Error (message : jsstring).

(** The body of the [try] in [handleSubmit], given the answer of the
    server: [response.ok] is a status from 200 to 299, and [data] is the
    body of the answer. *)
Definition showResponse (response : Response) : View :=
  let ok := ((200 <=? status response) && (status response <=? 299))%bool in
  if (ok && success response)%bool then ScanResult (data response)
  else Error (match message response with
              | Some (c :: m) => c :: m
              | _ => lit "Failed to scan receipt."
              end).

End ScanPage.

(** Three expenses in two categories. *)
Definition sample_expenses : list FT.Expense :=
  [FT.mkExpense (ExpenseCategory.label ExpenseCategory.OTHER) (num "2.5");
   FT.mkExpense (lit "Travel") (num "10");
   FT.mkExpense (ExpenseCategory.label ExpenseCategory.OTHER) (num "4")].

(** ** The earlier route: reading the labelled answer

    The earlier version of the route asks the model for four labelled
    lines and reads them with case-sensitive patterns. *)

Module Legacy.

Fixpoint word (w : string) : regex :=
  match w with
  | EmptyString => Empty
  | String a w' => Seq (Class (is_char a)) (word w')
  end.

(** The patterns for [VENDOR:], [DATE:] and [TOTAL:]: the label, white
    space, then a captured non-empty run without a line terminator. *)
Definition re_VENDOR : regex :=
  Seq (word "VENDOR:") (Seq (Star isWhiteSpace) (Group (Plus dot))).

Definition re_DATE : regex :=
  Seq (word "DATE:") (Seq (Star isWhiteSpace) (Group (Plus dot))).

Definition re_TOTAL : regex :=
  Seq (word "TOTAL:") (Seq (Star isWhiteSpace) (Group (Plus dot))).

(** The pattern for [RAWTEXT:]: the label, white space, then a captured run
    of any characters. *)
Definition re_RAWTEXT : regex :=
  Seq (word "RAWTEXT:") (Seq (Star isWhiteSpace) (Group (Star any_char))).

Record Extracted : Type := mkExtracted {
  vendor : jsstring;
  date : jsstring;
  total : number;
  rawText : jsstring
}.

(** Lines 73 to 88: what the function does with the text of the answer;
    [fullYear] is [new Date().getFullYear()]. *)
Definition analyzeReceiptText (fullYear : number) (responseText : jsstring)
  : Extracted :=
  let vendorMatch := String_match re_VENDOR responseText in
  let dateMatch := String_match re_DATE responseText in
  let totalMatch := String_match re_TOTAL responseText in
  let rawTextMatch := String_match re_RAWTEXT responseText in
  let vendor :=
    match vendorMatch with
    | Some m => trim (group1 m)
    | None => lit "Unknown Vendor"
    end in
  let dateStr :=
    match dateMatch with
    | Some m => trim (group1 m)
    | None => Number_toString fullYear ++ lit "-01-01"
    end in
  let totalStr :=
    match totalMatch with
    | Some m => trim (group1 m)
    | None => lit "0.00"
    end in
  let rawText :=
    match rawTextMatch with
    | Some m => trim (group1 m)
    | None => responseText
    end in
  {| vendor := vendor;
     date := dateStr;
     total := num_or (parseFloat_string totalStr) (num "0.00");
     rawText := rawText |}.

(** What follows the first occurrence of [w] in [s]. *)
Fixpoint after_first (w s : jsstring) : option jsstring :=
  match starts_with w s with
  | Some rest => Some rest
  | None =>
      match s with
      | [] => None
      | _ :: s' => after_first w s'
      end
  end.

End Legacy.

(* ================================================================== *)
(** * Part 6. Properties of the claims *)
(* ================================================================== *)

(** ** The run-time model on known values *)

(** Decimal text is rounded to the nearest binary64 value. *)
Example num_samples :
  num "0.1" = S754_finite false 7205759403792794 (-56)
  /\ num "1e23" = S754_finite false 5960464477539062 24
  /\ num "5e-324" = S754_finite false 1 (-1074)
  /\ num "2e-324" = S754_zero false
  /\ num "1e400" = Infinity
  /\ num "-0" = S754_zero true
  /\ num "." = NaN
  /\ num "1.e3" = num "1000"
  /\ num "  42abc" = num "42".
Proof. repeat split; vm_compute; reflexivity. Qed.

(** Numbers print with the fewest digits that read back. *)
Example Number_toString_samples :
  map (fun x => Number_toString (num x))
      ["0.1"; "12.50"; "1e21"; "123456789012345680000"; "0.000001"; "1e-7";
       "-5"; "1.7976931348623157e308"; "5e-324"; "-0"]%string
  = map lit
      ["0.1"; "12.5"; "1e+21"; "123456789012345680000"; "0.000001"; "1e-7";
       "-5"; "1.7976931348623157e+308"; "5e-324"; "0"]%string.
Proof. vm_compute. reflexivity. Qed.

Example parseFloat_samples :
  parseFloat (VNum (num "19.99")) = Ok (num "19.99")
  /\ parseFloat (VStr (lit "19.99")) = Ok (num "19.99")
  /\ parseFloat VUndef = Ok NaN
  /\ parseFloat VNull = Ok NaN
  /\ parseFloat (VBool true) = Ok NaN
  /\ parseFloat (VArr [VNum (num "1.5"); VNull]) = Ok (num "1.5")
  /\ parseFloat (VObj []) = Ok NaN
  /\ parseFloat (VObj [(lit "toString", VNull)]) = Throw TypeError.
Proof. repeat split; vm_compute; reflexivity. Qed.

(** The patterns of the route: the braces are matched greedily, a label is
    found anywhere and in any case, [\s*] gives back what [.+] needs. *)
Example String_match_samples :
  String_match re_json (lit "a {b} c {d} e") = Some [lit "{b} c {d}"]
  /\ String_match re_json (lit "} {") = None
  /\ String_match re_vendor (lit "My Store:   Joe's  ")
     = Some [lit "Store:   Joe's  "; lit "Joe's  "]
  /\ String_match re_vendor (lit "vendor:  ") = Some [lit "vendor:  "; lit " "]
  /\ String_match re_date (lit "Update: soon") = Some [lit "date: soon"; lit "soon"]
  /\ String_match re_total (lit "Subtotal: 10; Total: 12")
     = Some [lit "total: 10"; lit "10"]
  /\ String_match re_total (lit "total: n/a") = None.
Proof. repeat split; vm_compute; reflexivity. Qed.

Example JSON_parse_samples :
  JSON.parse (JSON.json "{`vendor`:`Acme`,`category`:`Bogus`,`total`:`19.99`}")
  = Ok (VObj [(lit "vendor", VStr (lit "Acme"));
              (lit "category", VStr (lit "Bogus"));
              (lit "total", VStr (lit "19.99"))])
  /\ JSON.parse (JSON.json " [1, -2.5e1, true, null, [], {}, `aA\n`] ")
     = Ok (VArr [VNum (num "1"); VNum (num "-25"); VBool true; VNull; VArr [];
                 VObj []; VStr [97; 65; 10]%N])
  /\ JSON.parse (JSON.json "{`a`:01}") = Throw SyntaxError
  /\ JSON.parse (JSON.json "{`a`:1,}") = Throw SyntaxError
  /\ JSON.parse (JSON.json "{`a`:1} x") = Throw SyntaxError
  /\ JSON.parse (JSON.json "{'a':1}") = Throw SyntaxError.
Proof. repeat split; vm_compute; reflexivity. Qed.

(** The Acme scenario: an unknown category is corrected and a total given
    as text is read as a number. *)
Example acme_scenario (E : Env) :
  fromParsed E
    (VObj [(lit "vendor", VStr (lit "Acme"));
           (lit "category", VStr (lit "Bogus"));
           (lit "total", VStr (lit "19.99"))]) []
  = Ok {| Extracted.vendor := VStr (lit "Acme");
          Extracted.vendorAddress := VUndef;
          Extracted.vendorPhone := VUndef;
          Extracted.date := VStr (today E);
          Extracted.receiptNumber := VUndef;
          Extracted.subtotal := num "0";
          Extracted.tax := num "0";
          Extracted.tip := None;
          Extracted.discount := None;
          Extracted.total := num "19.99";
          Extracted.currency := VStr (lit "USD");
          Extracted.category := VStr (lit "Other");
          Extracted.paymentMethod := VStr (lit "Other");
          Extracted.lineItems := [];
          Extracted.rawText := VStr [];
          Extracted.confidence := num "0.5" |}.
Proof. vm_compute. reflexivity. Qed.

(** ** Reasoning about the exception monad *)

(** Peel the successive binds of a computation known to return. *)
Ltac bind_inv H :=
  repeat match type of H with
    | bind ?m _ = Ok _ =>
        let a := fresh "a" in
        let Ha := fresh "Ha" in
        destruct m as [a|] eqn:Ha; [cbn [bind] in H | discriminate H]
    end.

(** ** Strings and values *)

Lemma str_eqb_eq (a b : jsstring) : str_eqb a b = true <-> a = b.
Proof.
  revert b; induction a as [|x a IH]; intros [|y b]; simpl; split;
    try congruence; try reflexivity.
  - intros H. apply andb_true_iff in H as [H1 H2].
    apply N.eqb_eq in H1. apply IH in H2. congruence.
  - intros H. injection H as -> ->. rewrite N.eqb_refl. simpl. now apply IH.
Qed.

Lemma str_eqb_refl (a : jsstring) : str_eqb a a = true.
Proof. now apply str_eqb_eq. Qed.

Lemma truthy_defined (v : value) : truthy v = true -> v <> VUndef.
Proof. intros H ->. discriminate H. Qed.

Lemma or_else_defined (a b : value) : b <> VUndef -> or_else a b <> VUndef.
Proof.
  unfold or_else. destruct (truthy a) eqn:T; [intros _ | easy].
  now apply truthy_defined.
Qed.

Lemma or_else_truthy (a b : value) : truthy a = true -> or_else a b = a.
Proof. unfold or_else. now intros ->. Qed.

Lemma or_else_falsy (a b : value) : truthy a = false -> or_else a b = b.
Proof. unfold or_else. now intros ->. Qed.

Lemma existsb_str_In (s : jsstring) (l : list jsstring) :
  existsb (str_eqb s) l = true <-> In s l.
Proof.
  rewrite existsb_exists. split.
  - intros (x & Hx & E). apply str_eqb_eq in E. now subst.
  - intros H. exists s. split; [assumption | apply str_eqb_refl].
Qed.

Lemma includes_In (labels : list jsstring) (v : value) :
  includes labels v = true <-> exists s, v = VStr s /\ In s labels.
Proof.
  split.
  - destruct v; simpl; try discriminate. intros H. exists s.
    split; [reflexivity | now apply existsb_str_In].
  - intros (s & -> & H). simpl. now apply existsb_str_In.
Qed.

(** ** Numbers *)

Lemma SFcompare_antisym (a b : number) (c : comparison) :
  SFcompare a b = Some c -> SFcompare b a = Some (CompOpp c).
Proof.
  destruct a as [sa | sa | | sa ma ea], b as [sb | sb | | sb mb eb];
    simpl; try discriminate;
    try (destruct sa; intros [= <-]; reflexivity);
    try (destruct sb; intros [= <-]; reflexivity);
    try (intros [= <-]; reflexivity).
  - destruct sa, sb; intros [= <-]; reflexivity.
  - destruct sa, sb; intros [= <-]; try reflexivity;
      rewrite (Z.compare_antisym ea eb);
      destruct (ea ?= eb); simpl; try reflexivity;
      rewrite (Pos.compare_cont_antisym ma mb Eq); simpl;
      now rewrite ?CompOpp_involutive.
Qed.

Lemma SFleb_not_NaN_r (a b : number) : SFleb a b = true -> isNaN b = false.
Proof.
  unfold SFleb. destruct b; try reflexivity.
  destruct a; simpl; discriminate.
Qed.

Lemma SFcompare_defined (a b : number) :
  isNaN a = false -> isNaN b = false -> SFcompare a b <> None.
Proof.
  destruct a, b; simpl; try discriminate; intros _ _; discriminate.
Qed.

Lemma Math_max_zero_nonneg (y : number) :
  isNaN y = false ->
  SFleb (S754_zero false) (Math_max y (S754_zero false)) = true.
Proof.
  destruct y as [s | s | | s m e]; try discriminate; intros _;
    destruct s; reflexivity.
Qed.

Lemma Math_min_nonneg (z c : number) :
  SFleb (S754_zero false) z = true -> SFleb (S754_zero false) c = true ->
  SFleb (S754_zero false) (Math_min z c) = true.
Proof.
  intros Hz Hc. unfold Math_min.
  destruct (SFcompare z c) as [[]|] eqn:C; try assumption.
  - destruct z as [[] | | | ]; assumption.
  - exfalso. revert C. apply SFcompare_defined; eapply SFleb_not_NaN_r; eauto.
Qed.

Lemma Math_min_le_r (z c : number) :
  SFcompare c c = Some Eq -> isNaN z = false ->
  SFleb (Math_min z c) c = true.
Proof.
  intros Hc Hz. unfold Math_min.
  destruct (SFcompare z c) as [[]|] eqn:C.
  - destruct z as [[] | | | ]; unfold SFleb; now rewrite ?C, ?Hc.
  - unfold SFleb. now rewrite C.
  - unfold SFleb. now rewrite Hc.
  - exfalso. revert C. apply SFcompare_defined; [assumption |].
    destruct c; [reflexivity | reflexivity | discriminate Hc | reflexivity].
Qed.

Lemma num_or_not_NaN (x d : number) : isNaN d = false -> isNaN (num_or x d) = false.
Proof.
  unfold num_or, truthy_number. intros Hd.
  destruct x; simpl; try assumption; reflexivity.
Qed.

(** The clamp always lands in [[0, 1]]. *)
Lemma clampConfidence_bounds (x : number) : in_unit_interval (clampConfidence x).
Proof.
  unfold in_unit_interval, clampConfidence, num_leb.
  assert (N : isNaN (num_or x (num "0.5")) = false)
    by (now apply num_or_not_NaN).
  change (num "0") with (S754_zero false).
  pose proof (Math_max_zero_nonneg _ N) as Lo.
  split.
  - apply Math_min_nonneg; [exact Lo | reflexivity].
  - apply Math_min_le_r; [reflexivity |].
    now apply SFleb_not_NaN_r in Lo.
Qed.

(** Above one the clamp gives exactly one. *)
Lemma clampConfidence_above (x : number) :
  num_ltb (num "1") x = true -> clampConfidence x = num "1".
Proof.
  unfold num_ltb, SFltb. intros H.
  destruct (SFcompare (num "1") x) as [[]|] eqn:C; try discriminate.
  apply SFcompare_antisym in C. simpl CompOpp in C.
  assert (P : num_or x (num "0.5") = x /\ Math_max x (num "0") = x).
  { destruct x as [s | s | | s m e].
    - discriminate C.
    - destruct s; [discriminate C | split; reflexivity].
    - discriminate C.
    - destruct s; [discriminate C | split; reflexivity]. }
  destruct P as [P1 P2].
  unfold clampConfidence. rewrite P1, P2.
  unfold Math_min. now rewrite C.
Qed.

(** Below zero the clamp gives exactly zero. *)
Lemma clampConfidence_below (x : number) :
  num_ltb x (num "0") = true -> clampConfidence x = num "0".
Proof.
  unfold num_ltb, SFltb.
  destruct x as [s | s | | s m e]; try discriminate;
    destruct s; try discriminate; intros _; reflexivity.
Qed.

(** A candidate that is zero or not a number gets the default. *)
Lemma clampConfidence_default (x : number) :
  truthy_number x = false -> clampConfidence x = num "0.5".
Proof.
  unfold clampConfidence, num_or. intros ->. reflexivity.
Qed.

(** ** The decoded object, field by field *)

Ltac fromParsed_inv H :=
  unfold fromParsed in H; bind_inv H; injection H as <-; cbn.

Lemma fromParsed_confidence E p text r :
  fromParsed E p text = Ok r ->
  exists c x, Get p "confidence" = Ok c /\ parseFloat c = Ok x
              /\ Extracted.confidence r = clampConfidence x.
Proof. intros H. fromParsed_inv H. eauto. Qed.

Lemma fromParsed_category E p text r :
  fromParsed E p text = Ok r ->
  exists c, Get p "category" = Ok c
            /\ Extracted.category r =
               if includes ExpenseCategory.values c then c
               else VStr (ExpenseCategory.label ExpenseCategory.OTHER).
Proof. intros H. fromParsed_inv H. eauto. Qed.

Lemma fromParsed_paymentMethod E p text r :
  fromParsed E p text = Ok r ->
  exists c, Get p "paymentMethod" = Ok c
            /\ Extracted.paymentMethod r =
               if includes PaymentMethod.values c then c
               else VStr (PaymentMethod.label PaymentMethod.OTHER).
Proof. intros H. fromParsed_inv H. eauto. Qed.

Lemma fromParsed_date E p text r :
  fromParsed E p text = Ok r ->
  exists c, Get p "date" = Ok c
            /\ Extracted.date r = or_else c (VStr (today E)).
Proof. intros H. fromParsed_inv H. eauto. Qed.

Lemma fromParsed_amounts E p text r :
  fromParsed E p text = Ok r ->
  exists s s' t t' u u',
    Get p "subtotal" = Ok s /\ parseFloat s = Ok s'
    /\ Get p "tax" = Ok t /\ parseFloat t = Ok t'
    /\ Get p "total" = Ok u /\ parseFloat u = Ok u'
    /\ Extracted.subtotal r = num_or s' (num "0")
    /\ Extracted.tax r = num_or t' (num "0")
    /\ Extracted.total r = num_or u' (num "0").
Proof. intros H. fromParsed_inv H. repeat eexists; eauto. Qed.

(** ** The two tiers *)

(** When the [try] block returns, its record is the result. *)
Lemma analyze_structured E text r :
  structured E text = Ok (Some r) -> analyzeReceiptText E text = Ok r.
Proof. unfold analyzeReceiptText. now intros ->. Qed.

(** In every other case the result is the fallback record. *)
Lemma analyze_fallback E text :
  (forall r, structured E text <> Ok (Some r)) ->
  analyzeReceiptText E text = Ok (fallback E text).
Proof.
  unfold analyzeReceiptText. intros H.
  destruct (structured E text) as [[r|]|e]; simpl; try reflexivity.
  now destruct (H r).
Qed.

Lemma analyze_cases E text :
  (exists r, structured E text = Ok (Some r)
             /\ analyzeReceiptText E text = Ok r)
  \/ ((forall r, structured E text <> Ok (Some r))
      /\ analyzeReceiptText E text = Ok (fallback E text)).
Proof.
  destruct (structured E text) as [[r|]|e] eqn:S.
  - left. exists r. split; [reflexivity | now apply analyze_structured].
  - right. split; [discriminate | apply analyze_fallback; rewrite S; discriminate].
  - right. split; [discriminate | apply analyze_fallback; rewrite S; discriminate].
Qed.

Lemma structured_inv E text r :
  structured E text = Ok (Some r) ->
  exists jsonMatch parsedData,
    String_match re_json text = Some jsonMatch
    /\ JSON_parse E (nth 0 jsonMatch []) = Ok parsedData
    /\ fromParsed E parsedData text = Ok r.
Proof.
  unfold structured. destruct (String_match re_json text) as [m|]; [|discriminate].
  intros H. bind_inv H. injection H as <-. eauto.
Qed.

(** Reading a property of a [null] line item raises, whatever else the
    object holds. *)
Lemma mapM_Ok_In {A B : Type} (f : A -> M B) (l : list A) (bs : list B) :
  mapM f l = Ok bs -> forall a, In a l -> exists b, f a = Ok b.
Proof.
  revert bs. induction l as [| x l IH]; intros bs H a I; [destruct I |].
  cbn [mapM] in H. bind_inv H. destruct I as [<- | I]; eauto.
Qed.

Lemma fromParsed_null_item E p items text r :
  Get p "lineItems" = Ok (VArr items) -> In VNull items ->
  fromParsed E p text <> Ok r.
Proof.
  intros G I H. unfold fromParsed in H. bind_inv H.
  injection G as ->.
  match goal with
  | L : _ = Ok ?l |- _ =>
      assert (L' : mapM normalizeItem items = Ok l) by exact L;
      destruct (mapM_Ok_In _ _ _ L' VNull I) as (b & B); discriminate B
  end.
Qed.

(** So an object with a [null] line item always ends in the fallback. *)
Lemma null_item_falls_back E text jsonMatch p items :
  String_match re_json text = Some jsonMatch ->
  JSON_parse E (nth 0 jsonMatch []) = Ok p ->
  Get p "lineItems" = Ok (VArr items) -> In VNull items ->
  analyzeReceiptText E text = Ok (fallback E text).
Proof.
  intros Hm Hp G I. apply analyze_fallback. intros r Hs.
  apply structured_inv in Hs as (m' & p' & Hm' & Hp' & F).
  rewrite Hm in Hm'. injection Hm' as <-. rewrite Hp in Hp'.
  injection Hp' as <-. revert F. now apply (fromParsed_null_item E p items).
Qed.

(** In the fallback a total token without a digit is read as [NaN]: the
    number is there, the default is not applied. *)
Remark fallback_total_without_digit E :
  isNaN (Extracted.total (fallback E (lit "total: ."))) = true.
Proof. vm_compute. reflexivity. Qed.

(** In the fallback a vendor line that holds only white space gives the
    empty text, not the default name. *)
Remark fallback_vendor_of_blank_line E :
  Extracted.vendor (fallback E (lit "vendor:  ")) = VStr [].
Proof. vm_compute. reflexivity. Qed.

(** ** Completeness of a record *)

Lemma validated_is_label (labels : list jsstring) (other : jsstring) (c : value) :
  In other labels ->
  is_label labels (if includes labels c then c else VStr other).
Proof.
  intros Ho. destruct (includes labels c) eqn:I.
  - now apply includes_In in I.
  - exists other. split; [reflexivity | assumption].
Qed.

Lemma OTHER_category : In (ExpenseCategory.label ExpenseCategory.OTHER) ExpenseCategory.values.
Proof. apply in_map. simpl. tauto. Qed.

Lemma OTHER_payment : In (PaymentMethod.label PaymentMethod.OTHER) PaymentMethod.values.
Proof. apply in_map. simpl. tauto. Qed.

Lemma fromParsed_complete E p text r :
  fromParsed E p text = Ok r -> Complete r.
Proof.
  intros H. fromParsed_inv H.
  constructor; cbn.
  - apply or_else_defined. discriminate.
  - apply or_else_defined. discriminate.
  - apply or_else_defined. discriminate.
  - apply validated_is_label, OTHER_category.
  - apply validated_is_label, OTHER_payment.
  - apply or_else_defined. discriminate.
  - now apply num_or_not_NaN.
  - now apply num_or_not_NaN.
  - apply clampConfidence_bounds.
Qed.

Lemma fallback_complete E text : Complete (fallback E text).
Proof.
  constructor; unfold fallback; cbn.
  - destruct (String_match re_vendor text); discriminate.
  - destruct (String_match re_date text); discriminate.
  - discriminate.
  - exists (ExpenseCategory.label ExpenseCategory.OTHER).
    split; [reflexivity | apply OTHER_category].
  - exists (PaymentMethod.label PaymentMethod.OTHER).
    split; [reflexivity | apply OTHER_payment].
  - discriminate.
  - reflexivity.
  - reflexivity.
  - split; reflexivity.
Qed.

(** The result always exists, and it is complete. *)
Lemma analyze_complete (E : Env) (text : jsstring) :
  exists r, analyzeReceiptText E text = Ok r /\ Complete r.
Proof.
  destruct (analyze_cases E text) as [(r & S & A) | (_ & A)].
  - exists r. split; [assumption |].
    apply structured_inv in S as (m & p & _ & _ & F).
    eapply fromParsed_complete; eassumption.
  - exists (fallback E text). split; [assumption |].
    apply fallback_complete.
Qed.

(** For every text of the model's answer, and whatever the decoder does
    with it, the normalisation returns a record and raises nothing.  When
    the decoded object has a [null] among its line items, the exception
    raised while the object is normalised is caught and the record of the
    fallback is returned. *)
Lemma analyzeReceiptText_total (E : Env) (responseText : jsstring) :
  (exists r, analyzeReceiptText E responseText = Ok r /\ Complete r)
  /\ (forall jsonMatch parsedData items,
         String_match re_json responseText = Some jsonMatch ->
         JSON_parse E (nth 0 jsonMatch []) = Ok parsedData ->
         Get parsedData "lineItems" = Ok (VArr items) ->
         In VNull items ->
         analyzeReceiptText E responseText = Ok (fallback E responseText)).
Proof.
  split; [apply analyze_complete |].
  intros m p items Hm Hp G I. eapply null_item_falls_back; eassumption.
Qed.

(** ** Enumerations *)

(** When the normalisation of a decoded object raises nothing, [category]
    and [paymentMethod] are settled by exact membership in the list of
    labels: a candidate that is one of the label strings, code unit for
    code unit, is kept as it is, and every other candidate (another case,
    another spelling, not a string) becomes the label [Other]. *)
Lemma enum_membership_is_exact (E : Env) (parsedData : value)
  (responseText : jsstring) (r : Extracted.t) (c pm : value)
  (Hc : Get parsedData "category" = Ok c)
  (Hpm : Get parsedData "paymentMethod" = Ok pm)
  (H : fromParsed E parsedData responseText = Ok r) :
  (is_label ExpenseCategory.values c -> Extracted.category r = c)
  /\ (~ is_label ExpenseCategory.values c ->
      Extracted.category r = VStr (lit "Other"))
  /\ (is_label PaymentMethod.values pm -> Extracted.paymentMethod r = pm)
  /\ (~ is_label PaymentMethod.values pm ->
      Extracted.paymentMethod r = VStr (lit "Other")).
Proof.
  destruct (fromParsed_category _ _ _ _ H) as (c' & Hc' & Rc).
  destruct (fromParsed_paymentMethod _ _ _ _ H) as (pm' & Hpm' & Rpm).
  rewrite Hc in Hc'. injection Hc' as <-.
  rewrite Hpm in Hpm'. injection Hpm' as <-.
  rewrite Rc, Rpm. repeat split; intros L.
  - apply includes_In in L. now rewrite L.
  - destruct (includes ExpenseCategory.values c) eqn:I; [|reflexivity].
    apply includes_In in I. contradiction.
  - apply includes_In in L. now rewrite L.
  - destruct (includes PaymentMethod.values pm) eqn:I; [|reflexivity].
    apply includes_In in I. contradiction.
Qed.

Lemma groceries_cash_decoded :
  JSON.parse (JSON.json "{`category`:`Groceries`,`paymentMethod`:`cash`}")
  = Ok groceries_cash.
Proof. vm_compute. reflexivity. Qed.

Lemma cash_is_no_label : ~ is_label PaymentMethod.values (VStr (lit "cash")).
Proof.
  intros (s & [= <-] & I). apply existsb_str_In in I. vm_compute in I.
  discriminate I.
Qed.

Lemma enum_membership_witness :
  exists r,
    fromParsed (sampleEnv []) groceries_cash [] = Ok r
    /\ Extracted.category r = VStr (lit "Groceries")
    /\ Extracted.paymentMethod r = VStr (lit "Other").
Proof.
  eexists. split; [vm_compute; reflexivity |].
  pose proof (enum_membership_is_exact (sampleEnv []) groceries_cash [] _
                (VStr (lit "Groceries")) (VStr (lit "cash"))
                eq_refl eq_refl eq_refl) as (K & _ & _ & P).
  split.
  - apply K. exists (lit "Groceries"). split; [reflexivity |].
    apply existsb_str_In. vm_compute. reflexivity.
  - apply P. exact cash_is_no_label.
Defined.

(** C6 (the code departs from it).  The answer [labels_null_item_text]
    decodes as an object whose category [Groceries] and payment method
    [Cash] are labels of their enumerations, to be kept as they are.  Its
    list of line items holds [null]: reading [name] of it raises inside the
    [try] block, the [catch] clause swallows the exception and the fallback
    record is returned, in which both fields are [Other]. *)
Theorem null_item_loses_labels :
  String_match re_json labels_null_item_text = Some [labels_null_item_text]
  /\ JSON.parse labels_null_item_text = Ok labels_null_item_object
  /\ Get labels_null_item_object "category" = Ok (VStr (lit "Groceries"))
  /\ In (lit "Groceries") ExpenseCategory.values
  /\ Get labels_null_item_object "paymentMethod" = Ok (VStr (lit "Cash"))
  /\ In (lit "Cash") PaymentMethod.values
  /\ fromParsed (sampleEnv []) labels_null_item_object labels_null_item_text
     = Throw TypeError
  /\ exists r,
       analyzeReceiptText (sampleEnv []) labels_null_item_text = Ok r
       /\ r = fallback (sampleEnv []) labels_null_item_text
       /\ Extracted.category r = VStr (lit "Other")
       /\ Extracted.paymentMethod r = VStr (lit "Other").
Proof.
  split; [vm_compute; reflexivity |]. split; [vm_compute; reflexivity |].
  split; [reflexivity |].
  split; [apply existsb_str_In; vm_compute; reflexivity |].
  split; [reflexivity |].
  split; [apply existsb_str_In; vm_compute; reflexivity |].
  split; [vm_compute; reflexivity |].
  eexists. repeat split; vm_compute; reflexivity.
Qed.

(** ** The labelled-lines scenario *)

(** Twelve and a half, exactly: [25 * 2 ^ 48 * 2 ^ -49]. *)
Lemma num_12_50 : num "12.50" = S754_finite false (Z.to_pos (25 * 2 ^ 48)) (-49).
Proof. vm_compute. reflexivity. Qed.


(** ** Confidence *)

(** When the normalisation of a decoded object raises nothing and its
    confidence candidate parses to zero, the confidence of the record is
    0.5: [0 || 0.5] is [0.5], as for an absent candidate. *)
Lemma zero_confidence_is_default (E : Env) (parsedData : value)
  (responseText : jsstring) (r : Extracted.t) (c : value) (x : number)
  (Hc : Get parsedData "confidence" = Ok c)
  (Hx : parseFloat c = Ok x)
  (Hz : isZero x = true)
  (H : fromParsed E parsedData responseText = Ok r) :
  Extracted.confidence r = num "0.5"
  /\ forall p' r',
       Get p' "confidence" = Ok VUndef ->
       fromParsed E p' responseText = Ok r' ->
       Extracted.confidence r' = Extracted.confidence r.
Proof.
  assert (R : Extracted.confidence r = num "0.5").
  { destruct (fromParsed_confidence _ _ _ _ H) as (c' & x' & Hc' & Hx' & R).
    rewrite Hc in Hc'. injection Hc' as <-.
    rewrite Hx in Hx'. injection Hx' as <-.
    rewrite R. apply clampConfidence_default.
    destruct x; try discriminate Hz. reflexivity. }
  split; [exact R |].
  intros p' r' Hc' H'.
  destruct (fromParsed_confidence _ _ _ _ H') as (c'' & x'' & G & P & R').
  rewrite Hc' in G. injection G as <-.
  injection P as <-. rewrite R', R. reflexivity.
Qed.

Lemma confidence_zero_decoded :
  JSON.parse (JSON.json "{`confidence`:0}") = Ok confidence_zero_number
  /\ JSON.parse (JSON.json "{`confidence`:`0`}") = Ok confidence_zero_string.
Proof. split; vm_compute; reflexivity. Qed.

Lemma zero_confidence_witness :
  (exists r, fromParsed (sampleEnv []) confidence_zero_number [] = Ok r
             /\ Extracted.confidence r = num "0.5")
  /\ (exists r, fromParsed (sampleEnv []) confidence_zero_string [] = Ok r
                /\ Extracted.confidence r = num "0.5").
Proof.
  split; eexists; (split; [vm_compute; reflexivity |]).
  - apply (zero_confidence_is_default (sampleEnv []) confidence_zero_number []
             _ (VNum (num "0")) (num "0") eq_refl eq_refl eq_refl eq_refl).
  - apply (zero_confidence_is_default (sampleEnv []) confidence_zero_string []
             _ (VStr (lit "0")) (num "0") eq_refl eq_refl eq_refl eq_refl).
Defined.

(** C10 (the code departs from it).  The answer [zero_null_item_text]
    decodes as an object whose confidence candidate is the number 0, so
    that the confidence should be 0.5.  Its list of line items holds
    [null]: reading [name] of it raises inside the [try] block, the [catch]
    clause swallows the exception and the fallback record is returned, with
    the confidence 0.3. *)
Theorem null_item_zero_confidence :
  String_match re_json zero_null_item_text = Some [zero_null_item_text]
  /\ JSON.parse zero_null_item_text = Ok zero_null_item_object
  /\ Get zero_null_item_object "confidence" = Ok (VNum (num "0"))
  /\ parseFloat (VNum (num "0")) = Ok (num "0")
  /\ fromParsed (sampleEnv []) zero_null_item_object zero_null_item_text
     = Throw TypeError
  /\ exists r,
       analyzeReceiptText (sampleEnv []) zero_null_item_text = Ok r
       /\ r = fallback (sampleEnv []) zero_null_item_text
       /\ Extracted.confidence r = num "0.3"
       /\ Extracted.confidence r <> num "0.5".
Proof.
  split; [vm_compute; reflexivity |]. split; [vm_compute; reflexivity |].
  split; [reflexivity |]. split; [vm_compute; reflexivity |].
  split; [vm_compute; reflexivity |].
  eexists. split; [vm_compute; reflexivity |].
  split; [vm_compute; reflexivity |].
  split; [vm_compute; reflexivity | vm_compute; discriminate].
Qed.

Lemma manualDoc_confidence E body d :
  manualDoc E body = Ok d -> Doc.confidence d = num "1".
Proof. unfold manualDoc. intros H. bind_inv H. now injection H as <-. Qed.

(** A text without any brace: the fallback record, whose confidence is the
    constant 0.3 although the record comes from the model and no confidence
    candidate exists. *)
Lemma fallback_confidence_is_not_half :
  exists r,
    analyzeReceiptText (sampleEnv []) scenario_text = Ok r
    /\ Extracted.confidence r = num "0.3"
    /\ Extracted.confidence r <> num "0.5".
Proof.
  eexists. split; [vm_compute; reflexivity |].
  split; [vm_compute; reflexivity | vm_compute; discriminate].
Qed.

(** C5, amended.  The confidence of every record of the pipeline lies in
    [[0, 1]].  On a decoded object whose normalisation raises no exception,
    a candidate that parses above 1 gives exactly 1, one that parses below 0
    gives exactly 0, and an absent one gives 0.5; a record of the fallback
    tier has the constant 0.3; a manual entry has 1. *)
Theorem confidence_rules (E : Env) :
  (forall text r,
      analyzeReceiptText E text = Ok r ->
      in_unit_interval (Extracted.confidence r))
  /\ (forall p text r c x,
         fromParsed E p text = Ok r ->
         Get p "confidence" = Ok c ->
         parseFloat c = Ok x ->
         (num_ltb (num "1") x = true -> Extracted.confidence r = num "1")
         /\ (num_ltb x (num "0") = true -> Extracted.confidence r = num "0")
         /\ (c = VUndef -> Extracted.confidence r = num "0.5"))
  /\ (forall text r,
         analyzeReceiptText E text = Ok r ->
         (forall r', structured E text <> Ok (Some r')) ->
         Extracted.confidence r = num "0.3")
  /\ (forall body d, manualDoc E body = Ok d -> Doc.confidence d = num "1").
Proof.
  split; [| split; [| split]].
  - intros text r H.
    destruct (analyze_complete E text) as (r' & A & C).
    rewrite A in H. injection H as <-. apply C.
  - intros p text r c x H Hc Hx.
    destruct (fromParsed_confidence _ _ _ _ H) as (c' & x' & Hc' & Hx' & R).
    rewrite Hc in Hc'. injection Hc' as <-.
    rewrite Hx in Hx'. injection Hx' as <-.
    rewrite R. repeat split.
    + apply clampConfidence_above.
    + apply clampConfidence_below.
    + intros ->. injection Hx as <-. reflexivity.
  - intros text r H N.
    rewrite (analyze_fallback E text N) in H. injection H as <-. reflexivity.
  - apply manualDoc_confidence.
Qed.

Lemma confidence_samples_decoded :
  JSON.parse (JSON.json "{`confidence`:1.7}") = Ok confidence_high
  /\ JSON.parse (JSON.json "{`confidence`:-0.2}") = Ok confidence_low
  /\ JSON.parse (JSON.json "{`manual`:true,`date`:`2024-03-01`}")
     = Ok manual_minimal.
Proof. repeat split; vm_compute; reflexivity. Qed.

Lemma confidence_rules_witness :
  (exists r, fromParsed (sampleEnv []) confidence_high [] = Ok r
             /\ Extracted.confidence r = num "1")
  /\ (exists r, fromParsed (sampleEnv []) confidence_low [] = Ok r
                /\ Extracted.confidence r = num "0")
  /\ (exists r, fromParsed (sampleEnv []) (VObj []) [] = Ok r
                /\ Extracted.confidence r = num "0.5")
  /\ (exists r, analyzeReceiptText (sampleEnv []) scenario_text = Ok r
                /\ Extracted.confidence r = num "0.3"
                /\ in_unit_interval (Extracted.confidence r))
  /\ (exists d, manualDoc (sampleEnv []) manual_minimal = Ok d
                /\ Doc.confidence d = num "1").
Proof.
  destruct (confidence_rules (sampleEnv [])) as (U & T1 & T2 & Mn).
  repeat split.
  - eexists. split; [vm_compute; reflexivity |].
    refine (proj1 (T1 confidence_high [] _ (VNum (num "1.7")) (num "1.7")
                     eq_refl eq_refl eq_refl) eq_refl).
  - eexists. split; [vm_compute; reflexivity |].
    refine (proj1 (proj2 (T1 confidence_low [] _ (VNum (num "-0.2"))
                            (num "-0.2") eq_refl eq_refl eq_refl)) eq_refl).
  - eexists. split; [vm_compute; reflexivity |].
    refine (proj2 (proj2 (T1 (VObj []) [] _ VUndef NaN
                            eq_refl eq_refl eq_refl)) eq_refl).
  - eexists. split; [vm_compute; reflexivity |]. split.
    + apply (T2 scenario_text); [vm_compute; reflexivity |].
      intros r'. vm_compute. discriminate.
    + apply (U scenario_text). vm_compute. reflexivity.
  - eexists. split; [vm_compute; reflexivity |].
    apply (Mn manual_minimal). vm_compute. reflexivity.
Defined.

(** ** Precedence of the two tiers *)

(** When the decoded object is normalised without an exception, its record
    is the result, and a missing [total] gives the default zero whatever the
    rest of the text says. *)
Lemma structured_takes_precedence E text m p r :
  String_match re_json text = Some m ->
  JSON_parse E (nth 0 m []) = Ok p ->
  fromParsed E p text = Ok r ->
  analyzeReceiptText E text = Ok r
  /\ (Get p "total" = Ok VUndef -> Extracted.total r = num "0").
Proof.
  intros Hm Hp Hr. split.
  - apply analyze_structured. unfold structured.
    rewrite Hm, Hp. cbn [bind]. now rewrite Hr.
  - intros G. destruct (fromParsed_amounts _ _ _ _ Hr)
      as (s & s' & t & t' & u & u' & _ & _ & _ & _ & Gu & Pu & _ & _ & R).
    rewrite G in Gu. injection Gu as <-. injection Pu as <-.
    rewrite R. reflexivity.
Qed.

(** C2 (the code departs from it).  In [null_item_text] the substring from
    the first to the last brace decodes as an object without [total], yet
    reading [name] of the [null] item raises inside the [try] block, the
    [catch] clause swallows it and the line patterns run: the total of the
    result is the 42 of the labelled line, and the confidence is that of the
    fallback. *)
Theorem null_line_item_reaches_fallback :
  String_match re_json null_item_text
  = Some [JSON.json "{`lineItems`:[null]}"]
  /\ JSON.parse (JSON.json "{`lineItems`:[null]}") = Ok null_item_object
  /\ Get null_item_object "total" = Ok VUndef
  /\ fromParsed (sampleEnv []) null_item_object null_item_text = Throw TypeError
  /\ exists r,
       analyzeReceiptText (sampleEnv []) null_item_text = Ok r
       /\ r = fallback (sampleEnv []) null_item_text
       /\ Extracted.total r = num "42"
       /\ Extracted.confidence r = num "0.3".
Proof.
  repeat split; try (vm_compute; reflexivity).
  eexists. repeat split; vm_compute; reflexivity.
Qed.

(** ** Monetary amounts *)

(** The negative numbers of the answer arrive unchanged in the record and in
    the document handed to [Expense.create]. *)
Lemma negative_amounts_reach_builder :
  exists r d,
    analyzeReceiptText (sampleEnv []) negative_text = Ok r
    /\ scanDoc (sampleEnv []) r sample_image = Ok d
    /\ Extracted.subtotal r = num "-5"
    /\ map LineItem.unitPrice (Extracted.lineItems r) = [num "-3"]
    /\ Doc.subtotal d = num "-5"
    /\ ~ nonneg (Doc.subtotal d).
Proof.
  do 2 eexists. split; [vm_compute; reflexivity |].
  split; [vm_compute; reflexivity |].
  repeat split; try (vm_compute; reflexivity).
  vm_compute. discriminate.
Qed.

Lemma number_path_nonneg (hi : option number) (x : number) :
  number_path (num "0") hi x = true -> nonneg x.
Proof.
  unfold number_path, nonneg. intros H.
  apply andb_true_iff in H as [H _]. now apply andb_true_iff in H as [_ H].
Qed.

Lemma validators_amounts (d : Doc.t) :
  ExpenseSchema_validators d = true ->
  nonneg (Doc.subtotal d) /\ nonneg (Doc.tax d) /\ nonneg (Doc.total d)
  /\ (forall x, Doc.tip d = Some x -> nonneg x)
  /\ (forall x, Doc.discount d = Some x -> nonneg x).
Proof.
  unfold ExpenseSchema_validators. intros H.
  repeat (apply andb_true_iff in H as [H ?]).
  repeat split; try (eapply number_path_nonneg; eassumption).
  - intros x Hx. rewrite Hx in *. eapply number_path_nonneg; eassumption.
  - intros x Hx. rewrite Hx in *. eapply number_path_nonneg; eassumption.
Qed.

(** What [POST] stored, it built on one of its two branches and handed to
    [Expense.create]. *)
Lemma POST_created (E : Env) (body : value) (resp : Response) (stored : Doc.t) :
  POST E body = Ok resp -> data resp = Some stored ->
  exists d,
    Expense_create E d = Ok stored
    /\ (manualDoc E body = Ok d
        \/ exists base64 text r img,
             generateContent E base64 = Ok text
             /\ analyzeReceiptText E text = Ok r
             /\ Get body "imageUrl" = Ok img
             /\ scanDoc E r img = Ok d).
Proof.
  unfold POST. intros H Hd.
  bind_inv H.
  destruct (is_true a0).
  - destruct (manualDoc E body) as [d|] eqn:Md; cbn in H.
    + destruct (Expense_create E d) as [st|] eqn:C; cbn in H;
        injection H as <-; cbn in Hd; [|discriminate].
      injection Hd as <-. exists d. split; [assumption | now left].
    + injection H as <-. discriminate.
  - bind_inv H.
    destruct (truthy a1); cbn in H; [| injection H as <-; discriminate].
    bind_inv H.
    unfold analyzeReceiptWithGemini in H.
    destruct (generateContent E a2) as [text|] eqn:G; cbn in H;
      [| injection H as <-; discriminate].
    destruct (analyzeReceiptText E text) as [r|] eqn:A; cbn in H;
      [| injection H as <-; discriminate].
    destruct (scanDoc E r a1) as [d|] eqn:Sd; cbn in H;
      [| injection H as <-; discriminate].
    destruct (Expense_create E d) as [st|] eqn:C; cbn in H;
      injection H as <-; cbn in Hd; [|discriminate].
    injection Hd as <-. exists d. split; [assumption |].
    right. exists a2, text, r, a1. auto.
Qed.

Lemma num_or_zero_passed_through (x : number) :
  passed_through x (num_or x (num "0")).
Proof.
  unfold passed_through, nonneg, num_ltb, num_leb, SFltb, SFleb, num_or.
  change (num "0") with (S754_zero false).
  destruct x as [s | s | | s m e]; try destruct s; cbn;
    split; intros H; try reflexivity; discriminate H.
Qed.

Lemma mapM_Forall2 {A B : Type} (f : A -> M B) (l : list A) (bs : list B) :
  mapM f l = Ok bs -> Forall2 (fun a b => f a = Ok b) l bs.
Proof.
  revert bs. induction l as [| a l IH]; intros bs H; cbn [mapM] in H.
  - injection H as <-. constructor.
  - bind_inv H. injection H as <-. constructor; auto.
Qed.

Lemma fromParsed_lineItems E p text r :
  fromParsed E p text = Ok r ->
  exists v, Get p "lineItems" = Ok v
            /\ match v with
               | VArr items => mapM normalizeItem items = Ok (Extracted.lineItems r)
               | _ => Extracted.lineItems r = []
               end.
Proof.
  intros H. unfold fromParsed in H. bind_inv H. injection H as <-. cbn.
  eexists. split; [reflexivity |].
  match goal with
  | L : _ = Ok ?l |- match ?v with _ => _ end =>
      destruct v; try (injection L as <-; reflexivity); exact L
  end.
Qed.

Lemma normalizeItem_prices (item : value) (i : LineItem.t) :
  normalizeItem item = Ok i -> prices_passed_through item i.
Proof.
  unfold normalizeItem. intros H. bind_inv H. injection H as <-.
  unfold prices_passed_through.
  cbn [LineItem.unitPrice LineItem.totalPrice].
  do 4 eexists. do 4 (split; [eassumption |]).
  split; apply num_or_zero_passed_through.
Qed.

(** C1, amended.  Extraction and normalisation clamp nothing.  On a
    decoded object whose normalisation raises no exception, each of
    subtotal, tax and total, and each unit price and total price of a line
    item, is the negative number its candidate parses to whenever it parses
    to one, and is at least 0 otherwise.  The scan branch copies the
    amounts of the record, line items included, unchanged into the document
    it hands to [Expense.create].  It is the schema that refuses a negative
    amount: whenever [POST] answers with a stored record, the document it
    handed to [Expense.create] (built by the manual branch, or from the
    record of the pipeline) has subtotal, tax and total at least 0, and tip
    and discount at least 0 when present. *)
Theorem amounts_passed_through_then_validated (E : Env) (SS : StoreSound E) :
  (forall p text r cs ct cu xs xt xu,
      fromParsed E p text = Ok r ->
      Get p "subtotal" = Ok cs -> parseFloat cs = Ok xs ->
      Get p "tax" = Ok ct -> parseFloat ct = Ok xt ->
      Get p "total" = Ok cu -> parseFloat cu = Ok xu ->
      passed_through xs (Extracted.subtotal r)
      /\ passed_through xt (Extracted.tax r)
      /\ passed_through xu (Extracted.total r))
  /\ (forall p text r items,
         fromParsed E p text = Ok r ->
         Get p "lineItems" = Ok (VArr items) ->
         Forall2 prices_passed_through items (Extracted.lineItems r))
  /\ (forall r img d,
         scanDoc E r img = Ok d ->
         Doc.subtotal d = Extracted.subtotal r
         /\ Doc.tax d = Extracted.tax r
         /\ Doc.tip d = Extracted.tip r
         /\ Doc.discount d = Extracted.discount r
         /\ Doc.total d = Extracted.total r
         /\ Doc.lineItems d
            = VArr (map LineItem.to_value (Extracted.lineItems r)))
  /\ (forall body resp stored,
         POST E body = Ok resp -> data resp = Some stored ->
         exists d,
           Expense_create E d = Ok stored
           /\ (manualDoc E body = Ok d
               \/ exists base64 text r img,
                    generateContent E base64 = Ok text
                    /\ analyzeReceiptText E text = Ok r
                    /\ Get body "imageUrl" = Ok img
                    /\ scanDoc E r img = Ok d)
           /\ nonneg (Doc.subtotal d) /\ nonneg (Doc.tax d)
           /\ nonneg (Doc.total d)
           /\ (forall x, Doc.tip d = Some x -> nonneg x)
           /\ (forall x, Doc.discount d = Some x -> nonneg x)).
Proof.
  split; [| split; [| split]].
  - intros p text r cs ct cu xs xt xu H Gs Ps Gt Pt Gu Pu.
    destruct (fromParsed_amounts _ _ _ _ H)
      as (s & s' & t & t' & u & u' & Gs' & Ps' & Gt' & Pt' & Gu' & Pu'
          & Rs & Rt & Ru).
    rewrite Gs in Gs'. injection Gs' as <-. rewrite Ps in Ps'.
    injection Ps' as <-.
    rewrite Gt in Gt'. injection Gt' as <-. rewrite Pt in Pt'.
    injection Pt' as <-.
    rewrite Gu in Gu'. injection Gu' as <-. rewrite Pu in Pu'.
    injection Pu' as <-.
    rewrite Rs, Rt, Ru. repeat split; apply num_or_zero_passed_through.
  - intros p text r items H G.
    destruct (fromParsed_lineItems _ _ _ _ H) as (v & G' & L).
    rewrite G in G'. injection G' as <-.
    apply mapM_Forall2 in L.
    eapply Forall2_impl; [| exact L]. exact normalizeItem_prices.
  - intros r img d H. unfold scanDoc in H. bind_inv H.
    injection H as <-. repeat split.
  - intros body resp stored H Hd.
    destruct (POST_created E body resp stored H Hd) as (d & C & B).
    exists d. split; [assumption |]. split; [assumption |].
    apply validators_amounts. eapply SS. eassumption.
Qed.

Lemma sampleEnv_sound (text : jsstring) : StoreSound (sampleEnv text).
Proof.
  intros d stored. cbn. unfold sample_create.
  destruct (ExpenseSchema_validators d); [reflexivity | discriminate].
Defined.

Lemma amounts_witness :
  (exists r,
      fromParsed (sampleEnv []) negative_object [] = Ok r
      /\ Extracted.subtotal r = num "-5"
      /\ nonneg (Extracted.tax r) /\ nonneg (Extracted.total r)
      /\ Forall2 prices_passed_through [negative_item]
           (Extracted.lineItems r)
      /\ exists d, scanDoc (sampleEnv []) r sample_image = Ok d
                   /\ Doc.subtotal d = num "-5")
  /\ exists d,
       POST (sampleEnv plain_text) scan_request = Ok (created d)
       /\ nonneg (Doc.subtotal d) /\ nonneg (Doc.tax d) /\ nonneg (Doc.total d)
       /\ (forall x, Doc.tip d = Some x -> nonneg x)
       /\ (forall x, Doc.discount d = Some x -> nonneg x).
Proof.
  split.
  - destruct (amounts_passed_through_then_validated (sampleEnv [])
                (sampleEnv_sound [])) as (A & L & D & _).
    assert (P : exists r,
               fromParsed (sampleEnv []) negative_object [] = Ok r
               /\ exists d, scanDoc (sampleEnv []) r sample_image = Ok d)
      by (eexists; split;
          [vm_compute; reflexivity | eexists; vm_compute; reflexivity]).
    destruct P as (r & P & d & Q). exists r. split; [exact P |].
    destruct (A _ _ _ (VNum (num "-5")) VUndef VUndef (num "-5") NaN NaN P
                eq_refl eq_refl eq_refl eq_refl eq_refl eq_refl)
      as ((Ns & _) & (_ & Nt) & (_ & Nu)).
    assert (Sr : Extracted.subtotal r = num "-5") by (apply Ns; reflexivity).
    split; [exact Sr |].
    split; [apply Nt; reflexivity |]. split; [apply Nu; reflexivity |].
    split; [exact (L negative_object [] r [negative_item] P eq_refl) |].
    exists d. split; [exact Q |].
    destruct (D r sample_image d Q) as (Ds & _). now rewrite Ds.
  - destruct (amounts_passed_through_then_validated (sampleEnv plain_text)
                (sampleEnv_sound plain_text)) as (_ & _ & _ & B).
    assert (P : exists st, POST (sampleEnv plain_text) scan_request
                           = Ok (created st))
      by (eexists; vm_compute; reflexivity).
    destruct P as (st & P).
    destruct (B scan_request _ st P eq_refl) as (d & C & _ & R).
    exists st. split; [exact P |].
    cbn in C. unfold sample_create in C.
    destruct (ExpenseSchema_validators d); [| discriminate C].
    injection C as <-. exact R.
Defined.

(** *** A total that is not a number *)

(** C4 (the code departs from it).  The normalisation never raises, but the
    record is not always complete.  In the answer [total: .] the total
    pattern captures the dot, which [parseFloat] reads as [NaN]; the
    fallback tier hands it on as the total, where the first tier writes
    [parseFloat(...) || 0].  On every host the record of that answer is the
    fallback record, its total is [NaN], and the schema refuses every
    document built from it. *)
Theorem fallback_total_is_not_a_number (E : Env) :
  (forall text, exists r, analyzeReceiptText E text = Ok r)
  /\ String_match re_total dotted_total_text = Some [lit "total: ."; lit "."]
  /\ parseFloat_string (lit ".") = NaN
  /\ exists r,
       analyzeReceiptText E dotted_total_text = Ok r
       /\ r = fallback E dotted_total_text
       /\ isNaN (Extracted.total r) = true
       /\ forall img,
            exists d, scanDoc E r img = Ok d
                      /\ isNaN (Doc.total d) = true
                      /\ ExpenseSchema_validators d = false.
Proof.
  split.
  { intros text. destruct (analyze_complete E text) as (r & A & _). eauto. }
  split; [vm_compute; reflexivity |]. split; [vm_compute; reflexivity |].
  exists (fallback E dotted_total_text).
  split; [apply analyze_fallback; intros r; vm_compute; discriminate |].
  split; [reflexivity |]. split; [vm_compute; reflexivity |].
  intros img.
  assert (S : exists d, scanDoc E (fallback E dotted_total_text) img = Ok d)
    by (eexists; reflexivity).
  destruct S as (d & S). exists d. split; [exact S |].
  assert (T : isNaN (Doc.total d) = true).
  { unfold scanDoc in S. bind_inv S. injection S as <-.
    cbn [Doc.total]. vm_compute. reflexivity. }
  split; [exact T |].
  destruct (ExpenseSchema_validators d) eqn:V; [| reflexivity].
  apply validators_amounts in V as (_ & _ & N & _).
  unfold nonneg, num_leb in N. apply SFleb_not_NaN_r in N.
  rewrite N in T. discriminate T.
Qed.

(** ** The manual branch *)

Lemma manualDoc_enums E body d c pm :
  manualDoc E body = Ok d ->
  Get body "category" = Ok c ->
  Get body "paymentMethod" = Ok pm ->
  Doc.category d = or_else c (VStr (lit "Other"))
  /\ Doc.paymentMethod d = or_else pm (VStr (lit "Other")).
Proof.
  unfold manualDoc. intros H Hc Hpm. bind_inv H. injection H as <-. cbn.
  rewrite Hc in *. rewrite Hpm in *.
  repeat match goal with
         | G : Ok _ = Ok _ |- _ => injection G as <-
         end.
  split; reflexivity.
Qed.

Lemma validators_enums (d : Doc.t) :
  ExpenseSchema_validators d = true ->
  enum_path ExpenseCategory.values (Doc.category d) = true
  /\ enum_path PaymentMethod.values (Doc.paymentMethod d) = true
  /\ date_path (Doc.date d) = true.
Proof.
  unfold ExpenseSchema_validators. intros H.
  repeat (apply andb_true_iff in H as [H ?]). auto.
Qed.

(** The manual branch hands the category [Bogus] to the store as it is,
    where the decoded-object path turns the same candidate into [Other]; the
    sample store refuses the document and nothing is stored. *)
Lemma manual_bogus_category_kept :
  (exists d, manualDoc (sampleEnv []) bogus_manual = Ok d
             /\ Doc.category d = VStr (lit "Bogus")
             /\ Doc.category d <> VStr (lit "Other"))
  /\ (exists r, fromParsed (sampleEnv []) bogus_manual [] = Ok r
                /\ Extracted.category r = VStr (lit "Other"))
  /\ POST (sampleEnv []) bogus_manual
     = Ok (failure 500 "Failed to save manual entry.").
Proof.
  split; [| split].
  - eexists. split; [vm_compute; reflexivity |].
    split; [vm_compute; reflexivity | vm_compute; discriminate].
  - eexists. split; vm_compute; reflexivity.
  - vm_compute. reflexivity.
Qed.

(** C3, amended.  The manual branch makes no membership test of its own:
    [category] and [paymentMethod] are the submitted value when it is truthy
    and [Other] only when it is absent or falsy.  The enumeration is enforced
    by the schema alone, by refusal: a manual body whose category (or payment
    method) is a non-empty string outside the labels is answered with status
    500 and nothing is stored. *)
Theorem manual_enum_left_to_store (E : Env) (SS : StoreSound E)
  (body c pm : value)
  (Hdb : dbConnect E = Ok tt)
  (Hm : Get body "manual" = Ok (VBool true))
  (Hc : Get body "category" = Ok c)
  (Hpm : Get body "paymentMethod" = Ok pm) :
  (forall d, manualDoc E body = Ok d ->
             Doc.category d = or_else c (VStr (lit "Other"))
             /\ Doc.paymentMethod d = or_else pm (VStr (lit "Other")))
  /\ (forall s, s <> [] ->
        (c = VStr s /\ ~ In s ExpenseCategory.values)
        \/ (pm = VStr s /\ ~ In s PaymentMethod.values) ->
        POST E body = Ok (failure 500 "Failed to save manual entry.")).
Proof.
  split.
  - intros d Hd. eapply manualDoc_enums; eassumption.
  - intros s Hs Bad. unfold POST. rewrite Hdb, Hm. cbn.
    destruct (manualDoc E body) as [d|] eqn:Md; cbn; [| reflexivity].
    destruct (Expense_create E d) as [st|] eqn:C; cbn; [| reflexivity].
    exfalso. apply SS in C.
    destruct (validators_enums d C) as (Vc & Vp & _).
    destruct (manualDoc_enums _ _ _ _ _ Md Hc Hpm) as (Dc & Dp).
    assert (T : truthy (VStr s) = true) by (destruct s; [contradiction | reflexivity]).
    destruct Bad as [[-> N] | [-> N]].
    + rewrite Dc, (or_else_truthy _ _ T) in Vc. unfold enum_path in Vc.
      now apply existsb_str_In in Vc.
    + rewrite Dp, (or_else_truthy _ _ T) in Vp. unfold enum_path in Vp.
      now apply existsb_str_In in Vp.
Qed.

Lemma Bogus_is_no_category : ~ In (lit "Bogus") ExpenseCategory.values.
Proof.
  intros I. apply existsb_str_In in I. vm_compute in I. discriminate I.
Defined.

Lemma manual_enum_witness :
  (exists d, manualDoc (sampleEnv []) bogus_manual = Ok d
             /\ Doc.category d = VStr (lit "Bogus")
             /\ Doc.paymentMethod d = VStr (lit "Cash"))
  /\ POST (sampleEnv []) bogus_manual
     = Ok (failure 500 "Failed to save manual entry.").
Proof.
  destruct (manual_enum_left_to_store (sampleEnv []) (sampleEnv_sound [])
              bogus_manual (VStr (lit "Bogus")) (VStr (lit "Cash"))
              eq_refl eq_refl eq_refl eq_refl) as (K & R).
  split.
  - eexists. split; [vm_compute; reflexivity |].
    apply K. vm_compute. reflexivity.
  - apply (R (lit "Bogus")); [discriminate |].
    left. split; [reflexivity | exact Bogus_is_no_category].
Defined.

(** *** What the manual branch keeps of a body *)

Lemma or_else_kept (body : value) (k : string) (a dflt : value) :
  Get body k = Ok a -> kept body k dflt (or_else a dflt).
Proof.
  intros G v G' Hv. rewrite G in G'. injection G' as ->.
  destruct Hv as [T | ->].
  - now apply or_else_truthy.
  - unfold or_else. now destruct (truthy dflt).
Qed.

Lemma num_or_field (body : value) (k : string) (a : value) (x : number) :
  Get body k = Ok a -> parseFloat a = Ok x ->
  number_field body k (num_or x (num "0")).
Proof.
  intros G P. constructor.
  - intros v y G' P'. rewrite G in G'. injection G' as <-.
    rewrite P in P'. now injection P' as <-.
  - intros y G' R T. rewrite G in G'. injection G' as ->.
    cbn [parseFloat ToString bind] in P. injection P as <-.
    rewrite R. unfold num_or. now rewrite T.
  - intros y G' T. rewrite G in G'. injection G' as ->.
    cbn [parseFloat ToString bind] in P. injection P as <-.
    destruct y as [sy | sy | | sy my ey]; try discriminate T;
      vm_compute; reflexivity.
Qed.

Lemma bind_congr {A B : Type} (m m' : M A) (f f' : A -> M B) :
  m = m' -> (forall a, f a = f' a) -> bind m f = bind m' f'.
Proof. intros -> H. destruct m' as [a | e]; [apply H | reflexivity]. Qed.

(** A member under another key does not change what a key reads. *)
Lemma lookup_insert_other (k k' : jsstring) (v : value)
  (m1 m2 : list (jsstring * value)) :
  str_eqb k' k = false ->
  lookup k (m1 ++ (k', v) :: m2) = lookup k (m1 ++ m2).
Proof.
  intros N. induction m1 as [| [ka va] m1 IH]; cbn [app lookup].
  - rewrite N. now destruct (lookup k m2).
  - now rewrite IH.
Qed.

Lemma Get_insert_other (k : string) (k' : jsstring) (v : value)
  (m1 m2 : list (jsstring * value)) :
  str_eqb k' (lit k) = false ->
  Get (VObj (m1 ++ (k', v) :: m2)) k = Get (VObj (m1 ++ m2)) k.
Proof. intros N. unfold Get. now rewrite lookup_insert_other. Qed.

(** The manual branch never reads [subcategory]. *)
Lemma manualDoc_ignores_subcategory (E : Env) (v : value)
  (m1 m2 : list (jsstring * value)) :
  manualDoc E (VObj (m1 ++ (lit "subcategory", v) :: m2))
  = manualDoc E (VObj (m1 ++ m2)).
Proof.
  unfold manualDoc.
  repeat (apply bind_congr;
          [first [reflexivity | apply Get_insert_other; reflexivity]
          | intros ?; cbv beta]).
  reflexivity.
Qed.

(** C7, amended.  The document the manual branch hands to the store keeps
    every submitted text, list and flag it has a field for, when the value
    is truthy.  Each of subtotal, tax, tip, discount and total is the number
    [parseFloat] reads from the submitted value, and 0 when that number is
    zero or [NaN]: a submitted number is kept when its decimal text reads
    back to it, and a zero of either sign is stored as [+0].  The date string
    is turned into a Date.  Not kept, besides the time stamps and the
    source: [expenseType], always [Personal]; [confidence], always 1; and
    [subcategory], which the branch never reads, so that the document is
    the same whatever the body says of it. *)
Theorem manual_roundtrip (E : Env) (body : value) (d : Doc.t)
  (H : manualDoc E body = Ok d) :
  ManualRoundTrip E body d
  /\ forall m1 m2 v,
       body = VObj (m1 ++ m2) ->
       manualDoc E (VObj (m1 ++ (lit "subcategory", v) :: m2)) = Ok d.
Proof.
  split.
  - unfold manualDoc in H. bind_inv H. injection H as <-.
    constructor; cbn;
      try reflexivity;
      try (eapply or_else_kept; eassumption);
      try (eapply num_or_field; eassumption);
      try (eexists; split; [reflexivity | eapply num_or_field; eassumption]).
    intros s G.
    match goal with
    | G' : Get body "date" = Ok ?a, N : new_Date _ ?a = Ok _ |- _ =>
        rewrite G in G'; injection G' as <-; cbn in N; now injection N as <-
    end.
  - intros m1 m2 v ->. now rewrite manualDoc_ignores_subcategory.
Qed.

Lemma manual_roundtrip_witness :
  exists d,
    manualDoc (sampleEnv []) full_manual = Ok d
    /\ Doc.vendor d = VStr (lit "Acme")
    /\ Doc.total d = num "13"
    /\ Doc.tip d = Some (num "2")
    /\ Doc.category d = VStr (lit "Groceries")
    /\ Doc.isRecurring d = VBool true
    /\ Doc.date d = iso_date_parse (lit "2024-03-01")
    /\ Doc.expenseType d = VStr (lit "Personal")
    /\ Doc.confidence d = num "1"
    /\ manualDoc (sampleEnv []) full_manual_with_subcategory = Ok d.
Proof.
  assert (P : exists d, manualDoc (sampleEnv []) full_manual = Ok d)
    by (eexists; vm_compute; reflexivity).
  destruct P as (d & P). exists d. split; [exact P |].
  destruct (manual_roundtrip (sampleEnv []) full_manual d P) as ([] & S).
  repeat split.
  - apply rt_vendor0; [reflexivity | left; reflexivity].
  - apply (nf_kept _ _ _ rt_total0);
      [reflexivity | vm_compute; reflexivity | reflexivity].
  - destruct rt_tip0 as (t & -> & K). f_equal.
    apply (nf_kept _ _ _ K);
      [reflexivity | vm_compute; reflexivity | reflexivity].
  - apply rt_category0; [reflexivity | left; reflexivity].
  - apply rt_isRecurring0; [reflexivity | left; reflexivity].
  - rewrite (rt_date0 (lit "2024-03-01") eq_refl). vm_compute. reflexivity.
  - assumption.
  - assumption.
  - exact (S [(lit "manual", VBool true)] _ (VStr (lit "Dairy")) eq_refl).
Defined.

(** The record stored for [full_manual] is a personal expense with
    confidence 1: two submitted fields besides the time stamps and the
    source are not kept. *)
Lemma manual_expenseType_and_confidence_overwritten :
  Get full_manual "expenseType" = Ok (VStr (lit "Business"))
  /\ Get full_manual "confidence" = Ok (VNum (num "0.8"))
  /\ exists d,
       POST (sampleEnv []) full_manual = Ok (created d)
       /\ Doc.expenseType d = VStr (lit "Personal")
       /\ Doc.expenseType d <> VStr (lit "Business")
       /\ Doc.confidence d = num "1"
       /\ Doc.confidence d <> num "0.8".
Proof.
  split; [reflexivity |]. split; [reflexivity |].
  eexists. split; [vm_compute; reflexivity |].
  repeat split; try (vm_compute; reflexivity); vm_compute; discriminate.
Qed.

(** ** Dates *)

(** *** The ISO date of a time value is read back *)

Lemma all_from_spec (f : Z -> bool) (n : nat) (z : Z) :
  all_from n z f = true ->
  forall i, z <= i < z + Z.of_nat n -> f i = true.
Proof.
  revert z. induction n as [| n IH]; intros z H i Hi; [lia |].
  cbn [all_from] in H. destruct (f z) eqn:F; [| discriminate H].
  destruct (Z.eq_dec i z) as [-> | N]; [exact F |].
  apply (IH (z + 1) H). lia.
Qed.

Lemma cycle_days_ok : all_from (N.to_nat 146097) 0 cycle_day_ok = true.
Proof. vm_cast_no_check (eq_refl true). Qed.

Lemma civil_from_days_shift (z k : Z) :
  civil_from_days (z + 146097 * k)
  = let '(y, m, d) := civil_from_days z in (y + 400 * k, m, d).
Proof.
  unfold civil_from_days. cbv zeta.
  replace (z + 146097 * k + 719468) with (z + 719468 + k * 146097) by ring.
  rewrite Z.div_add by lia.
  set (era := (z + 719468) / 146097).
  replace (z + 719468 + k * 146097 - (era + k) * 146097)
    with (z + 719468 - era * 146097) by ring.
  set (doe := z + 719468 - era * 146097).
  set (yoe := (doe - doe / 1460 + doe / 36524 - doe / 146096) / 365).
  set (doy := doe - (365 * yoe + yoe / 4 - yoe / 100)).
  set (mp := (5 * doy + 2) / 153).
  replace (yoe + (era + k) * 400) with (yoe + era * 400 + 400 * k) by ring.
  destruct ((if mp <? 10 then mp + 3 else mp - 9) <=? 2);
    [| reflexivity].
  now replace (yoe + era * 400 + 400 * k + 1)
    with (yoe + era * 400 + 1 + 400 * k) by ring.
Qed.

Lemma days_from_civil_shift (y m d k : Z) :
  days_from_civil (y + 400 * k) m d = days_from_civil y m d + 146097 * k.
Proof.
  unfold days_from_civil. cbv zeta.
  set (y' := if m <=? 2 then y - 1 else y).
  replace (if m <=? 2 then y + 400 * k - 1 else y + 400 * k)
    with (y' + k * 400) by (unfold y'; destruct (m <=? 2); ring).
  rewrite Z.div_add by lia.
  set (era := y' / 400).
  replace (y' + k * 400 - (era + k) * 400) with (y' - era * 400) by ring.
  ring.
Qed.

Lemma days_in_month_shift (y m k : Z) :
  days_in_month (y + 400 * k) m = days_in_month y m.
Proof.
  unfold days_in_month.
  replace ((y + 400 * k) mod 4) with (y mod 4)
    by (replace (y + 400 * k) with (y + (100 * k) * 4) by ring;
        now rewrite Z.mod_add by lia).
  replace ((y + 400 * k) mod 100) with (y mod 100)
    by (replace (y + 400 * k) with (y + (4 * k) * 100) by ring;
        now rewrite Z.mod_add by lia).
  replace ((y + 400 * k) mod 400) with (y mod 400)
    by (replace (y + 400 * k) with (y + k * 400) by ring;
        now rewrite Z.mod_add by lia).
  reflexivity.
Qed.

(** Every day from 1970-01-01 to 9999-12-31 has a civil date of the
    calendar, with a year of four digits, that counts back to the day. *)
Lemma civil_from_days_valid (z : Z) :
  0 <= z < 2932897 ->
  let '(y, m, d) := civil_from_days z in
  0 <= y <= 9999 /\ 1 <= m <= 12 /\ 1 <= d <= days_in_month y m
  /\ days_from_civil y m d = z.
Proof.
  intros Hz.
  set (k := (z + 719468) / 146097).
  set (z' := (z + 719468) mod 146097).
  assert (Dv : z + 719468 = 146097 * k + z') by (apply Z.div_mod; lia).
  assert (Rz : 0 <= z' < 146097) by (apply Z.mod_pos_bound; lia).
  assert (Rk : 4 <= k <= 24).
  { unfold k. split.
    - apply Z.div_le_lower_bound; lia.
    - apply Z.lt_succ_r. apply Z.div_lt_upper_bound; lia. }
  pose proof (all_from_spec cycle_day_ok _ 0 cycle_days_ok z') as C.
  rewrite N_nat_Z in C. specialize (C ltac:(lia)).
  replace z with (z' - 719468 + 146097 * k) by lia.
  rewrite civil_from_days_shift. unfold cycle_day_ok in C.
  destruct (civil_from_days (z' - 719468)) as [[y m] d].
  repeat (apply andb_true_iff in C as [C ?]).
  rewrite days_in_month_shift, days_from_civil_shift.
  repeat match goal with
         | H : (_ <=? _) = true |- _ => apply Z.leb_le in H
         | H : (_ =? _) = true |- _ => apply Z.eqb_eq in H
         | H : (_ || _)%bool = true |- _ => apply orb_true_iff in H
         | H : (_ <? _) = true \/ _ |- _ =>
             rewrite Z.ltb_lt, Z.leb_le in H
         end.
  lia.
Qed.

Lemma isDigit_digit (n : Z) : isDigit (digit n) = true.
Proof.
  unfold isDigit, in_range, digit.
  pose proof (Z.mod_pos_bound n 10 ltac:(lia)).
  apply andb_true_iff. split; apply N.leb_le; lia.
Qed.

Lemma digit_val_digit (n : Z) : digit_val (digit n) = n mod 10.
Proof.
  unfold digit_val, digit. pose proof (Z.mod_pos_bound n 10 ltac:(lia)). lia.
Qed.

Lemma digits_val_pad2 (n : Z) : 0 <= n <= 99 -> digits_val (pad2 n) = n.
Proof.
  intros H. unfold pad2, digits_val. cbn [fold_left].
  rewrite !digit_val_digit.
  pose proof (Z.div_mod n 10 ltac:(lia)).
  pose proof (Z.mod_pos_bound n 10 ltac:(lia)).
  rewrite (Z.mod_small (n / 10) 10) by lia. lia.
Qed.

Lemma digits_val_pad4 (n : Z) : 0 <= n <= 9999 -> digits_val (pad4 n) = n.
Proof.
  intros H. unfold pad4, digits_val. cbn [fold_left].
  rewrite !digit_val_digit.
  replace (n / 100) with (n / 10 / 10)
    by (rewrite Z.div_div by lia; reflexivity).
  replace (n / 1000) with (n / 10 / 10 / 10)
    by (rewrite !Z.div_div by lia; reflexivity).
  pose proof (Z.div_mod n 10 ltac:(lia)).
  pose proof (Z.mod_pos_bound n 10 ltac:(lia)).
  pose proof (Z.div_mod (n / 10) 10 ltac:(lia)).
  pose proof (Z.mod_pos_bound (n / 10) 10 ltac:(lia)).
  pose proof (Z.div_mod (n / 10 / 10) 10 ltac:(lia)).
  pose proof (Z.mod_pos_bound (n / 10 / 10) 10 ltac:(lia)).
  rewrite (Z.mod_small (n / 10 / 10 / 10) 10) by lia. lia.
Qed.

Lemma iso_date_parse_text (y m d : Z) :
  0 <= y <= 9999 -> 1 <= m <= 12 -> 1 <= d <= days_in_month y m ->
  iso_date_parse (date_text (y, m, d))
  = Some (days_from_civil y m d * 86400000).
Proof.
  intros Hy Hm Hd.
  assert (Hd' : d <= 99).
  { unfold days_in_month in Hd.
    repeat match type of Hd with
           | context [if ?c then _ else _] => destruct c
           end; lia. }
  change (date_text (y, m, d))
    with [digit (y / 1000); digit (y / 100); digit (y / 10); digit y;
          ch "-"; digit (m / 10); digit m; ch "-"; digit (d / 10); digit d].
  unfold iso_date_parse. cbn [forallb]. rewrite !isDigit_digit.
  change (is_char "-" (ch "-")) with true. cbn [andb].
  change [digit (y / 1000); digit (y / 100); digit (y / 10); digit y]
    with (pad4 y).
  change [digit (m / 10); digit m] with (pad2 m).
  change [digit (d / 10); digit d] with (pad2 d).
  rewrite digits_val_pad4, !digits_val_pad2 by lia. cbv zeta.
  replace (1 <=? m) with true by (symmetry; apply Z.leb_le; lia).
  replace (m <=? 12) with true by (symmetry; apply Z.leb_le; lia).
  replace (1 <=? d) with true by (symmetry; apply Z.leb_le; lia).
  replace (d <=? days_in_month y m) with true
    by (symmetry; apply Z.leb_le; lia).
  reflexivity.
Qed.

(** On the text of its own date, an ISO reader gives the midnight that
    starts the day. *)
Lemma toISODate_reads_back (t : Z) :
  0 <= t < 253402300800000 ->
  iso_date_parse (toISODate t) = Some (t - t mod 86400000).
Proof.
  intros Ht. unfold toISODate.
  assert (Hz : 0 <= t / 86400000 < 2932897).
  { split; [apply Z.div_pos; lia | apply Z.div_lt_upper_bound; lia]. }
  pose proof (civil_from_days_valid _ Hz) as V.
  destruct (civil_from_days (t / 86400000)) as [[y m] d].
  destruct V as (Hy & Hm & Hd & Hb).
  rewrite iso_date_parse_text by assumption. rewrite Hb. f_equal.
  pose proof (Z.div_mod t 86400000 ltac:(lia)). lia.
Qed.


(** The word is no calendar date, yet it stays in the record in place of
    the processing date, and the scan request is answered with status 500;
    the same request is stored when the answer has no date at all. *)
Lemma unparseable_date_is_kept :
  iso_date_parse (lit "unknown") = None
  /\ (exists r,
        analyzeReceiptText (sampleEnv []) unknown_date_text = Ok r
        /\ Extracted.date r = VStr (lit "unknown")
        /\ Extracted.date r <> VStr (today (sampleEnv [])))
  /\ POST (sampleEnv unknown_date_text) scan_request
     = Ok (failure 500 "Failed to process receipt.")
  /\ exists d, POST (sampleEnv (JSON.json "{}")) scan_request = Ok (created d).
Proof.
  split; [reflexivity |]. split; [| split].
  - eexists. split; [vm_compute; reflexivity |].
    split; [vm_compute; reflexivity | vm_compute; discriminate].
  - vm_compute. reflexivity.
  - eexists. vm_compute. reflexivity.
Qed.

Lemma scanDoc_date E r img d :
  scanDoc E r img = Ok d ->
  new_Date (Date_parse E) (Extracted.date r) = Ok (Doc.date d).
Proof. unfold scanDoc. intros H. bind_inv H. now injection H as <-. Qed.

(** C8, amended.  On a decoded object whose normalisation raises no
    exception, the date of the record is the processing date when the
    candidate is absent or falsy; any other candidate is kept as it is,
    whether or not it reads as a date.  In the fallback tier the date is the
    processing date when no date line matches.  A record dated with the
    processing date gives the document the Date read from the text of that
    day; on a host whose [Date.parse] reads the ISO date form as the
    standard prescribes, and for a processing date of the years 1970 to
    9999, that is the valid Date of the midnight (UTC) that starts the day,
    so the date does not make persistence fail.  A record whose date does
    not give a valid Date is refused by the store, and the scan request is
    answered with status 500. *)
Theorem date_rules (E : Env) (SS : StoreSound E) :
  (forall p text r c,
      fromParsed E p text = Ok r -> Get p "date" = Ok c ->
      (truthy c = false -> Extracted.date r = VStr (today E))
      /\ (truthy c = true -> Extracted.date r = c))
  /\ (forall text,
         String_match re_date text = None ->
         Extracted.date (fallback E text) = VStr (today E))
  /\ (forall r img d,
         Extracted.date r = VStr (today E) ->
         scanDoc E r img = Ok d ->
         Doc.date d = TimeClip (Date_parse E (today E))
         /\ forall t,
              0 <= t < 253402300800000 -> today E = toISODate t ->
              reads_ISO_dates E ->
              Doc.date d = Some (t - t mod 86400000)
              /\ date_path (Doc.date d) = true)
  /\ (forall body m u text r,
         dbConnect E = Ok tt ->
         Get body "manual" = Ok m -> is_true m = false ->
         Get body "imageUrl" = Ok (VStr u) -> u <> [] ->
         generateContent E (split_comma_1 u) = Ok text ->
         analyzeReceiptText E text = Ok r ->
         new_Date (Date_parse E) (Extracted.date r) = Ok None ->
         POST E body = Ok (failure 500 "Failed to process receipt.")).
Proof.
  split; [| split; [| split]].
  - intros p text r c H G.
    destruct (fromParsed_date _ _ _ _ H) as (c' & G' & R).
    rewrite G in G'. injection G' as <-. rewrite R. split; intros T.
    + now apply or_else_falsy.
    + now apply or_else_truthy.
  - intros text N. unfold fallback. cbn. now rewrite N.
  - intros r img d Hr Hd. apply scanDoc_date in Hd.
    rewrite Hr in Hd. cbn [new_Date] in Hd. injection Hd as <-.
    split; [reflexivity |]. intros t Ht Hs Hp.
    rewrite (Hp _ _ (eq_trans (f_equal iso_date_parse Hs)
                       (toISODate_reads_back t Ht))).
    unfold TimeClip.
    pose proof (Z.mod_pos_bound t 86400000 ltac:(lia)) as B.
    replace (Z.abs (t - t mod 86400000) <=? 8640000000000000) with true
      by (symmetry; apply Z.leb_le; lia).
    split; reflexivity.
  - intros body m u text r Hdb Hm Hf Hu Hne Hg Ha Hbad.
    unfold POST. rewrite Hdb, Hm. cbn. rewrite Hf, Hu. cbn.
    destruct u as [|u0 u']; [contradiction |]. cbn [truthy negb base64Of bind].
    unfold analyzeReceiptWithGemini. rewrite Hg. cbn [bind]. rewrite Ha.
    cbn [bind].
    destruct (scanDoc E r (VStr (u0 :: u'))) as [d|] eqn:Sd; cbn;
      [| reflexivity].
    destruct (Expense_create E d) as [st|] eqn:C; cbn; [| reflexivity].
    exfalso. apply SS in C. apply validators_enums in C as (_ & _ & Dp).
    apply scanDoc_date in Sd. rewrite Hbad in Sd. injection Sd as Sd.
    rewrite <- Sd in Dp. discriminate Dp.
Qed.

Lemma date_rules_witness :
  (exists r, fromParsed (sampleEnv []) (VObj []) [] = Ok r
             /\ Extracted.date r = VStr (lit "2025-01-15")
             /\ exists d, scanDoc (sampleEnv []) r sample_image = Ok d
                          /\ date_path (Doc.date d) = true)
  /\ (exists r, fromParsed (sampleEnv []) (VObj [(lit "date", VStr (lit "unknown"))]) []
                = Ok r
                /\ Extracted.date r = VStr (lit "unknown"))
  /\ Extracted.date (fallback (sampleEnv []) (lit "no labelled line"))
     = VStr (lit "2025-01-15")
  /\ POST (sampleEnv unknown_date_text) scan_request
     = Ok (failure 500 "Failed to process receipt.").
Proof.
  destruct (date_rules (sampleEnv unknown_date_text)
              (sampleEnv_sound unknown_date_text)) as (_ & _ & _ & Bad).
  destruct (date_rules (sampleEnv []) (sampleEnv_sound []))
    as (T1 & T2 & Good & _).
  split; [| split; [| split]].
  - assert (P : exists r, fromParsed (sampleEnv []) (VObj []) [] = Ok r)
      by (eexists; vm_compute; reflexivity).
    destruct P as (r & P). exists r. split; [exact P |].
    pose proof (proj1 (T1 _ _ _ VUndef P eq_refl) eq_refl) as Dr.
    split; [exact Dr |].
    assert (Q : exists d, scanDoc (sampleEnv []) r sample_image = Ok d)
      by (unfold scanDoc; rewrite Dr; eexists; vm_compute; reflexivity).
    destruct Q as (d & Q). exists d. split; [exact Q |].
    apply (proj2 (Good r sample_image d Dr Q) 1736942400000);
      [lia | vm_compute; reflexivity | intros s v Hs; exact Hs].
  - eexists. split; [vm_compute; reflexivity |].
    refine (proj2 (T1 (VObj [(lit "date", VStr (lit "unknown"))]) [] _
                     (VStr (lit "unknown")) eq_refl eq_refl) eq_refl).
  - apply T2. vm_compute. reflexivity.
  - eapply (Bad scan_request VUndef (lit "data:image/jpeg;base64,AAAA")
              unknown_date_text);
      try reflexivity; discriminate.
Defined.

Lemma analyzeReceiptText_total_witness :
  (exists r, analyzeReceiptText (sampleEnv []) null_item_text = Ok r
             /\ Complete r)
  /\ analyzeReceiptText (sampleEnv []) null_item_text
     = Ok (fallback (sampleEnv []) null_item_text).
Proof.
  destruct (analyzeReceiptText_total (sampleEnv []) null_item_text)
    as (Ex & Nl).
  split; [exact Ex |].
  apply (Nl [JSON.json "{`lineItems`:[null]}"] null_item_object [VNull]);
    try (vm_compute; reflexivity).
  left. reflexivity.
Defined.

(* ================================================================== *)
(** * Part 7. Further properties *)
(* ================================================================== *)

(** ** The regular expressions *)

Lemma star_k_none {A : Type} (p : jschar -> bool) (s : jsstring)
  (k : jsstring -> option A) :
  (forall pre rest, s = pre ++ rest -> k rest = None) -> star_k p s k = None.
Proof.
  induction s as [| c s IH]; intros H; cbn [star_k].
  - apply (H [] []). reflexivity.
  - assert (K : k (c :: s) = None) by (apply (H []); reflexivity).
    destruct (p c); [| exact K].
    rewrite IH; [exact K |].
    intros pre rest E. apply (H (c :: pre)). cbn. now rewrite E.
Qed.

Lemma star_k_some {A : Type} (p : jschar -> bool) (s : jsstring)
  (k : jsstring -> option A) (x : A) :
  star_k p s k = Some x ->
  exists pre rest, s = pre ++ rest /\ forallb p pre = true /\ k rest = Some x.
Proof.
  induction s as [| c s IH]; cbn [star_k]; intros H.
  - exists [], []. auto.
  - destruct (p c) eqn:P.
    + destruct (star_k p s k) as [y|] eqn:S.
      * injection H as ->. destruct (IH eq_refl) as (pre & rest & -> & F & K).
        exists (c :: pre), rest. cbn. rewrite P, F. auto.
      * exists [], (c :: s). auto.
    + exists [], (c :: s). auto.
Qed.

(** The greedy star in front of a closing character stops at the last one. *)
Lemma star_k_last {A : Type} (a : ascii) (b c : jsstring) (f : jsstring -> A) :
  no_char a c ->
  star_k any_char (b ++ ch a :: c)
    (fun s' => match s' with
               | x :: s'' => if is_char a x then Some (f s'') else None
               | [] => None
               end)
  = Some (f c).
Proof.
  intros Hc.
  assert (N : forall pre rest, c = pre ++ rest ->
                match rest with
                | x :: s'' => if is_char a x then Some (f s'') else None
                | [] => None
                end = None).
  { intros pre [| x rest] E; [reflexivity |].
    rewrite (Hc x); [reflexivity |]. rewrite E. apply in_or_app. right. now left. }
  induction b as [| y b IH]; cbn [app star_k any_char].
  - rewrite (star_k_none _ _ _ N). unfold is_char. now rewrite N.eqb_refl.
  - now rewrite IH.
Qed.

Lemma consumed_app (pre rest : jsstring) : consumed (pre ++ rest) rest = pre.
Proof.
  unfold consumed. rewrite length_app.
  replace (List.length pre + List.length rest - List.length rest)%nat
    with (List.length pre) by lia.
  rewrite firstn_app, Nat.sub_diag, firstn_all. cbn. apply app_nil_r.
Qed.

Lemma re_json_here (s : jsstring) :
  rmatch re_json s [] (fun s' caps => Some (consumed s s' :: caps))
  = match s with
    | x :: s1 =>
        if is_char "{" x
        then star_k any_char s1
               (fun s' => match s' with
                          | y :: s'' =>
                              if is_char "}" y then Some [consumed s s'']
                              else None
                          | [] => None
                          end)
        else None
    | [] => None
    end.
Proof. destruct s as [| x s1]; reflexivity. Qed.

(** X1.  The brace pattern takes the text from the first opening brace to the
    last closing brace, whatever lies between them. *)
Theorem re_json_first_to_last (a b c : jsstring) :
  no_char "{" a -> no_char "}" c ->
  String_match re_json (a ++ ch "{" :: b ++ ch "}" :: c)
  = Some [ch "{" :: b ++ [ch "}"]].
Proof.
  intros Ha Hc. induction a as [| x a IH].
  - cbn [app]. unfold String_match. rewrite re_json_here.
    unfold is_char at 1. rewrite N.eqb_refl.
    rewrite (star_k_last "}" b c
               (fun r => [consumed (ch "{" :: b ++ ch "}" :: c) r]) Hc).
    do 2 f_equal.
    change (ch "{" :: b ++ ch "}" :: c) with ((ch "{" :: b) ++ ch "}" :: c).
    replace ((ch "{" :: b) ++ ch "}" :: c)
      with (((ch "{" :: b) ++ [ch "}"]) ++ c)
      by (rewrite <- app_assoc; reflexivity).
    apply consumed_app.
  - cbn [app String_match]. rewrite re_json_here.
    rewrite (Ha x (or_introl eq_refl)).
    apply IH. intros y Hy. apply Ha. now right.
Qed.

Lemma re_json_witness :
  String_match re_json (JSON.json "Here: {`a`:{`b`:1}} and {`c`:2}. Bye")
  = Some [JSON.json "{`a`:{`b`:1}} and {`c`:2}"].
Proof.
  apply (re_json_first_to_last (lit "Here: ")
           (JSON.json "`a`:{`b`:1}} and {`c`:2") (lit ". Bye"));
    intros c I; vm_compute in I;
    repeat (destruct I as [<- | I]; [reflexivity |]); destruct I.
Defined.

Lemma re_json_none (s : jsstring) :
  no_char "{" s \/ no_char "}" s -> String_match re_json s = None.
Proof.
  intros H. induction s as [| x s IH].
  - reflexivity.
  - cbn [String_match]. rewrite re_json_here.
    assert (T : no_char "{" s \/ no_char "}" s).
    { destruct H as [H | H]; [left | right]; intros y Hy; apply H; now right. }
    destruct (is_char "{" x) eqn:X; [| now apply IH].
    destruct H as [H | H].
    + rewrite (H x (or_introl eq_refl)) in X. discriminate X.
    + rewrite star_k_none; [now apply IH |].
      intros pre [| y rest] E; [reflexivity |].
      rewrite (H y); [reflexivity |].
      right. rewrite E. apply in_or_app. right. now left.
Qed.

(** X2.  A text without an opening brace, or without a closing one, is read by
    the line patterns alone: on every host the result is the fallback record,
    whatever the decoder would answer. *)
Theorem no_brace_fallback (E : Env) (text : jsstring) :
  no_char "{" text \/ no_char "}" text ->
  analyzeReceiptText E text = Ok (fallback E text).
Proof.
  intros H. apply analyze_fallback. intros r. unfold structured.
  rewrite (re_json_none text H). discriminate.
Qed.

Lemma no_brace_fallback_witness :
  analyzeReceiptText (sampleEnv []) (lit "Store: Corner Shop } total: 3")
  = Ok (fallback (sampleEnv []) (lit "Store: Corner Shop } total: 3")).
Proof.
  apply no_brace_fallback. left.
  intros c I. vm_compute in I.
  repeat (destruct I as [<- | I]; [reflexivity |]). destruct I.
Defined.

(** ** What the line patterns capture *)

Lemma rmatch_no_capture {A : Type} (r : regex) :
  no_capture r = true ->
  forall (s : jsstring) (caps : list jsstring)
         (k : jsstring -> list jsstring -> option A) (x : A),
    rmatch r s caps k = Some x -> exists s', k s' caps = Some x.
Proof.
  induction r as [| p | p | p | a IHa b IHb | a IHa b IHb | a IHa];
    cbn [no_capture rmatch]; intros N s caps k x H; try discriminate N.
  - eauto.
  - destruct s as [| c s]; [discriminate |].
    destruct (p c); [eauto | discriminate].
  - apply star_k_some in H as (pre & rest & _ & _ & H). eauto.
  - destruct s as [| c s]; [discriminate |].
    destruct (p c); [| discriminate].
    apply star_k_some in H as (pre & rest & _ & _ & H). eauto.
  - apply andb_true_iff in N as [Na Nb].
    apply (IHa Na) in H as (s1 & H). apply (IHb Nb) in H. exact H.
  - apply andb_true_iff in N as [Na Nb].
    destruct (rmatch a s caps k) as [y|] eqn:Ra.
    + injection H as ->. now apply (IHa Na) in Ra.
    + now apply (IHb Nb) in H.
Qed.

Lemma rmatch_seq_no_capture {A : Type} (a b : regex) (s : jsstring)
  (caps : list jsstring) (k : jsstring -> list jsstring -> option A) (x : A) :
  no_capture a = true -> rmatch (Seq a b) s caps k = Some x ->
  exists s', rmatch b s' caps k = Some x.
Proof.
  intros N H. cbn [rmatch] in H.
  now apply (rmatch_no_capture a N) in H.
Qed.

Lemma rmatch_group_plus {A : Type} (p : jschar -> bool) (s : jsstring)
  (caps : list jsstring) (k : jsstring -> list jsstring -> option A) (x : A) :
  rmatch (Group (Plus p)) s caps k = Some x ->
  exists g rest,
    s = g ++ rest /\ g <> [] /\ forallb p g = true
    /\ k rest (caps ++ [g]) = Some x.
Proof.
  cbn [rmatch]. destruct s as [| c s]; [discriminate |].
  destruct (p c) eqn:P; [| discriminate]. intros H.
  apply star_k_some in H as (pre & rest & -> & F & H).
  exists (c :: pre), rest. repeat split.
  - discriminate.
  - cbn. now rewrite P, F.
  - change (c :: pre ++ rest) with ((c :: pre) ++ rest) in H.
    now rewrite consumed_app in H.
Qed.

Lemma String_match_here (r : regex) (s : jsstring) (m : list jsstring) :
  String_match r s = Some m ->
  exists s1, rmatch r s1 [] (fun s' caps => Some (consumed s1 s' :: caps))
             = Some m.
Proof.
  induction s as [| c s IH]; cbn [String_match].
  - destruct (rmatch r [] [] _) as [y|] eqn:R; [| discriminate].
    intros [= <-]. eauto.
  - destruct (rmatch r (c :: s) [] _) as [y|] eqn:R.
    + intros [= <-]. eauto.
    + exact IH.
Qed.

(** A labelled pattern, [label \s* (class+)], captures a non-empty run of
    its class. *)
Lemma labelled_capture (label : regex) (p : jschar -> bool) (s : jsstring)
  (m : list jsstring) :
  no_capture label = true ->
  String_match (Seq label (Seq (Star isWhiteSpace) (Group (Plus p)))) s
  = Some m ->
  group1 m <> [] /\ forallb p (group1 m) = true.
Proof.
  intros N H. apply String_match_here in H as (s1 & H).
  apply (rmatch_seq_no_capture _ _ _ _ _ _ N) in H as (s2 & H).
  apply (rmatch_seq_no_capture (Star isWhiteSpace)) in H as (s3 & H);
    [| reflexivity].
  apply rmatch_group_plus in H as (g & rest & _ & G & F & H).
  injection H as <-. cbn. auto.
Qed.

Lemma re_vendor_capture s m :
  String_match re_vendor s = Some m ->
  group1 m <> [] /\ forallb dot (group1 m) = true.
Proof.
  intros H. apply String_match_here in H as (s1 & H). unfold re_vendor in H.
  apply rmatch_seq_no_capture in H as (s2 & H); [| reflexivity].
  apply rmatch_seq_no_capture in H as (s3 & H); [| reflexivity].
  apply rmatch_seq_no_capture in H as (s4 & H); [| reflexivity].
  apply rmatch_group_plus in H as (g & rest & _ & G & F & H).
  injection H as <-. cbn. auto.
Qed.

Lemma re_date_capture s m :
  String_match re_date s = Some m ->
  group1 m <> [] /\ forallb dot (group1 m) = true.
Proof. apply labelled_capture. reflexivity. Qed.

Lemma re_total_capture s m :
  String_match re_total s = Some m ->
  group1 m <> [] /\ forallb digit_or_dot (group1 m) = true.
Proof. apply labelled_capture. reflexivity. Qed.

(** ** The fallback record *)

Lemma binary_round_aux_unsigned (mx ex : Z) (lx : location) :
  nonneg_or_NaN (binary_round_aux prec emax false mx ex lx).
Proof.
  unfold binary_round_aux.
  destruct (shr_fexp prec emax mx ex lx) as (mrs', e').
  destruct (shr_fexp prec emax _ e' loc_Exact) as (mrs'', e'').
  destruct (shr_m mrs'') as [| m | m].
  - left. reflexivity.
  - destruct (e'' <=? emax - prec); left; reflexivity.
  - right. reflexivity.
Qed.

Lemma round_decimal_unsigned (m e : Z) : nonneg_or_NaN (round_decimal false m e).
Proof.
  unfold round_decimal. destruct m as [| p | p]; try (left; reflexivity).
  destruct (0 <=? e) eqn:Le.
  - apply Z.leb_le in Le.
    assert (P : 0 < Z.pos p * 10 ^ e) by (apply Z.mul_pos_pos; [lia | apply Z.pow_pos_nonneg; lia]).
    destruct (Z.pos p * 10 ^ e) as [| q | q] eqn:Q; try lia.
    cbn [binary_normalize]. unfold binary_round.
    destruct (shl_align q 0 _) as (mz, ez). apply binary_round_aux_unsigned.
  - destruct (SFdiv_core_binary prec emax (Z.pos p) 0 (10 ^ (- e)) 0)
      as ((q, e'), l).
    apply binary_round_aux_unsigned.
Qed.

Lemma read_unsigned_unsigned (s : jsstring) : nonneg_or_NaN (read_unsigned false s).
Proof.
  unfold read_unsigned.
  destruct (starts_with (lit "Infinity") s); [left; reflexivity |].
  destruct (span isDigit s) as (ip, s1).
  destruct (match s1 with
            | [] => ([], s1)
            | c :: s1' => if (c =? ch ".")%N then span isDigit s1' else ([], s1)
            end) as (fp, s2).
  destruct (read_exponent s2) as (ex, rest).
  destruct ip, fp; try (right; reflexivity); apply round_decimal_unsigned.
Qed.

Lemma digit_or_dot_cases (c : jschar) :
  digit_or_dot c = true ->
  isWhiteSpace c = false /\ (c =? ch "-")%N = false /\ (c =? ch "+")%N = false.
Proof.
  unfold digit_or_dot, isDigit, in_range, is_char. intros H.
  assert (R : (46 <= c <= 57)%N).
  { apply orb_true_iff in H as [H | H].
    - apply andb_true_iff in H as [H1 H2].
      apply N.leb_le in H1, H2. lia.
    - apply N.eqb_eq in H. subst c. cbn. lia. }
  assert (D : (c = 46 \/ c = 47 \/ c = 48 \/ c = 49 \/ c = 50 \/ c = 51
               \/ c = 52 \/ c = 53 \/ c = 54 \/ c = 55 \/ c = 56 \/ c = 57)%N)
    by lia.
  repeat (destruct D as [-> | D]; [repeat split; reflexivity |]).
  subst c. repeat split; reflexivity.
Qed.

(** A token of digits and dots is never read as a negative number. *)
Lemma parseFloat_digits_unsigned (g : jsstring) :
  forallb digit_or_dot g = true -> nonneg_or_NaN (parseFloat_string g).
Proof.
  destruct g as [| c g]; [right; reflexivity |].
  cbn [forallb]. intros H. apply andb_true_iff in H as [H _].
  destruct (digit_or_dot_cases c H) as (W & Mi & Pl).
  unfold parseFloat_string. cbn [trimStart]. rewrite W, Mi, Pl.
  apply read_unsigned_unsigned.
Qed.

(** X3.  In the fallback tier no amount is negative: subtotal and tax are zero
    and the total, read from a run of digits and dots, is at least zero or
    [NaN]. *)
Theorem fallback_amounts_unsigned (E : Env) (text : jsstring) :
  Extracted.subtotal (fallback E text) = num "0"
  /\ Extracted.tax (fallback E text) = num "0"
  /\ nonneg_or_NaN (Extracted.total (fallback E text))
  /\ num_ltb (Extracted.total (fallback E text)) (num "0") = false.
Proof.
  assert (T : nonneg_or_NaN (Extracted.total (fallback E text))).
  { unfold fallback. cbn [Extracted.total].
    destruct (String_match re_total text) as [m|] eqn:M.
    - apply parseFloat_digits_unsigned. now apply (re_total_capture text).
    - left. reflexivity. }
  repeat split; try assumption.
  unfold nonneg_or_NaN, nonneg, num_leb, num_ltb, SFleb, SFltb in *.
  change (num "0") with (S754_zero false) in *.
  destruct (Extracted.total (fallback E text)) as [s | s | | s m e];
    try reflexivity; destruct s; try reflexivity;
    destruct T as [T | T]; discriminate T.
Qed.

Lemma forallb_trimStart (p : jschar -> bool) (s : jsstring) :
  forallb p s = true -> forallb p (trimStart s) = true.
Proof.
  induction s as [| c s IH]; [reflexivity |]. intros H. cbn [trimStart].
  destruct (isWhiteSpace c); [| exact H].
  apply IH. cbn in H. now apply andb_true_iff in H as [_ H].
Qed.

Lemma forallb_rev (p : jschar -> bool) (s : jsstring) :
  forallb p (rev s) = forallb p s.
Proof.
  induction s as [| c s IH]; [reflexivity |].
  cbn [rev forallb]. rewrite forallb_app, IH. cbn. now rewrite andb_true_r, andb_comm.
Qed.

Lemma forallb_trim (p : jschar -> bool) (s : jsstring) :
  forallb p s = true -> forallb p (trim s) = true.
Proof.
  intros H. unfold trim. rewrite forallb_rev. apply forallb_trimStart.
  rewrite forallb_rev. now apply forallb_trimStart.
Qed.

Lemma trimStart_idem (s : jsstring) : trimStart (trimStart s) = trimStart s.
Proof.
  induction s as [| c s IH]; [reflexivity |]. cbn [trimStart].
  destruct (isWhiteSpace c) eqn:W; [exact IH |]. cbn [trimStart]. now rewrite W.
Qed.

(** Dropping white space at the end leaves the start as it is. *)
Lemma trimStart_rev_keeps_head (s : jsstring) :
  trimStart s = s -> trimStart (rev (trimStart (rev s))) = rev (trimStart (rev s)).
Proof.
  destruct s as [| c s]; [reflexivity |].
  cbn [trimStart]. destruct (isWhiteSpace c) eqn:W.
  - intros H. exfalso.
    assert (L : (List.length (trimStart s) <= List.length s)%nat).
    { clear. induction s as [| x s IH]; cbn; [lia |].
      destruct (isWhiteSpace x); cbn; lia. }
    rewrite H in L. cbn in L. lia.
  - intros _. cbn [rev].
    assert (K : forall t, exists u, rev (trimStart (t ++ [c])) = c :: u).
    { induction t as [| x t IH]; cbn [app trimStart].
      - rewrite W. exists []. reflexivity.
      - destruct (isWhiteSpace x); [exact IH |].
        exists (rev t ++ [x]). cbn [rev]. rewrite rev_app_distr. reflexivity. }
    destruct (K (rev s)) as (u & ->). cbn [trimStart]. now rewrite W.
Qed.

(** X4.  When a vendor or date line matches, the field of the fallback record
    is one line of text without white space at either end. *)
Theorem fallback_labelled_fields (E : Env) (text : jsstring) :
  (forall m, String_match re_vendor text = Some m ->
             exists v, Extracted.vendor (fallback E text) = VStr v
                       /\ forallb dot v = true
                       /\ trimStart v = v /\ trimStart (rev v) = rev v)
  /\ (forall m, String_match re_date text = Some m ->
                exists v, Extracted.date (fallback E text) = VStr v
                          /\ forallb dot v = true
                          /\ trimStart v = v /\ trimStart (rev v) = rev v).
Proof.
  assert (T : forall g, forallb dot g = true ->
                forallb dot (trim g) = true
                /\ trimStart (trim g) = trim g
                /\ trimStart (rev (trim g)) = rev (trim g)).
  { intros g F. split; [now apply forallb_trim |]. unfold trim. split.
    - apply trimStart_rev_keeps_head. apply trimStart_idem.
    - rewrite rev_involutive. apply trimStart_idem. }
  split; intros m M; unfold fallback; cbn [Extracted.vendor Extracted.date];
    rewrite M; eexists; (split; [reflexivity |]); apply T.
  - now apply (re_vendor_capture text).
  - now apply (re_date_capture text).
Qed.

Lemma fallback_labelled_fields_witness :
  exists v,
    Extracted.vendor (fallback (sampleEnv []) (lit "Vendor:   Corner Shop  "))
    = VStr v
    /\ forallb dot v = true /\ trimStart v = v /\ trimStart (rev v) = rev v.
Proof.
  exact (proj1 (fallback_labelled_fields (sampleEnv [])
                  (lit "Vendor:   Corner Shop  "))
           [lit "Vendor:   Corner Shop  "; lit "Corner Shop  "] eq_refl).
Defined.

(** ** Line items *)

Lemma or_else_truthy_default (a b : value) :
  truthy b = true -> truthy (or_else a b) = true.
Proof. unfold or_else. intros Hb. now destruct (truthy a) eqn:T. Qed.






(** X6.  An element of [lineItems] that is neither an object nor [null] nor
    [undefined] (a number, a string, a boolean, an array) gives the default
    item. *)
Theorem normalizeItem_primitive (item : value) :
  (forall m, item <> VObj m) -> item <> VNull -> item <> VUndef ->
  normalizeItem item = Ok default_item.
Proof.
  intros No Nn Nu.
  destruct item; try reflexivity; try contradiction.
  now destruct (No m).
Qed.

Lemma normalizeItem_primitive_witness :
  normalizeItem (VNum (num "3")) = Ok default_item
  /\ normalizeItem (VArr [VStr (lit "Milk")]) = Ok default_item.
Proof.
  split; apply normalizeItem_primitive; discriminate.
Defined.

(** ** What the schema can refuse on the scan branch *)

Lemma fromParsed_defaults E p text r :
  fromParsed E p text = Ok r ->
  exists v c w,
    Get p "vendor" = Ok v /\ Get p "currency" = Ok c /\ Get p "rawText" = Ok w
    /\ Extracted.vendor r = or_else v (VStr (lit "Unknown Vendor"))
    /\ Extracted.currency r = or_else c (VStr (lit "USD"))
    /\ Extracted.rawText r = or_else w (VStr text).
Proof. intros H. fromParsed_inv H. repeat eexists; eauto. Qed.

Lemma fromParsed_options E p text r :
  fromParsed E p text = Ok r ->
  exists t d,
    Get p "tip" = Ok t /\ Get p "discount" = Ok d
    /\ (if truthy t then x <- parseFloat t ;; Ok (Some x) else Ok None)
       = Ok (Extracted.tip r)
    /\ (if truthy d then x <- parseFloat d ;; Ok (Some x) else Ok None)
       = Ok (Extracted.discount r).
Proof. intros H. fromParsed_inv H. repeat eexists; eauto. Qed.

Lemma truthy_defaulted (v : value) :
  truthy v = true -> defaulted_string_path v = true.
Proof. destruct v as [| | | | [| c s] | |]; try reflexivity; discriminate. Qed.

Lemma truthy_required (v : value) :
  truthy v = true -> required_string_path v = true.
Proof. destruct v as [| | | | [| c s] | |]; try reflexivity; discriminate. Qed.

Lemma label_path (labels : list jsstring) (v : value) :
  forallb (fun s => negb (str_eqb s [])) labels = true ->
  is_label labels v ->
  defaulted_string_path v = true /\ enum_path labels v = true.
Proof.
  intros NE (s & -> & I). split.
  - rewrite forallb_forall in NE. specialize (NE s I).
    destruct s; [discriminate NE | reflexivity].
  - cbn. now apply existsb_str_In.
Qed.

Lemma in_unit_interval_path (x : number) :
  in_unit_interval x -> number_path (num "0") (Some (num "1")) x = true.
Proof.
  intros [Lo Hi]. unfold number_path. rewrite Lo, Hi.
  unfold num_leb in Lo. now rewrite (SFleb_not_NaN_r _ _ Lo).
Qed.

Lemma analyze_currency E text r :
  analyzeReceiptText E text = Ok r -> truthy (Extracted.currency r) = true.
Proof.
  intros A. destruct (analyze_cases E text) as [(r' & S & A') | (_ & A')];
    rewrite A' in A; injection A as <-.
  - apply structured_inv in S as (m & p & _ & _ & F).
    destruct (fromParsed_defaults _ _ _ _ F) as (v & c & w & _ & _ & _ & _ & -> & _).
    now apply or_else_truthy_default.
  - reflexivity.
Qed.

(** X7.  On the scan branch the category and the payment method of the
    document are always labels of their enumerations, its expense type is
    [Personal], its source is [scan] and its confidence lies in [[0, 1]],
    whatever the model answered: the enum and range validators of these
    paths never refuse a scanned document. *)
Theorem scan_document_enums (E : Env) (text : jsstring)
  (r : Extracted.t) (img : value) (d : Doc.t)
  (A : analyzeReceiptText E text = Ok r)
  (S : scanDoc E r img = Ok d) :
  is_label ExpenseCategory.values (Doc.category d)
  /\ is_label PaymentMethod.values (Doc.paymentMethod d)
  /\ Doc.expenseType d = VStr (lit "Personal")
  /\ Doc.source d = lit "scan"
  /\ in_unit_interval (Doc.confidence d)
  /\ enum_path ExpenseCategory.values (Doc.category d) = true
  /\ enum_path PaymentMethod.values (Doc.paymentMethod d) = true
  /\ enum_path ExpenseType.values (Doc.expenseType d) = true
  /\ number_path (num "0") (Some (num "1")) (Doc.confidence d) = true.
Proof.
  destruct (analyze_complete E text) as (r' & A' & C).
  rewrite A in A'. injection A' as <-.
  unfold scanDoc in S. bind_inv S. injection S as <-.
  cbn [Doc.category Doc.paymentMethod Doc.expenseType Doc.confidence
       Doc.source].
  pose proof (complete_category r C) as Lc.
  pose proof (complete_paymentMethod r C) as Lp.
  pose proof (complete_confidence r C) as U.
  split; [exact Lc |]. split; [exact Lp |].
  split; [reflexivity |]. split; [reflexivity |]. split; [exact U |].
  split; [apply (label_path ExpenseCategory.values _ eq_refl Lc) |].
  split; [apply (label_path PaymentMethod.values _ eq_refl Lp) |].
  split; [reflexivity |].
  now apply in_unit_interval_path.
Qed.

Lemma scan_document_enums_witness :
  exists r d,
    analyzeReceiptText (sampleEnv []) negative_text = Ok r
    /\ scanDoc (sampleEnv []) r sample_image = Ok d
    /\ is_label ExpenseCategory.values (Doc.category d)
    /\ in_unit_interval (Doc.confidence d).
Proof.
  assert (P : exists r,
             analyzeReceiptText (sampleEnv []) negative_text = Ok r
             /\ exists d, scanDoc (sampleEnv []) r sample_image = Ok d)
    by (eexists; split;
        [vm_compute; reflexivity | eexists; vm_compute; reflexivity]).
  destruct P as (r & P & d & Q). exists r, d.
  split; [exact P |]. split; [exact Q |].
  destruct (scan_document_enums (sampleEnv []) negative_text r sample_image d
              P Q) as (Lc & _ & _ & _ & U & _).
  split; [exact Lc | exact U].
Defined.

Lemma validators_rawText (d : Doc.t) :
  ExpenseSchema_validators d = true ->
  required_string_path (Doc.rawText d) = true.
Proof.
  unfold ExpenseSchema_validators. intros H.
  repeat (apply andb_true_iff in H as [H ?]). assumption.
Qed.

Lemma scanDoc_fields E r img d :
  scanDoc E r img = Ok d ->
  Doc.tip d = Extracted.tip r /\ Doc.discount d = Extracted.discount r
  /\ Doc.rawText d = Extracted.rawText r /\ Doc.vendor d = Extracted.vendor r.
Proof. unfold scanDoc. intros H. bind_inv H. now injection H as <-. Qed.

(** X8.  On a decoded object whose normalisation raises no exception, a
    falsy tip or discount (absent, [null], 0, the empty text) is left out of
    the record; a truthy one is whatever [parseFloat] reads, and when that is
    [NaN] or negative the schema refuses the scanned document. *)
Theorem optional_amounts (E : Env) (parsedData : value)
  (responseText : jsstring) (r : Extracted.t) (t dc : value)
  (Gt : Get parsedData "tip" = Ok t)
  (Gd : Get parsedData "discount" = Ok dc)
  (H : fromParsed E parsedData responseText = Ok r) :
  (truthy t = false -> Extracted.tip r = None)
  /\ (truthy dc = false -> Extracted.discount r = None)
  /\ (truthy t = true -> exists x, parseFloat t = Ok x
                                   /\ Extracted.tip r = Some x)
  /\ (truthy dc = true -> exists x, parseFloat dc = Ok x
                                    /\ Extracted.discount r = Some x)
  /\ (forall x img d,
         Extracted.tip r = Some x \/ Extracted.discount r = Some x ->
         ~ nonneg x ->
         scanDoc E r img = Ok d ->
         ExpenseSchema_validators d = false).
Proof.
  destruct (fromParsed_options _ _ _ _ H) as (t' & d' & Gt' & Gd' & Ht & Hd).
  rewrite Gt in Gt'. injection Gt' as <-.
  rewrite Gd in Gd'. injection Gd' as <-.
  split; [| split; [| split; [| split]]].
  - intros T. rewrite T in Ht. now injection Ht as <-.
  - intros T. rewrite T in Hd. now injection Hd as <-.
  - intros T. rewrite T in Ht. bind_inv Ht. injection Ht as <-. eauto.
  - intros T. rewrite T in Hd. bind_inv Hd. injection Hd as <-. eauto.
  - intros x img d Hx Nx S.
    destruct (ExpenseSchema_validators d) eqn:V; [| reflexivity].
    exfalso. apply Nx.
    apply validators_amounts in V as (_ & _ & _ & Vt & Vd).
    destruct (scanDoc_fields _ _ _ _ S) as (Et & Ed & _ & _).
    destruct Hx as [Hx | Hx].
    + apply Vt. now rewrite Et.
    + apply Vd. now rewrite Ed.
Qed.

Lemma optional_amounts_witness :
  exists r,
    fromParsed (sampleEnv []) (VObj [(lit "tip", VNum (num "0"));
                                     (lit "discount", VStr (lit "n/a"))]) []
    = Ok r
    /\ Extracted.tip r = None
    /\ Extracted.discount r = Some NaN.
Proof.
  assert (P : exists r, fromParsed (sampleEnv [])
                          (VObj [(lit "tip", VNum (num "0"));
                                 (lit "discount", VStr (lit "n/a"))]) []
                        = Ok r) by (eexists; vm_compute; reflexivity).
  destruct P as (r & P). exists r. split; [exact P |].
  destruct (optional_amounts (sampleEnv [])
              (VObj [(lit "tip", VNum (num "0"));
                     (lit "discount", VStr (lit "n/a"))])
              [] r (VNum (num "0")) (VStr (lit "n/a")) eq_refl eq_refl P)
    as (T & _ & _ & D & _).
  split; [apply T; reflexivity |].
  destruct (D eq_refl) as (x & Px & ->). vm_compute in Px. now injection Px as <-.
Defined.

(** ** The raw text *)

Lemma analyze_rawText E text r :
  analyzeReceiptText E text = Ok r ->
  Extracted.rawText r = VStr text \/ truthy (Extracted.rawText r) = true.
Proof.
  intros A. destruct (analyze_cases E text) as [(r' & S & A') | (_ & A')];
    rewrite A' in A; injection A as <-.
  - apply structured_inv in S as (m & p & _ & _ & F).
    destruct (fromParsed_defaults _ _ _ _ F) as (v & c & w & _ & _ & _ & _ & _ & ->).
    unfold or_else. destruct (truthy w) eqn:T; auto.
  - left. reflexivity.
Qed.

(** X9.  The raw text of a record is never empty unless the answer of the
    model is: a non-empty answer always leaves a truthy raw text, and the
    empty answer gives the fallback record with an empty raw text, which the
    schema refuses. *)
Theorem rawText_retained (E : Env) (text : jsstring) (r : Extracted.t)
  (A : analyzeReceiptText E text = Ok r) :
  (text <> [] -> truthy (Extracted.rawText r) = true)
  /\ (text = [] ->
      r = fallback E []
      /\ Extracted.rawText r = VStr []
      /\ forall img d, scanDoc E r img = Ok d ->
                       ExpenseSchema_validators d = false).
Proof.
  split.
  - intros N. destruct (analyze_rawText _ _ _ A) as [-> | T]; [| exact T].
    destruct text; [contradiction | reflexivity].
  - intros ->.
    assert (F : analyzeReceiptText E [] = Ok (fallback E []))
      by (apply analyze_fallback; intros r0; unfold structured;
          rewrite (re_json_none [] (or_introl (fun c (I : In c []) =>
                                                 match I with end)));
          discriminate).
    rewrite F in A. injection A as <-.
    split; [reflexivity |]. split; [reflexivity |].
    intros img d S.
    destruct (ExpenseSchema_validators d) eqn:V; [| reflexivity].
    apply validators_rawText in V.
    destruct (scanDoc_fields _ _ _ _ S) as (_ & _ & Er & _).
    rewrite Er in V. discriminate V.
Qed.

Lemma rawText_retained_witness :
  exists r,
    analyzeReceiptText (sampleEnv []) (JSON.json "{`rawText`:``}") = Ok r
    /\ truthy (Extracted.rawText r) = true.
Proof.
  assert (P : exists r, analyzeReceiptText (sampleEnv [])
                          (JSON.json "{`rawText`:``}") = Ok r)
    by (eexists; vm_compute; reflexivity).
  destruct P as (r & P). exists r. split; [exact P |].
  apply (proj1 (rawText_retained (sampleEnv []) _ r P)). discriminate.
Defined.

(** ** The answers of [POST] *)

(** X10.  Whatever the host, the services and the body, an answer of [POST] is
    either status 201 carrying the record the store returned, or one of three
    fixed failures that carry a message and no record. *)
Theorem POST_answers (E : Env) (body : value) (resp : Response)
  (H : POST E body = Ok resp) :
  (exists d stored, Expense_create E d = Ok stored /\ resp = created stored)
  \/ In resp failure_messages.
Proof.
  unfold POST in H. bind_inv H. unfold failure_messages.
  destruct (is_true a0).
  - destruct (manualDoc E body) as [d|] eqn:Md; cbn in H.
    + destruct (Expense_create E d) as [st|] eqn:C; cbn in H;
        injection H as <-; [left; eauto | right; cbn; auto].
    + injection H as <-. right. cbn. auto.
  - bind_inv H.
    destruct (truthy a1); cbn in H; [| injection H as <-; right; cbn; auto].
    bind_inv H. unfold analyzeReceiptWithGemini in H.
    destruct (generateContent E a2) as [text|] eqn:G; cbn in H;
      [| injection H as <-; right; cbn; auto].
    destruct (analyzeReceiptText E text) as [r|] eqn:A; cbn in H;
      [| injection H as <-; right; cbn; auto].
    destruct (scanDoc E r a1) as [d|] eqn:Sd; cbn in H;
      [| injection H as <-; right; cbn; auto].
    destruct (Expense_create E d) as [st|] eqn:C; cbn in H;
      injection H as <-; [left; eauto | right; cbn; auto].
Qed.

Lemma POST_answers_witness :
  POST (sampleEnv unknown_date_text) scan_request
  = Ok (failure 500 "Failed to process receipt.")
  /\ In (failure 500 "Failed to process receipt.") failure_messages.
Proof.
  split; [reflexivity |].
  destruct (POST_answers (sampleEnv unknown_date_text) scan_request
              (failure 500 "Failed to process receipt.") eq_refl)
    as [(d & st & _ & B) | F].
  - discriminate B.
  - exact F.
Defined.

(** On a decoded body, an exception leaves [POST] in exactly three cases:
    the database connection fails (it is awaited outside any [try]), the
    body is [null] (or [undefined]), or, on the scan branch, [imageUrl] is
    truthy but not a string, so that it has no [split]. *)
Lemma POST_escapes (E : Env) (body : value) (e : JSError) :
  POST E body = Throw e
  <-> dbConnect E = Throw e
      \/ (exists u, dbConnect E = Ok u) /\ e = TypeError
         /\ (body = VUndef \/ body = VNull
             \/ exists m img,
                  Get body "manual" = Ok m /\ is_true m = false
                  /\ Get body "imageUrl" = Ok img /\ truthy img = true
                  /\ forall s, img <> VStr s).
Proof.
  unfold POST. split.
  - destruct (dbConnect E) as [u|e0] eqn:D; cbn [bind]; [| intros [= <-]; auto].
    intros H. right. split; [eauto |].
    destruct (Get body "manual") as [m|e1] eqn:Gm; cbn [bind] in H.
    + destruct (is_true m) eqn:Tm.
      * destruct (manualDoc E body) as [d|]; cbn in H;
          [destruct (Expense_create E d); discriminate H | discriminate H].
      * destruct (Get body "imageUrl") as [img|e2] eqn:Gi; cbn [bind] in H.
        -- destruct (truthy img) eqn:Ti; cbn in H; [| discriminate H].
           destruct img as [| | b | x | s | l | o]; cbn in H;
             try (injection H as <-; split; [reflexivity |];
                  right; right; exists m; eexists;
                  repeat split; try eassumption; discriminate).
           unfold analyzeReceiptWithGemini in H.
           destruct (generateContent E (split_comma_1 s)) as [t|]; cbn in H;
             [| discriminate H].
           destruct (analyzeReceiptText E t) as [r|]; cbn in H;
             [| discriminate H].
           destruct (scanDoc E r (VStr s)) as [d|]; cbn in H;
             [| discriminate H].
           destruct (Expense_create E d); discriminate H.
        -- destruct body; discriminate Gi || discriminate Gm.
    + injection H as <-. destruct body; try discriminate Gm;
        (injection Gm as <-; split; [reflexivity | auto]).
  - intros [D | ((u & D) & -> & B)]; rewrite D; cbn [bind]; [reflexivity |].
    destruct B as [-> | [-> | (m & img & Gm & Tm & Gi & Ti & Ns)]];
      try reflexivity.
    rewrite Gm. cbn [bind]. rewrite Tm, Gi. cbn [bind]. rewrite Ti. cbn.
    destruct img; try reflexivity. now destruct (Ns s).
Qed.

Lemma POST_escapes_witness :
  POST (sampleEnv []) (VObj [(lit "imageUrl", VNum (num "7"))])
  = Throw TypeError.
Proof.
  apply POST_escapes. right. split; [exists tt; reflexivity |].
  split; [reflexivity |]. right. right.
  exists VUndef, (VNum (num "7")). repeat split; discriminate.
Defined.

(** [POST] is the handler of a decoded body, after the connection. *)
Lemma POST_connected (E : Env) (body : value) :
  POST E body = (_ <- dbConnect E ;; POST_body E body).
Proof. reflexivity. Qed.

(** X11.  An exception leaves the handler in exactly four cases: the
    database connection fails, the body of the request does not decode (both
    are awaited outside any [try]), the decoded body is [null] (or
    [undefined]), or, on the scan branch, [imageUrl] is truthy but not a
    string, so that it has no [split].  Every failure of the vision service,
    of the pipeline or of the store is answered with a status instead. *)
Theorem POST_request_escapes (E : Env) (requestText : jsstring)
  (e : JSError) :
  POST_request E requestText = Throw e
  <-> dbConnect E = Throw e
      \/ (exists u, dbConnect E = Ok u)
         /\ (JSON_parse E requestText = Throw e
             \/ exists body,
                  JSON_parse E requestText = Ok body /\ e = TypeError
                  /\ (body = VUndef \/ body = VNull
                      \/ exists m img,
                           Get body "manual" = Ok m /\ is_true m = false
                           /\ Get body "imageUrl" = Ok img
                           /\ truthy img = true
                           /\ forall s, img <> VStr s)).
Proof.
  unfold POST_request.
  destruct (dbConnect E) as [u | e0] eqn:D; cbn [bind].
  - destruct (JSON_parse E requestText) as [body | e1] eqn:P; cbn [bind].
    + replace (POST_body E body) with (POST E body)
        by (rewrite (POST_connected E body); now rewrite D).
      rewrite (POST_escapes E body e). rewrite D. split.
      * intros [F | (_ & -> & B)]; [discriminate F |].
        right. split; [eauto |]. right. exists body. auto.
      * intros [F | (_ & [F | (b & [= <-] & -> & B)])];
          try discriminate F.
        right. split; [eauto |]. auto.
    + split.
      * intros [= <-]. right. split; [eauto |]. now left.
      * intros [F | (_ & [[= <-] | (b & F & _)])];
          [discriminate F | reflexivity | discriminate F].
  - split.
    + intros [= <-]. now left.
    + intros [[= <-] | ((u & F) & _)]; [reflexivity | discriminate F].
Qed.

Lemma POST_request_escapes_witness :
  POST_request (sampleEnv []) (JSON.json "{`imageUrl`:7}") = Throw TypeError.
Proof.
  apply POST_request_escapes. right. split; [exists tt; reflexivity |].
  right. exists (VObj [(lit "imageUrl", VNum (num "7"))]).
  split; [vm_compute; reflexivity |]. split; [reflexivity |].
  right. right. exists VUndef, (VNum (num "7")).
  repeat split; discriminate.
Defined.

(** ** Dates and images on the two branches *)

(** X12.  A manual body without a date is never stored: [new Date(undefined)]
    is an Invalid Date and the request is answered with status 500.  A manual
    body whose date is [null] is dated 1 January 1970. *)
Theorem manual_date_edges (E : Env) (SS : StoreSound E) (body : value)
  (Hdb : dbConnect E = Ok tt)
  (Hm : Get body "manual" = Ok (VBool true)) :
  (Get body "date" = Ok VUndef ->
   POST E body = Ok (failure 500 "Failed to save manual entry."))
  /\ (Get body "date" = Ok VNull ->
      forall d, manualDoc E body = Ok d -> Doc.date d = Some 0).
Proof.
  assert (K : forall v d, Get body "date" = Ok v -> manualDoc E body = Ok d ->
                new_Date (Date_parse E) v = Ok (Doc.date d)).
  { intros v d G Md. unfold manualDoc in Md. bind_inv Md.
    injection Md as <-. cbn. injection G as <-. assumption. }
  split.
  - intros G. unfold POST. rewrite Hdb, Hm. cbn.
    destruct (manualDoc E body) as [d|] eqn:Md; cbn; [| reflexivity].
    destruct (Expense_create E d) as [st|] eqn:C; cbn; [| reflexivity].
    exfalso. apply SS in C. apply validators_enums in C as (_ & _ & Dp).
    pose proof (K _ _ G eq_refl) as N. cbn in N. injection N as N.
    rewrite <- N in Dp. discriminate Dp.
  - intros G d Md. pose proof (K _ _ G Md) as N. cbn in N. now injection N as <-.
Qed.

Lemma manual_date_edges_witness :
  POST (sampleEnv []) (VObj [(lit "manual", VBool true);
                             (lit "vendor", VStr (lit "Acme"));
                             (lit "rawText", VStr (lit "typed in"))])
  = Ok (failure 500 "Failed to save manual entry.").
Proof.
  apply (manual_date_edges (sampleEnv []) (sampleEnv_sound [])); reflexivity.
Defined.

Lemma span_no_comma (s rest : jsstring) :
  no_char "," s -> (rest = [] \/ exists r, rest = ch "," :: r) ->
  span (fun c => negb (is_char "," c)) (s ++ rest) = (s, rest).
Proof.
  intros N R. induction s as [| c s IH]; cbn [app span].
  - destruct R as [-> | (r & ->)]; reflexivity.
  - rewrite (N c (or_introl eq_refl)). cbn [negb].
    rewrite IH; [reflexivity |]. intros y Hy. apply N. now right.
Qed.

(** X13.  The data handed to the vision service is the part of [imageUrl]
    between its first comma and its second (or its end): the prefix of a data
    URL is stripped.  An [imageUrl] without a comma gives [undefined]. *)
Theorem base64Of_data_url (prefix payload rest : jsstring) :
  no_char "," prefix -> no_char "," payload ->
  (rest = [] \/ exists r, rest = ch "," :: r) ->
  base64Of (VStr (prefix ++ ch "," :: payload ++ rest)) = Ok (Some payload)
  /\ base64Of (VStr prefix) = Ok None.
Proof.
  intros Np Nq R. unfold base64Of, split_comma_1. split.
  - rewrite (span_no_comma prefix (ch "," :: payload ++ rest) Np);
      [| right; eauto].
    now rewrite (span_no_comma payload rest Nq R).
  - rewrite <- (app_nil_r prefix) at 1.
    now rewrite (span_no_comma prefix [] Np); [| left].
Qed.

Lemma base64Of_data_url_witness :
  base64Of sample_image = Ok (Some (lit "AAAA")).
Proof.
  refine (proj1 (base64Of_data_url (lit "data:image/jpeg;base64") (lit "AAAA")
                   [] _ _ (or_introl eq_refl)));
    intros c I; vm_compute in I;
    repeat (destruct I as [<- | I]; [reflexivity |]); destruct I.
Defined.

(** ** [lib/mongodb.ts]: one connection attempt *)

Lemma dbConnect_settled {Conn : Type} (connect : nat -> M Conn)
  (p : M Conn) (n : nat) :
  let g := Mongodb.mkGlobal
             (Some (Mongodb.mkCache
                      (match p with Ok c => Some c | Throw _ => None end)
                      (Some p))) n in
  Mongodb.dbConnect connect g = (p, g).
Proof. destruct p; reflexivity. Qed.

Lemma calls_settled {Conn : Type} (connect : nat -> M Conn)
  (p : M Conn) (n k : nat) :
  let g := Mongodb.mkGlobal
             (Some (Mongodb.mkCache
                      (match p with Ok c => Some c | Throw _ => None end)
                      (Some p))) n in
  Mongodb.calls connect k g = (repeat p k, g).
Proof.
  intros g. induction k as [| k IH]; [reflexivity |].
  cbn [Mongodb.calls repeat]. unfold g at 1.
  rewrite (dbConnect_settled connect p n). fold g. now rewrite IH.
Qed.

(** X14.  In one process, from the first call on, every call of [dbConnect]
    has the outcome of the first connection attempt, and [mongoose.connect] is
    called once only: a connection is reused, and a failed attempt is never
    tried again. *)
Theorem dbConnect_connects_once {Conn : Type} (connect : nat -> M Conn)
  (k : nat) :
  fst (Mongodb.calls connect k Mongodb.fresh) = repeat (connect 0%nat) k
  /\ Mongodb.connects (snd (Mongodb.calls connect k Mongodb.fresh))
     = Nat.min k 1.
Proof.
  destruct k as [| k]; [split; reflexivity |].
  cbn [Mongodb.calls]. unfold Mongodb.fresh, Mongodb.dbConnect.
  cbn [Mongodb.mongoose Mongodb.conn Mongodb.promise Mongodb.connects].
  destruct (connect 0%nat) as [c | e] eqn:C.
  - pose proof (calls_settled connect (Ok c) 1 k) as S. cbn zeta in S.
    cbn [Mongodb.calls] in *. rewrite S. split; [reflexivity |].
    now destruct k.
  - pose proof (calls_settled connect (Throw e) 1 k) as S. cbn zeta in S.
    rewrite S. split; [reflexivity |]. now destruct k.
Qed.

(** ** The finance page: the slices of the chart *)

Lemma filter_true_id {A : Type} (f : A -> bool) (l : list A) :
  (forall x, In x l -> f x = true) -> filter f l = l.
Proof.
  induction l as [| a l IH]; intros H; [reflexivity |]. cbn [filter].
  rewrite (H a (or_introl eq_refl)). f_equal. apply IH.
  intros x I. apply H. now right.
Qed.

Lemma filter_false_nil {A : Type} (f : A -> bool) (l : list A) :
  (forall x, In x l -> f x = false) -> filter f l = [].
Proof.
  induction l as [| a l IH]; intros H; [reflexivity |]. cbn [filter].
  rewrite (H a (or_introl eq_refl)). apply IH.
  intros x I. apply H. now right.
Qed.

Lemma str_eqb_neq (a b : jsstring) : a <> b -> str_eqb a b = false.
Proof.
  intros N. destruct (str_eqb a b) eqn:E; [| reflexivity].
  apply str_eqb_eq in E. contradiction.
Qed.

Lemma totalSpent_snoc (l : list FT.Expense) (e : FT.Expense) :
  FT.totalSpent (l ++ [e]) = FT.add (FT.totalSpent l) (FT.total e).
Proof. unfold FT.totalSpent. rewrite fold_left_app. reflexivity. Qed.

Lemma sum_of_category_snoc (k : jsstring) (l : list FT.Expense)
  (e : FT.Expense) :
  FT.totalSpent (FT.of_category k (l ++ [e]))
  = if str_eqb (FT.category e) k
    then FT.add (FT.totalSpent (FT.of_category k l)) (FT.total e)
    else FT.totalSpent (FT.of_category k l).
Proof.
  unfold FT.of_category. rewrite filter_app. cbn [filter].
  destruct (str_eqb (FT.category e) k).
  - apply totalSpent_snoc.
  - now rewrite app_nil_r.
Qed.

Lemma distinct_In (k : jsstring) (l : list jsstring) :
  In k (FT.distinct l) <-> In k l.
Proof.
  induction l as [| a l IH]; cbn [FT.distinct]; [tauto |]. split.
  - intros [-> | H]; [now left |]. apply filter_In in H as [H _].
    right. now apply IH.
  - intros [-> | H]; [now left |]. destruct (str_eqb k a) eqn:E.
    + apply str_eqb_eq in E as ->. now left.
    + right. apply filter_In. split; [now apply IH | now rewrite E].
Qed.

Lemma distinct_NoDup (l : list jsstring) : NoDup (FT.distinct l).
Proof.
  induction l as [| a l IH]; cbn [FT.distinct]; constructor.
  - intros H. apply filter_In in H as [_ H].
    rewrite str_eqb_refl in H. discriminate H.
  - now apply NoDup_filter.
Qed.

Lemma distinct_snoc (l : list jsstring) (k : jsstring) :
  FT.distinct (l ++ [k])
  = if existsb (str_eqb k) l then FT.distinct l else FT.distinct l ++ [k].
Proof.
  induction l as [| a l IH]; [reflexivity |].
  cbn [app FT.distinct existsb]. rewrite IH.
  destruct (str_eqb k a) eqn:E; cbn [orb].
  - apply str_eqb_eq in E as ->.
    destruct (existsb (str_eqb a) l); [reflexivity |].
    rewrite filter_app. cbn [filter]. rewrite str_eqb_refl. cbn [negb].
    now rewrite app_nil_r.
  - destruct (existsb (str_eqb k) l); [reflexivity |].
    rewrite filter_app. cbn [filter]. rewrite E. reflexivity.
Qed.

Lemma bump_slices (k : jsstring) (x : number) (f g : jsstring -> number)
  (ks : list jsstring) :
  NoDup ks -> In k ks ->
  g k = FT.add (f k) x -> (forall k', k' <> k -> g k' = f k') ->
  FT.bump k x (map (fun k' => FT.mkSlice k' (f k')) ks)
  = Some (map (fun k' => FT.mkSlice k' (g k')) ks).
Proof.
  intros N I Gk Go. induction ks as [| a ks IH]; [destruct I |].
  cbn [map FT.bump FT.name FT.value]. destruct (str_eqb a k) eqn:E.
  - apply str_eqb_eq in E as ->. rewrite Gk. f_equal. f_equal.
    apply map_ext_in. intros k' I'. rewrite Go; [reflexivity |].
    intros ->. inversion N. contradiction.
  - rewrite IH.
    + rewrite (Go a); [reflexivity |].
      intros ->. rewrite str_eqb_refl in E. discriminate E.
    + now inversion N.
    + destruct I as [-> | I]; [| exact I].
      rewrite str_eqb_refl in E. discriminate E.
Qed.

Lemma bump_absent (k : jsstring) (x : number) (f : jsstring -> number)
  (ks : list jsstring) :
  ~ In k ks -> FT.bump k x (map (fun k' => FT.mkSlice k' (f k')) ks) = None.
Proof.
  induction ks as [| a ks IH]; intros N; [reflexivity |].
  cbn [map FT.bump FT.name]. rewrite str_eqb_neq.
  - rewrite IH; [reflexivity |]. intros I. apply N. now right.
  - intros ->. apply N. now left.
Qed.

Lemma step_slices (l : list FT.Expense) (e : FT.Expense) :
  FT.inherited (FT.category e) = false ->
  FT.step (FT.slices l) e = FT.slices (l ++ [e]).
Proof.
  intros H. unfold FT.step, FT.slices. rewrite map_app. cbn [map].
  rewrite distinct_snoc.
  destruct (existsb (str_eqb (FT.category e)) (map FT.category l)) eqn:X.
  - apply existsb_str_In in X.
    rewrite (bump_slices (FT.category e) (FT.total e)
               (fun k' => FT.totalSpent (FT.of_category k' l))
               (fun k' => FT.totalSpent (FT.of_category k' (l ++ [e])))).
    + reflexivity.
    + apply distinct_NoDup.
    + now apply distinct_In.
    + rewrite sum_of_category_snoc. now rewrite str_eqb_refl.
    + intros k' N. rewrite sum_of_category_snoc. rewrite str_eqb_neq; auto.
  - assert (A : ~ In (FT.category e) (map FT.category l)).
    { intros I. apply existsb_str_In in I. rewrite I in X. discriminate X. }
    rewrite bump_absent by (intros I; apply A; now apply distinct_In).
    rewrite H. rewrite map_app. cbn [map]. f_equal.
    + apply map_ext_in. intros k' I. f_equal.
      rewrite sum_of_category_snoc. rewrite str_eqb_neq; [reflexivity |].
      intros <-. apply A. now apply distinct_In.
    + f_equal. f_equal. rewrite sum_of_category_snoc, str_eqb_refl.
      unfold FT.of_category. rewrite filter_false_nil; [reflexivity |].
      intros e' I. apply str_eqb_neq. intros Q. apply A.
      rewrite <- Q. now apply in_map.
Qed.

Lemma step_inherited (l : list FT.Expense) (e : FT.Expense) :
  (forall e', In e' l -> FT.inherited (FT.category e') = false) ->
  FT.inherited (FT.category e) = true ->
  FT.step (FT.slices l) e = FT.slices l.
Proof.
  intros A H. unfold FT.step, FT.slices. rewrite bump_absent.
  - now rewrite H.
  - intros I. apply distinct_In, in_map_iff in I as (e' & Q & I).
    specialize (A e' I). rewrite Q in A. congruence.
Qed.

Lemma fold_step (l : list FT.Expense) :
  fold_left FT.step l [] = FT.slices (FT.charted l).
Proof.
  induction l as [| e l IH] using rev_ind; [reflexivity |].
  rewrite fold_left_app. cbn [fold_left]. rewrite IH.
  unfold FT.charted. rewrite filter_app. cbn [filter].
  destruct (FT.inherited (FT.category e)) eqn:I; cbn [negb].
  - rewrite app_nil_r. apply step_inherited; [| exact I].
    intros e' H. apply filter_In in H as [_ H]. now apply negb_true_iff.
  - now apply step_slices.
Qed.

Lemma Object_values_named (acc : list FT.Slice) :
  (forall s, In s acc -> FT.array_index (FT.name s) = None) ->
  FT.Object_values acc = acc.
Proof.
  intros H. unfold FT.Object_values.
  assert (I : FT.indexed acc = []).
  { induction acc as [| a acc IH]; [reflexivity |]. cbn [FT.indexed].
    rewrite (H a (or_introl eq_refl)). apply IH.
    intros s I. apply H. now right. }
  rewrite I. cbn [map app]. unfold FT.named. apply filter_true_id.
  intros s Hs. now rewrite (H s Hs).
Qed.

Lemma charted_idem (l : list FT.Expense) :
  FT.charted (FT.charted l) = FT.charted l.
Proof.
  unfold FT.charted. apply filter_true_id.
  intros e I. now apply filter_In in I.
Qed.

(** X15.  On the finance page the chart has one slice per category, in the
    order in which the categories first occur among the expenses, and the
    value of a slice is the running sum, from 0, of the totals of the expenses
    of its category.  This holds whenever the category names are ordinary
    property keys, and every category the schema accepts is one. *)
Theorem categoryData_by_category (expenses : list FT.Expense)
  (H : forall e, In e expenses -> FT.plain_key (FT.category e) = true) :
  FT.categoryData expenses = FT.slices expenses
  /\ forallb FT.plain_key ExpenseCategory.values = true.
Proof.
  split; [| vm_compute; reflexivity].
  unfold FT.categoryData. rewrite fold_step.
  assert (C : FT.charted expenses = expenses).
  { apply filter_true_id. intros e I. specialize (H e I).
    unfold FT.plain_key in H. now apply andb_true_iff in H as [H _]. }
  rewrite C. apply Object_values_named.
  intros s I. unfold FT.slices in I.
  apply in_map_iff in I as (k & <- & I). cbn [FT.name].
  apply distinct_In, in_map_iff in I as (e & <- & I).
  specialize (H e I). unfold FT.plain_key in H.
  apply andb_true_iff in H as [_ H].
  now destruct (FT.array_index (FT.category e)).
Qed.

Lemma categoryData_by_category_witness :
  FT.categoryData sample_expenses
  = [FT.mkSlice (ExpenseCategory.label ExpenseCategory.OTHER) (num "6.5");
     FT.mkSlice (lit "Travel") (num "10")].
Proof.
  transitivity (FT.slices sample_expenses); [| vm_compute; reflexivity].
  apply (categoryData_by_category sample_expenses).
  intros e I. vm_compute in I.
  repeat (destruct I as [<- | I]; [vm_compute; reflexivity |]). destruct I.
Defined.

(** X16.  An expense whose category is the name of a member every object
    inherits (["constructor"], ["toString"], ["__proto__"], ...) adds nothing
    to the chart: the chart is that of the other expenses.  [totalSpent]
    counts it all the same. *)
Theorem categoryData_inherited_names (expenses : list FT.Expense) :
  FT.categoryData expenses = FT.categoryData (FT.charted expenses)
  /\ (forall e,
        FT.inherited (FT.category e) = true ->
        FT.categoryData (expenses ++ [e]) = FT.categoryData expenses
        /\ FT.totalSpent (expenses ++ [e])
           = FT.add (FT.totalSpent expenses) (FT.total e)).
Proof.
  split.
  - unfold FT.categoryData. now rewrite !fold_step, charted_idem.
  - intros e I. split; [| apply totalSpent_snoc].
    unfold FT.categoryData. rewrite !fold_step. unfold FT.charted.
    rewrite filter_app. cbn [filter]. rewrite I. cbn [negb].
    now rewrite app_nil_r.
Qed.

Lemma categoryData_inherited_names_witness :
  FT.categoryData
    (sample_expenses ++ [FT.mkExpense (lit "constructor") (num "1")])
  = FT.categoryData sample_expenses.
Proof.
  apply (proj2 (categoryData_inherited_names sample_expenses)
           (FT.mkExpense (lit "constructor") (num "1")) eq_refl).
Defined.

(** ** The scan page *)

Lemma SFleb_trans (a b c : number) :
  SFleb a b = true -> SFleb b c = true -> SFleb a c = true.
Proof.
  unfold SFleb.
  destruct a as [sa | sa | | sa ma ea], b as [sb | sb | | sb mb eb],
           c as [sc | sc | | sc mc ec];
    cbn [SFcompare]; try discriminate; try reflexivity;
    try (destruct sa, sb, sc; cbn; intros; try discriminate; reflexivity).
  destruct sa, sb, sc; try discriminate; try reflexivity;
    change (Pos.compare_cont Eq) with Pos.compare;
    destruct (Z.compare_spec ea eb), (Z.compare_spec eb ec),
             (Z.compare_spec ea ec);
    try lia; try discriminate; try reflexivity; subst;
    destruct (Pos.compare_spec ma mb), (Pos.compare_spec mb mc),
             (Pos.compare_spec ma mc);
    cbn; try lia; try discriminate; try reflexivity.
Qed.

(** X17.  The label and the colour of a confidence go together, a larger
    confidence never has a lower label, and a confidence that is not a number
    is shown as Low. *)
Theorem confidence_labels (a b : number) :
  ScanPage.getConfidenceColor a
  = ScanPage.colour (ScanPage.rank (ScanPage.getConfidenceText a))
  /\ (num_leb a b = true ->
      (ScanPage.rank (ScanPage.getConfidenceText a)
       <= ScanPage.rank (ScanPage.getConfidenceText b))%nat)
  /\ (isNaN a = true -> ScanPage.getConfidenceText a = lit "Low").
Proof.
  unfold ScanPage.getConfidenceColor, ScanPage.getConfidenceText, ScanPage.ge,
    num_leb.
  set (h := num "0.8"). set (m := num "0.6").
  split; [| split].
  - destruct (SFleb h a); [reflexivity |]. destruct (SFleb m a); reflexivity.
  - intros L.
    destruct (SFleb h a) eqn:Ha.
    { rewrite (SFleb_trans h a b Ha L). apply Nat.le_refl. }
    destruct (SFleb m a) eqn:Ma.
    { rewrite (SFleb_trans m a b Ma L).
      destruct (SFleb h b); vm_compute; lia. }
    change (ScanPage.rank (lit "Low")) with 0%nat. apply Nat.le_0_l.
  - intros N. destruct a; try discriminate N. reflexivity.
Qed.

Lemma confidence_labels_witness :
  (ScanPage.rank (ScanPage.getConfidenceText (num "0.3"))
   <= ScanPage.rank (ScanPage.getConfidenceText (num "0.85")))%nat
  /\ ScanPage.getConfidenceText NaN = lit "Low".
Proof.
  split.
  - apply (proj1 (proj2 (confidence_labels (num "0.3") (num "0.85")))).
    vm_compute. reflexivity.
  - apply (proj2 (proj2 (confidence_labels NaN NaN))). reflexivity.
Defined.

(** X18.  What the scan page shows for the image it sent.  The handler lets an
    exception out only when the database connection fails.  The page shows a
    record only when the whole chain (vision service, reading of the answer,
    building of the document, store) succeeded, and then it is the stored
    record; otherwise it shows the message of the handler, which is [No image
    data provided.] exactly when the image text is empty.  The page's own
    default message is never shown for an answer of the handler. *)
Theorem scan_page_view (E : Env) (base64Image : jsstring) :
  (forall e, POST E (ScanPage.requestBody base64Image) = Throw e ->
             dbConnect E = Throw e)
  /\ (forall resp,
        POST E (ScanPage.requestBody base64Image) = Ok resp ->
        match ScanPage.showResponse resp with
        | ScanPage.ScanResult shown =>
            base64Image <> []
            /\ exists text r d stored,
                 generateContent E (split_comma_1 base64Image) = Ok text
                 /\ analyzeReceiptText E text = Ok r
                 /\ scanDoc E r (VStr base64Image) = Ok d
                 /\ Expense_create E d = Ok stored
                 /\ shown = Some stored
        | ScanPage.Error message =>
            (base64Image = [] /\ message = lit "No image data provided.")
            \/ (base64Image <> []
                /\ message = lit "Failed to process receipt.")
        end).
Proof.
  unfold POST.
  replace (Get (ScanPage.requestBody base64Image) "manual")
    with (@Ok value VUndef) by reflexivity.
  replace (Get (ScanPage.requestBody base64Image) "imageUrl")
    with (@Ok value (VStr base64Image)) by reflexivity.
  cbn [bind is_true base64Of].
  destruct (dbConnect E) as [u | e0]; cbn [bind];
    [| split; [intros e [= <-]; reflexivity | intros resp [=]]].
  destruct base64Image as [| c img].
  { split; [intros e [=] |]. intros resp [= <-]. left. split; reflexivity. }
  change (truthy (VStr (c :: img))) with true. cbn [negb].
  unfold analyzeReceiptWithGemini.
  assert (N : c :: img <> []) by discriminate.
  destruct (generateContent E (split_comma_1 (c :: img))) as [text | e1];
    cbn [bind try_catch];
    [| split; [intros e [=] | intros resp [= <-]; right; split;
                               [exact N | reflexivity]]].
  destruct (analyzeReceiptText E text) as [r | e1] eqn:A; cbn [bind try_catch];
    [| split; [intros e [=] | intros resp [= <-]; right; split;
                               [exact N | reflexivity]]].
  destruct (scanDoc E r (VStr (c :: img))) as [d | e1] eqn:S;
    cbn [bind try_catch];
    [| split; [intros e [=] | intros resp [= <-]; right; split;
                               [exact N | reflexivity]]].
  destruct (Expense_create E d) as [stored | e1] eqn:C; cbn [bind try_catch];
    [| split; [intros e [=] | intros resp [= <-]; right; split;
                               [exact N | reflexivity]]].
  split; [intros e [=] |]. intros resp [= <-].
  change (ScanPage.showResponse (created stored))
    with (ScanPage.ScanResult (Some stored)).
  split; [exact N |]. exists text, r, d, stored. auto.
Qed.

Lemma scan_page_view_witness :
  POST (sampleEnv unknown_date_text)
    (ScanPage.requestBody (lit "data:image/jpeg;base64,AAAA"))
  = Ok (failure 500 "Failed to process receipt.")
  /\ match ScanPage.showResponse (failure 500 "Failed to process receipt.") with
     | ScanPage.ScanResult _ => False
     | ScanPage.Error message => message = lit "Failed to process receipt."
     end.
Proof.
  split; [reflexivity |].
  pose proof (proj2 (scan_page_view (sampleEnv unknown_date_text)
                       (lit "data:image/jpeg;base64,AAAA"))
                (failure 500 "Failed to process receipt.") eq_refl) as V.
  change (ScanPage.showResponse (failure 500 "Failed to process receipt."))
    with (ScanPage.Error (lit "Failed to process receipt.")) in *.
  destruct V as [[V _] | [_ V]]; [discriminate V | exact V].
Defined.

(** ** The earlier route *)

Lemma rmatch_word {A : Type} (w : string) (s : jsstring)
  (caps : list jsstring) (k : jsstring -> list jsstring -> option A) :
  rmatch (Legacy.word w) s caps k
  = match starts_with (lit w) s with
    | Some rest => k rest caps
    | None => None
    end.
Proof.
  revert s. induction w as [| a w IH]; intros s.
  - destruct s; reflexivity.
  - cbn [Legacy.word rmatch lit starts_with]. destruct s as [| c s].
    + reflexivity.
    + unfold is_char. rewrite (N.eqb_sym c (ch a)).
      destruct (N.eqb (ch a) c); [apply IH | reflexivity].
Qed.

Lemma star_k_ext {A : Type} (p : jschar -> bool) (s : jsstring)
  (k k' : jsstring -> option A) :
  (forall s', k s' = k' s') -> star_k p s k = star_k p s k'.
Proof.
  intros H. induction s as [| c s IH]; cbn [star_k]; [apply H |].
  now rewrite IH, H.
Qed.

Lemma star_k_any {A : Type} (s : jsstring) (f : jsstring -> A) :
  star_k any_char s (fun s' => Some (f s')) = Some (f []).
Proof.
  induction s as [| c s IH]; [reflexivity |].
  cbn [star_k any_char]. now rewrite IH.
Qed.

Lemma star_k_white {A : Type} (s : jsstring) (f : jsstring -> A) :
  star_k isWhiteSpace s (fun s' => Some (f s')) = Some (f (trimStart s)).
Proof.
  induction s as [| c s IH]; [reflexivity |].
  cbn [star_k trimStart]. destruct (isWhiteSpace c); [now rewrite IH |].
  reflexivity.
Qed.

Lemma consumed_nil (s : jsstring) : consumed s [] = s.
Proof.
  unfold consumed. cbn [List.length]. rewrite Nat.sub_0_r. apply firstn_all.
Qed.

Lemma re_RAWTEXT_here (s : jsstring) :
  rmatch Legacy.re_RAWTEXT s [] (fun s' caps => Some (consumed s s' :: caps))
  = match starts_with (lit "RAWTEXT:") s with
    | Some rest => Some [s; trimStart rest]
    | None => None
    end.
Proof.
  unfold Legacy.re_RAWTEXT. cbn [rmatch]. rewrite rmatch_word.
  destruct (starts_with (lit "RAWTEXT:") s) as [rest |]; [| reflexivity].
  rewrite (star_k_ext isWhiteSpace rest _
             (fun s' => Some ([consumed s []; consumed s' []]))).
  - rewrite (star_k_white rest (fun s' => [consumed s []; consumed s' []])).
    now rewrite !consumed_nil.
  - intros s'.
    apply (star_k_any s' (fun s'' => consumed s s'' :: [] ++ [consumed s' s''])).
Qed.

Lemma re_RAWTEXT_match (s : jsstring) :
  match String_match Legacy.re_RAWTEXT s with
  | Some m => Some (group1 m)
  | None => None
  end
  = option_map trimStart (Legacy.after_first (lit "RAWTEXT:") s).
Proof.
  induction s as [| c s IH]; cbn [String_match Legacy.after_first];
    rewrite re_RAWTEXT_here.
  - destruct (starts_with (lit "RAWTEXT:") []); reflexivity.
  - destruct (starts_with (lit "RAWTEXT:") (c :: s)); [reflexivity | exact IH].
Qed.

(** X19.  The raw text of the earlier route is what follows the first
    [RAWTEXT:] label of the answer, to its very end, without the white space
    around it; an answer without the label is kept whole and untrimmed. *)
Theorem legacy_rawText (fullYear : number) (responseText : jsstring) :
  Legacy.rawText (Legacy.analyzeReceiptText fullYear responseText)
  = match Legacy.after_first (lit "RAWTEXT:") responseText with
    | Some rest => trim rest
    | None => responseText
    end.
Proof.
  unfold Legacy.analyzeReceiptText. cbn [Legacy.rawText].
  pose proof (re_RAWTEXT_match responseText) as H.
  destruct (String_match Legacy.re_RAWTEXT responseText) as [m |];
    destruct (Legacy.after_first (lit "RAWTEXT:") responseText) as [rest |];
    try discriminate H; [| reflexivity].
  injection H as ->. unfold trim. now rewrite trimStart_idem.
Qed.

(** X20.  The total of the earlier route is never [NaN] and never a negative
    zero: a [TOTAL:] line that does not start with a number, like a missing
    one, gives 0. *)
Theorem legacy_total (fullYear : number) (responseText : jsstring) :
  let t := Legacy.total (Legacy.analyzeReceiptText fullYear responseText) in
  isNaN t = false
  /\ (isZero t = true -> t = num "0")
  /\ (String_match Legacy.re_TOTAL responseText = None -> t = num "0").
Proof.
  unfold Legacy.analyzeReceiptText. cbn [Legacy.total]. cbv zeta.
  assert (K : forall x, isNaN (num_or x (num "0.00")) = false
                        /\ (isZero (num_or x (num "0.00")) = true ->
                            num_or x (num "0.00") = num "0")).
  { intros x. unfold num_or, truthy_number.
    destruct x as [sx | sx | | sx mx ex]; cbn [isZero isNaN orb negb];
      split; try reflexivity; try discriminate; intros _; reflexivity. }
  split; [apply K |]. split; [apply K |].
  intros ->. vm_compute. reflexivity.
Qed.

Lemma legacy_total_witness :
  Legacy.total (Legacy.analyzeReceiptText (num "2024") (lit "total: 12"))
  = num "0".
Proof.
  apply (proj2 (proj2 (legacy_total (num "2024") (lit "total: 12")))).
  vm_compute. reflexivity.
Defined.
